(** * Preimage resolution in lnd: external preimage client, resolution glue
      and preimage beacon

    A shallow embedding of

    - [extpreimage/client.go]   (the external preimage client, [Retrieve]),
    - [extpreimage/invoice.go] and [channeldb/invoice_preimages.go]
      (the per-invoice resolution, [GetPaymentPreimage]),
    - the two versions of [witness_beacon.go] (the preimage beacon:
      [LookupPreimage], [AddPreimage], [pollExtpreimage], [Stop]).

    Go values are modelled as follows.  A byte slice and a byte array are
    both a [list byte]; an array [[32]byte] is a list of length 32 (the zero
    value is 32 zero bytes).  A Go [error] is an [option error], [None]
    being [nil].  Integers are [Z] with the wrap-around written out.  A
    method on a pointer receiver is a state transformer on the receiver; an
    interface is a type class whose methods thread the implementation's
    state.  A [go] statement appends the started goroutine to a pool. *)

From Stdlib Require Import ZArith Lia List Strings.Byte Ascii String DecimalString.
From stdpp Require Import base option list gmap strings.

Local Open Scope Z_scope.

(** ** Bytes *)

Global Instance byte_eq_dec : EqDecision byte := Byte.byte_eq_dec.

Definition bytes := list byte.

Definition byte_to_Z (b : byte) : Z := Z.of_N (Byte.to_N b).

Definition byte_of_Z (z : Z) : byte :=
  match Byte.of_N (Z.to_N (z mod 256)) with
  | Some b => b
  | None => x00
  end.

(** [bytes.Equal] *)
Definition bytes_Equal (a b : bytes) : bool := bool_decide (a = b).

(** The builtin [copy(dst, src)]: the first [min (len dst) (len src)]
    elements of [dst] are overwritten, nothing else changes, no panic. *)
Definition copy (dst src : bytes) : bytes :=
  take (length dst) src ++ drop (length src) dst.

(** The zero value of [[32]byte]. *)
Definition zero32 : bytes := replicate 32 x00.

(** ** crypto/sha256

    [sha256.Sum256] of the Go standard library, written out from FIPS 180-4:
    32-bit words are [Z] in [0, 2^32) and every addition wraps. *)

Module sha256.

Definition Size : nat := 32.

Definition w32 (x : Z) : Z := x mod 2 ^ 32.

Definition add32 (x y : Z) : Z := w32 (x + y).

Definition rotr (n x : Z) : Z :=
  Z.lor (Z.shiftr x n) (w32 (Z.shiftl x (32 - n))).

Definition not32 (x : Z) : Z := Z.lxor x (2 ^ 32 - 1).

Definition Ch (x y z : Z) : Z :=
  Z.lxor (Z.land x y) (Z.land (not32 x) z).

Definition Maj (x y z : Z) : Z :=
  Z.lxor (Z.lxor (Z.land x y) (Z.land x z)) (Z.land y z).

Definition Sigma0 (x : Z) : Z :=
  Z.lxor (Z.lxor (rotr 2 x) (rotr 13 x)) (rotr 22 x).

Definition Sigma1 (x : Z) : Z :=
  Z.lxor (Z.lxor (rotr 6 x) (rotr 11 x)) (rotr 25 x).

Definition sigma0 (x : Z) : Z :=
  Z.lxor (Z.lxor (rotr 7 x) (rotr 18 x)) (Z.shiftr x 3).

Definition sigma1 (x : Z) : Z :=
  Z.lxor (Z.lxor (rotr 17 x) (rotr 19 x)) (Z.shiftr x 10).

(** The constants are what FIPS 180-4 says they are: the first 32 bits of
    the fractional parts of the square roots of the first 8 primes (the
    initial hash value) and of the cube roots of the first 64 primes (the
    round constants). *)
Definition is_prime (n : Z) : bool :=
  (1 <? n) && forallb (λ d, negb (n mod d =? 0))
                      (map Z.of_nat (seq 2 (Z.to_nat n - 2))).

Definition primes (count : nat) : list Z :=
  take count (List.filter is_prime (map Z.of_nat (seq 2 400))).

(** The largest [r' < r + 2 ^ bits] above [r] with [r' ^ k <= n], bit by bit. *)
Fixpoint iroot (k : Z) (bits : nat) (n r : Z) : Z :=
  match bits with
  | O => r
  | S b =>
      let r' := r + 2 ^ Z.of_nat b in
      iroot k b n (if r' ^ k <=? n then r' else r)
  end.

Definition frac32 (k p : Z) : Z := w32 (iroot k 40 (p * 2 ^ (32 * k)) 0).

Definition init : list Z := Eval vm_compute in map (frac32 2) (primes 8).

Definition K : list Z := Eval vm_compute in map (frac32 3) (primes 64).

(** Big-endian packing of bytes into 32-bit words and back. *)
Fixpoint words_of_bytes (bs : bytes) : list Z :=
  match bs with
  | b0 :: b1 :: b2 :: b3 :: rest =>
      (byte_to_Z b0 * 2 ^ 24 + byte_to_Z b1 * 2 ^ 16
       + byte_to_Z b2 * 2 ^ 8 + byte_to_Z b3) :: words_of_bytes rest
  | _ => []
  end.

Definition bytes_of_word (w : Z) : bytes :=
  [ byte_of_Z (Z.shiftr w 24); byte_of_Z (Z.shiftr w 16);
    byte_of_Z (Z.shiftr w 8); byte_of_Z w ].

(** Padding: a 1 bit, zeros up to 56 modulo 64, the bit length on 64 bits. *)
Definition pad (msg : bytes) : bytes :=
  let len := Z.of_nat (length msg) in
  let zeros := Z.to_nat ((55 - len) mod 64) in
  let bits := len * 8 in
  msg ++ [x80] ++ replicate zeros x00
      ++ bytes_of_word (w32 (Z.shiftr bits 32)) ++ bytes_of_word (w32 bits).

(** The message schedule: [n] more words appended to [w]. *)
Fixpoint schedule (n : nat) (w : list Z) : list Z :=
  match n with
  | O => w
  | S n' =>
      let t := length w in
      let at_ (k : nat) := nth (t - k) w 0 in
      schedule n'
        (w ++ [add32 (add32 (sigma1 (at_ 2%nat)) (at_ 7%nat))
                     (add32 (sigma0 (at_ 15%nat)) (at_ 16%nat))])
  end.

Record regs := Regs { ra : Z; rb : Z; rc : Z; rd : Z;
                      re : Z; rf : Z; rg : Z; rh : Z }.

Definition round (s : regs) (kw : Z * Z) : regs :=
  let t1 := add32 (add32 (add32 (rh s) (Sigma1 (re s)))
                         (add32 (Ch (re s) (rf s) (rg s)) (fst kw)))
                  (snd kw) in
  let t2 := add32 (Sigma0 (ra s)) (Maj (ra s) (rb s) (rc s)) in
  Regs (add32 t1 t2) (ra s) (rb s) (rc s) (add32 (rd s) t1) (re s) (rf s) (rg s).

Definition regs_of (h : list Z) : regs :=
  Regs (nth 0 h 0) (nth 1 h 0) (nth 2 h 0) (nth 3 h 0)
       (nth 4 h 0) (nth 5 h 0) (nth 6 h 0) (nth 7 h 0).

Definition list_of (s : regs) : list Z :=
  [ ra s; rb s; rc s; rd s; re s; rf s; rg s; rh s ].

(** One 64-byte block folded into the chaining value. *)
Definition block (h : list Z) (blk : bytes) : list Z :=
  let w := schedule 48 (words_of_bytes blk) in
  let s := fold_left round (combine K w) (regs_of h) in
  zip_with add32 h (list_of s).

Fixpoint blocks (n : nat) (h : list Z) (msg : bytes) : list Z :=
  match n with
  | O => h
  | S n' => blocks n' (block h (take 64 msg)) (drop 64 msg)
  end.

Definition Sum256 (data : bytes) : bytes :=
  let p := pad data in
  concat (map bytes_of_word (blocks (length p / 64) init p)).

End sha256.


(** ** Errors and state

    A Go [error] value.  [fmt.Errorf] builds a new value from its message;
    [io.EOF] and [channeldb.ErrInvoiceNotFound] are sentinels that the code
    compares with [==]. *)

Inductive error : Type :=
| Errorf (msg : string)
| EOF
| ErrInvoiceNotFound.

Global Instance error_eq_dec : EqDecision error.
Proof. solve_decision. Defined.

(** [err.Error()], which is also what the verb [%v] prints for an error. *)
Definition Error (e : error) : string :=
  match e with
  | Errorf msg => msg
  | EOF => "EOF"
  | ErrInvoiceNotFound => "unable to locate invoice"
  end.

(** [%v] of an integer. *)
Definition fmt_int (z : Z) : string := NilZero.string_of_int (Z.to_int z).

(** Conversion of an integer to [int64], to [uint64] and to [uint32]. *)
Definition int64 (z : Z) : Z := (z + 2 ^ 63) mod 2 ^ 64 - 2 ^ 63.
Definition uint64 (z : Z) : Z := z mod 2 ^ 64.
Definition uint32 (z : Z) : Z := z mod 2 ^ 32.

(** Code that mutates its receiver or its collaborators is a state
    transformer; [x ← m; k] sequences two of them. *)
Definition State (S A : Type) : Type := S → A * S.

Global Instance State_ret {S} : MRet (State S) := λ A a s, (a, s).

Global Instance State_bind {S} : MBind (State S) :=
  λ A B f m s, let (a, s') := m s in f a s'.

Definition get {S} : State S S := λ s, (s, s).
Definition gets {S A} (f : S → A) : State S A := λ s, (f s, s).
Definition modify {S} (f : S → S) : State S unit := λ s, (tt, f s).

(** ** lnwire *)

Module lnwire.

(** Modelled from the spec: [lnwire.MilliSatoshi.ToSatoshis] is not among
    the sources.  [Value] is an amount of milli-satoshis and the request
    carries "integer currency units": the amount in whole satoshis, one
    satoshi being 1000 milli-satoshis. *)
Definition ToSatoshis (m : Z) : Z := uint64 m / 1000.

End lnwire.

(** ** Package extpreimage *)

Module extpreimage.

(** *** rpc.pb.go *)

Inductive Symbol : Type := Symbol_BTC | Symbol_LTC.

Module GetPreimageRequest.
Record t : Type := mk {
  PaymentHash : bytes;
  Amount : Z;
  Symbol : Symbol;
  TimeLock : Z;
  BestHeight : Z
}.
End GetPreimageRequest.

(** Modelled from the spec: the revision of [rpc.pb.go] among the sources
    declares [PaymentPreimage] only; [client.go] reads [PermanentError],
    which the wire protocol describes as [permanent_error: string],
    "non-empty signals a terminal failure". *)
Module GetPreimageResponse.
Record t : Type := mk {
  PaymentPreimage : bytes;
  PermanentError : string
}.
End GetPreimageResponse.

(** What the package uses of [google.golang.org/grpc]: dialling, and the
    four operations of a client stream.  [N] is the state of everything
    behind the connection; every operation may change it. *)
Class RPC (N : Type) : Type := {
  ClientConn : Type;
  ClientStream : Type;
  Dial : string → State N (ClientConn + error);
  NewClientStream : ClientConn → State N (ClientStream + error);
  SendMsg : ClientStream → GetPreimageRequest.t → State N (option error);
  CloseSend : ClientStream → State N (option error);
  RecvMsg : ClientStream → State N (GetPreimageResponse.t + error);
  Close : ClientConn → State N (option error)
}.

Section client.
Context {N : Type} `{!RPC N}.

(** [externalPreimageServiceClient.GetPreimage]: open the stream, send
    the one request, close the send side. *)
Definition GetPreimage (cc : ClientConn) (in_ : GetPreimageRequest.t)
  : State N (ClientStream + error) :=
  r ← NewClientStream cc;
  match r with
  | inr err => mret (inr err)
  | inl x =>
      e ← SendMsg x in_;
      match e with
      | Some err => mret (inr err)
      | None =>
          e ← CloseSend x;
          match e with
          | Some err => mret (inr err)
          | None => mret (inl x)
          end
      end
  end.

(** [externalPreimageServiceGetPreimageClient.Recv]: a fresh message
    filled by [RecvMsg], or the error and no message. *)
Definition Recv (x : ClientStream)
  : State N (GetPreimageResponse.t + error) :=
  r ← RecvMsg x;
  match r with
  | inr err => mret (inr err)
  | inl m => mret (inl m)
  end.

(** *** client.go *)

Record client : Type := mkClient {
  host : string;
  chain : string;
  rpc : N;
  conn : option ClientConn
}.

Definition in_rpc {A} (m : State N A) : State client A :=
  λ c, let (a, n) := m (rpc c) in (a, mkClient (host c) (chain c) n (conn c)).

Definition set_conn (cn : ClientConn) : State client unit :=
  modify (λ c, mkClient (host c) (chain c) (rpc c) (Some cn)).

(** [connect]: the service client is the connection it wraps
    ([NewExternalPreimageServiceClient]); the two [Printf] lines are
    not modelled. *)
Definition connect : State client (ClientConn + error) :=
  c ← get;
  match conn c with
  | None =>
      r ← in_rpc (Dial (host c));
      match r with
      | inr err =>
          mret (inr (Errorf ("extpreimage: Failed to start gRPC "
                             +:+ "connection: " +:+ Error err)))
      | inl cn => set_conn cn;; mret (inl cn)
      end
  | Some cn => mret (inl cn)
  end.

(** [retrieve]: the body of the [for] loop returns on its first turn. *)
Definition retrieve (req : GetPreimageRequest.t)
  : State client (GetPreimageResponse.t + error) :=
  r ← connect;
  match r with
  | inr err => mret (inr err)
  | inl cl =>
      r ← in_rpc (GetPreimage cl req);
      match r with
      | inr err => mret (inr err)
      | inl stream =>
          r ← in_rpc (Recv stream);
          match r with
          | inr err =>
              if decide (err = EOF)
              then mret (inr (Errorf "extpreimage: server closed stream early"))
              else mret (inr err)
          | inl res => mret (inl res)
          end
      end
  end.

Definition symbol (c : client) : Symbol * option error :=
  if String.eqb (chain c) "bitcoin" then (Symbol_BTC, None)
  else if String.eqb (chain c) "litecoin" then (Symbol_LTC, None)
  else (Symbol_BTC,
        Some (Errorf ("extpreimage: Invalid chain name: " +:+ chain c))).

End client.

Module PreimageRequest.
Record t : Type := mk {
  PaymentHash : bytes;
  Amount : Z;
  TimeLock : Z;
  BestHeight : Z
}.
End PreimageRequest.

Section Retrieve.
Context {N : Type} `{!RPC N}.

(** [Retrieve] returns the preimage, the temporary error and the
    permanent error, in this order. *)
Definition Retrieve (req : PreimageRequest.t)
  : State client (bytes * option error * option error) :=
  let preimage := zero32 in
  c ← get;
  match symbol c with
  | (_, Some err) => mret (preimage, Some err, None)
  | (symbol, None) =>
      let rpcReq :=
        GetPreimageRequest.mk
          (PreimageRequest.PaymentHash req)
          (PreimageRequest.Amount req)
          symbol
          (int64 (PreimageRequest.TimeLock req))
          (int64 (PreimageRequest.BestHeight req)) in
      r ← retrieve rpcReq;
      match r with
      | inr err => mret (preimage, Some err, None)
      | inl res =>
          if negb (String.eqb (GetPreimageResponse.PermanentError res) "")
          then
            mret (preimage, None,
                  Some (Errorf ("extpreimage: Encountered permanent "
                                +:+ "error from external service: "
                                +:+ GetPreimageResponse.PermanentError res)))
          else if negb (length (GetPreimageResponse.PaymentPreimage res) =? 32)%nat
          then
            mret (preimage,
                  Some (Errorf ("extpreimage: Returned preimage was of length "
                                +:+ fmt_int (Z.of_nat (length (GetPreimageResponse.PaymentPreimage res)))
                                +:+ ", expected " +:+ fmt_int 32)),
                  None)
          else
            let derivedHash :=
              sha256.Sum256 (GetPreimageResponse.PaymentPreimage res) in
            if negb (bytes_Equal derivedHash (PreimageRequest.PaymentHash req))
            then
              mret (preimage,
                    Some (Errorf ("extpreimage: Returned preimage did not "
                                  +:+ "match provided hash")),
                    None)
            else
              mret (copy preimage (GetPreimageResponse.PaymentPreimage res),
                    None, None)
      end
  end.

Definition Stop : State client (option error) :=
  c ← get;
  match conn c with
  | Some cn => in_rpc (Close cn)
  | None => mret None
  end.

Definition New (RPCImpl : N) (RPCHost ChainName : string) : client + error :=
  if negb (String.eqb ChainName "bitcoin") && negb (String.eqb ChainName "litecoin")
  then inr (Errorf ("extpreimage: Invalid chain name: " +:+ ChainName))
  else inl (mkClient RPCHost ChainName RPCImpl None).

End Retrieve.

(** The [Client] interface, as its callers see it. *)
Module Client.
Class t (C : Type) : Type := {
  Retrieve : PreimageRequest.t → State C (bytes * option error * option error);
  Stop : State C (option error)
}.
End Client.

Global Instance client_Client {N : Type} `{!RPC N} : Client.t client :=
  {| Client.Retrieve := Retrieve; Client.Stop := Stop |}.

(** *** invoice.go *)

Module Invoice.
Record t : Type := mk {
  ExternalPreimage : bool;
  PaymentHash : bytes;
  PaymentPreimage : bytes;
  Value : Z;
  Settled : bool
}.
End Invoice.

Module InvoiceRegistry.
Class t (R : Type) : Type := {
  AddInvoicePreimage : bytes → bytes → State R (option error)
}.
End InvoiceRegistry.

(** The calls a resolution makes on its two collaborators. *)
Inductive Call : Type :=
| CallRetrieve (req : PreimageRequest.t)
| CallAddInvoicePreimage (hash preimage : bytes).

(** What [GetPaymentPreimage] can reach: its receiver [self] (the invoice
    [I] behind the pointer), the client (possibly [nil]) and the registry
    it is handed, and the record of the calls made so far. *)
Record World (I C R : Type) : Type := mkWorld {
  self : I;
  extpreimageClient : option C;
  registry : R;
  calls : list Call
}.
Arguments mkWorld {I C R}.
Arguments self {I C R}.
Arguments extpreimageClient {I C R}.
Arguments registry {I C R}.
Arguments calls {I C R}.

Section World.
Context {I C R : Type} `{!Client.t C} `{!InvoiceRegistry.t R}.

(** [extpreimageClient.Retrieve(req)] on a client that is not [nil]. *)
Definition call_Retrieve (c : C) (req : PreimageRequest.t)
  : State (World I C R) (bytes * option error * option error) :=
  λ w, let (r, c') := Client.Retrieve req c in
       (r, mkWorld (self w) (Some c') (registry w)
                   (calls w ++ [CallRetrieve req])).

(** [registry.AddInvoicePreimage(hash, preimage)] *)
Definition call_AddInvoicePreimage (hash preimage : bytes)
  : State (World I C R) (option error) :=
  λ w, let (r, reg') := InvoiceRegistry.AddInvoicePreimage hash preimage (registry w) in
       (r, mkWorld (self w) (extpreimageClient w) reg'
                   (calls w ++ [CallAddInvoicePreimage hash preimage])).
End World.

(** [GetPaymentHash] of [*Invoice]: the hash and the error. *)
Definition GetPaymentHash (i : Invoice.t) : bytes * option error :=
  let zeroHash := zero32 in
  let zeroPreimage := zero32 in
  if Invoice.ExternalPreimage i then
    if bytes_Equal (Invoice.PaymentHash i) zeroHash then
      (zeroHash,
       Some (Errorf ("Invoices with ExternalPreimage must "
                     +:+ "have a locally defined PaymentHash.")))
    else (Invoice.PaymentHash i, None)
  else
    if bytes_Equal (Invoice.PaymentPreimage i) zeroPreimage then
      (zeroHash,
       Some (Errorf ("Invoices must have a preimage or"
                     +:+ "use ExternalPreimages")))
    else (sha256.Sum256 (Invoice.PaymentPreimage i), None).

Section invoice.
Context {C R : Type} `{!Client.t C} `{!InvoiceRegistry.t R}.

(** [GetPaymentPreimage] of [*Invoice] *)
Definition GetPaymentPreimage (timeLock currentHeight : Z)
  : State (World Invoice.t C R) (bytes * option error * option error) :=
  let zeroPreimage := zero32 in
  i ← gets self;
  if negb (bytes_Equal (Invoice.PaymentPreimage i) zeroPreimage) then
    mret (Invoice.PaymentPreimage i, None, None)
  else if Invoice.ExternalPreimage i then
    cl ← gets extpreimageClient;
    match cl with
    | None =>
        mret (zeroPreimage, Some (Errorf "no extpreimage client configured"), None)
    | Some c =>
        let preimageRequest :=
          PreimageRequest.mk
            (Invoice.PaymentHash i)
            (int64 (lnwire.ToSatoshis (Invoice.Value i)))
            timeLock
            currentHeight in
        '(preimage, tempErr, permErr) ← call_Retrieve c preimageRequest;
        match permErr, tempErr with
        | Some e, _ => mret (zeroPreimage, None, Some e)
        | None, Some e => mret (zeroPreimage, Some e, None)
        | None, None =>
            let invoiceHash := Invoice.PaymentHash i in
            err ← call_AddInvoicePreimage invoiceHash preimage;
            match err with
            | Some e => mret (zeroPreimage, Some e, None)
            | None => mret (preimage, None, None)
            end
        end
    end
  else
    mret (zeroPreimage, None, Some (Errorf "no preimage available on invoice")).

End invoice.

End extpreimage.

(** ** Package channeldb *)

Module channeldb.

(** Modelled from the spec: the declaration of [ContractTerm] is not among
    the sources; these are the fields [invoice_preimages.go] reads, which
    are the fields of [extpreimage.Invoice], its "simplified view". *)
Module ContractTerm.
Record t : Type := mk {
  ExternalPreimage : bool;
  PaymentHash : bytes;
  PaymentPreimage : bytes;
  Value : Z;
  Settled : bool
}.
End ContractTerm.

(** Modelled from the spec: the declaration of [Invoice] is not among the
    sources; the beacon reads its [Terms], its tests its [Memo]. *)
Module Invoice.
Record t : Type := mk {
  Memo : bytes;
  Terms : ContractTerm.t
}.
End Invoice.

(** The witness types of the witness cache; the beacon uses this one. *)
Inductive WitnessType : Type := Sha256HashWitness.

(** [GetPaymentHash] of [*ContractTerm]: the hash and the error. *)
Definition GetPaymentHash (c : ContractTerm.t) : bytes * option error :=
  let zeroHash := zero32 in
  let zeroPreimage := zero32 in
  if ContractTerm.ExternalPreimage c then
    if bytes_Equal (ContractTerm.PaymentHash c) zeroHash then
      (zeroHash,
       Some (Errorf ("Invoices with ExternalPreimage must "
                     +:+ "have a locally defined PaymentHash.")))
    else (ContractTerm.PaymentHash c, None)
  else
    if bytes_Equal (ContractTerm.PaymentPreimage c) zeroPreimage then
      (zeroHash,
       Some (Errorf ("Invoices must have a preimage or"
                     +:+ "use ExternalPreimages")))
    else (sha256.Sum256 (ContractTerm.PaymentPreimage c), None).

Section invoice_preimages.
Context {C R : Type} `{!extpreimage.Client.t C}
        `{!extpreimage.InvoiceRegistry.t R}.

(** [GetPaymentPreimage] of [*ContractTerm] *)
Definition GetPaymentPreimage (timeLock currentHeight : Z)
  : State (extpreimage.World ContractTerm.t C R)
          (bytes * option error * option error) :=
  let zeroPreimage := zero32 in
  c ← gets extpreimage.self;
  if negb (bytes_Equal (ContractTerm.PaymentPreimage c) zeroPreimage) then
    mret (ContractTerm.PaymentPreimage c, None, None)
  else if ContractTerm.ExternalPreimage c then
    cl ← gets extpreimage.extpreimageClient;
    match cl with
    | None =>
        mret (zeroPreimage, Some (Errorf "no extpreimage client configured"), None)
    | Some client =>
        let preimageRequest :=
          extpreimage.PreimageRequest.mk
            (ContractTerm.PaymentHash c)
            (int64 (lnwire.ToSatoshis (ContractTerm.Value c)))
            timeLock
            currentHeight in
        '(preimage, tempErr, permErr) ←
          extpreimage.call_Retrieve client preimageRequest;
        match permErr, tempErr with
        | Some e, _ => mret (zeroPreimage, None, Some e)
        | None, Some e => mret (zeroPreimage, Some e, None)
        | None, None =>
            let invoiceHash := ContractTerm.PaymentHash c in
            err ← extpreimage.call_AddInvoicePreimage invoiceHash preimage;
            match err with
            | Some e => mret (zeroPreimage, Some e, None)
            | None => mret (preimage, None, None)
            end
        end
    end
  else
    mret (zeroPreimage, None, Some (Errorf "no preimage available on invoice")).

End invoice_preimages.

End channeldb.

(** ** Package htlcswitch *)

Module htlcswitch.

(** What the beacon uses of [htlcswitch.InvoiceDatabase]: the lookup, which
    returns the invoice, a height and an error, and the
    [channeldb.InvoiceRegistry] it also is. *)
Module InvoiceDatabase.
Class t (D : Type) : Type := {
  LookupInvoice : bytes → State D (channeldb.Invoice.t * Z * option error);
  as_registry : extpreimage.InvoiceRegistry.t D
}.
#[global] Existing Instance as_registry.
End InvoiceDatabase.

End htlcswitch.

(** ** Package main: what the two revisions of witness_beacon.go share *)

(** A subscriber: the values buffered in [updateChan] (capacity 10), and
    whether [quit] has been closed. *)
Record preimageSubscriber : Type := mkSubscriber {
  updateChan : list bytes;
  quit : bool
}.

Module witnessCache.
Class t (W : Type) : Type := {
  LookupWitness : channeldb.WitnessType → bytes → State W (bytes * option error);
  AddWitness : channeldb.WitnessType → bytes → State W (option error)
}.
End witnessCache.

(** The calls the beacon makes on its collaborators, in call order; those
    of a resolution are the calls [GetPaymentPreimage] made. *)
Inductive Call : Type :=
| CallLookupInvoice (rHash : bytes)
| CallResolution (c : extpreimage.Call)
| CallLookupWitness (wType : channeldb.WitnessType) (key : bytes)
| CallAddWitness (wType : channeldb.WitnessType) (witness : bytes).

(** The goroutines the beacon starts: the function literal of [AddPreimage],
    applied to the subscriber registered under [client] and closed over
    [pre]; and [pollExtpreimage] on an invoice term. *)
Inductive Goroutine : Type :=
| GoNotify (client : Z) (pre : bytes)
| GoPollExtpreimage (i : channeldb.ContractTerm.t) (pollInterval : Z).

(** [time.Second], a [time.Duration] in nanoseconds. *)
Definition Second : Z := 1000000000.

(** [castInvoiceTerm]: a pointer to a copy of the invoice's terms. *)
Definition castInvoiceTerm (i : channeldb.Invoice.t) : channeldb.ContractTerm.t :=
  channeldb.Invoice.Terms i.

(** The key of the invoice lookup:
    [var invoiceKey chainhash.Hash; copy(invoiceKey[:], payHash)]. *)
Definition invoiceKey (payHash : bytes) : bytes := copy zero32 payHash.

(** ** Package main: the beacon with background polls

    The revision of witness_beacon.go that has [pollExtpreimage] and [Stop].
    The read/write lock is not modelled: every method runs to its end on the
    state it is given. *)

Module witness_beacon_poll.

Section beacon.
Context {C D W : Type} `{!extpreimage.Client.t C}
        `{!htlcswitch.InvoiceDatabase.t D} `{!witnessCache.t W}.

(** The fields of [preimageBeacon]; then the goroutines started so far
    and the calls made so far.  [polls] is [None] while the map is
    [nil]; a registered poll maps to whether its [quit] channel is
    closed.  A [nil] [subscribers] ranges like the empty map. *)
Record preimageBeacon : Type := mkBeacon {
  extpreimageClient : option C;
  invoices : D;
  wCache : W;
  clientCounter : Z;
  subscribers : gmap Z preimageSubscriber;
  pollCounter : Z;
  polls : option (gmap Z bool);
  goroutines : list Goroutine;
  calls : list Call
}.

(** [go f(...)] *)
Definition go (g : Goroutine) : State preimageBeacon unit :=
  modify (λ p, mkBeacon (extpreimageClient p) (invoices p) (wCache p)
                        (clientCounter p) (subscribers p) (pollCounter p)
                        (polls p) (goroutines p ++ [g]) (calls p)).

Definition set_polls (counter : Z) (m : option (gmap Z bool))
  : State preimageBeacon unit :=
  modify (λ p, mkBeacon (extpreimageClient p) (invoices p) (wCache p)
                        (clientCounter p) (subscribers p) counter
                        m (goroutines p) (calls p)).

(** [p.invoices.LookupInvoice(rHash)] *)
Definition call_LookupInvoice (rHash : bytes)
  : State preimageBeacon (channeldb.Invoice.t * Z * option error) :=
  λ p, let (r, d) := htlcswitch.InvoiceDatabase.LookupInvoice rHash (invoices p) in
       (r, mkBeacon (extpreimageClient p) d (wCache p)
                    (clientCounter p) (subscribers p) (pollCounter p)
                    (polls p) (goroutines p) (calls p ++ [CallLookupInvoice rHash])).

(** [i.GetPaymentPreimage(timeLock, currentHeight, p.extpreimageClient,
    p.invoices)]: the term behind [i] comes back with the result. *)
Definition call_GetPaymentPreimage (i : channeldb.ContractTerm.t)
           (timeLock currentHeight : Z)
  : State preimageBeacon
          (bytes * option error * option error * channeldb.ContractTerm.t) :=
  λ p, let (r, w) :=
         channeldb.GetPaymentPreimage timeLock currentHeight
           (extpreimage.mkWorld i (extpreimageClient p) (invoices p) []) in
       ((r, extpreimage.self w),
        mkBeacon (extpreimage.extpreimageClient w) (extpreimage.registry w)
                 (wCache p) (clientCounter p) (subscribers p) (pollCounter p)
                 (polls p) (goroutines p)
                 (calls p ++ map CallResolution (extpreimage.calls w))).

(** [p.wCache.LookupWitness(wType, key)] *)
Definition call_LookupWitness (wType : channeldb.WitnessType) (key : bytes)
  : State preimageBeacon (bytes * option error) :=
  λ p, let (r, w) := witnessCache.LookupWitness wType key (wCache p) in
       (r, mkBeacon (extpreimageClient p) (invoices p) w
                    (clientCounter p) (subscribers p) (pollCounter p)
                    (polls p) (goroutines p)
                    (calls p ++ [CallLookupWitness wType key])).

(** [p.wCache.AddWitness(wType, witness)] *)
Definition call_AddWitness (wType : channeldb.WitnessType) (witness : bytes)
  : State preimageBeacon (option error) :=
  λ p, let (r, w) := witnessCache.AddWitness wType witness (wCache p) in
       (r, mkBeacon (extpreimageClient p) (invoices p) w
                    (clientCounter p) (subscribers p) (pollCounter p)
                    (polls p) (goroutines p)
                    (calls p ++ [CallAddWitness wType witness])).

(** [Stop]: every registered poll is sent [true] on its [quit] channel,
    which its [select] receives; the registry is then a fresh map.  The
    result lists the polls signalled. *)
Definition Stop : State preimageBeacon (list Z) :=
  p ← get;
  let polls0 := default ∅ (polls p) in
  set_polls (pollCounter p) (Some ∅);;
  mret (map fst (map_to_list polls0)).

(** [LookupPreimage]: the preimage (or [nil], the empty slice) and
    whether it was found.  The [switch] and the [if] that follows it
    split on the lookup's error: [ErrInvoiceNotFound] falls through to
    the witness cache, another error returns, [nil] resolves the
    invoice. *)
Definition LookupPreimage (payHash : bytes)
  : State preimageBeacon (bytes * bool) :=
  '(invoice, _, err) ← call_LookupInvoice (invoiceKey payHash);
  match err with
  | Some ErrInvoiceNotFound =>
      '(preimage, err) ← call_LookupWitness channeldb.Sha256HashWitness payHash;
      match err with
      | Some _ => mret ([], false)
      | None => mret (preimage, true)
      end
  | Some _ => mret ([], false)
  | None =>
      let invoiceTerm := castInvoiceTerm invoice in
      '(preimage, tempErr, permErr, invoiceTerm) ←
        call_GetPaymentPreimage invoiceTerm (uint32 0) (uint32 0);
      match permErr, tempErr with
      | Some _, _ => mret ([], false)
      | None, Some _ =>
          go (GoPollExtpreimage invoiceTerm (10 * Second));;
          mret ([], false)
      | None, None => mret (preimage, true)
      end
  end.

(** The loop of [AddPreimage] over the subscribers: one goroutine each. *)
Fixpoint notify (pre : bytes) (clients : list (Z * preimageSubscriber))
  : State preimageBeacon unit :=
  match clients with
  | [] => mret tt
  | (client, _) :: rest => go (GoNotify client pre);; notify pre rest
  end.

(** [AddPreimage]: the subscribers are visited in the order of the map's
    listing (Go leaves the order of [range] open). *)
Definition AddPreimage (pre : bytes) : State preimageBeacon (option error) :=
  err ← call_AddWitness channeldb.Sha256HashWitness pre;
  match err with
  | Some e => mret (Some e)
  | None =>
      p ← get;
      notify pre (map_to_list (subscribers p));;
      mret None
  end.

(** Which case of the [select] in [pollExtpreimage] fires. *)
Inductive selected : Type :=
| ticker_C
| quit_recv.

(** The [for] loop of [pollExtpreimage], driven by the cases its
    [select] takes in turn: [true] when the loop has returned, [false]
    when it waits in [select] with nothing left to receive. *)
Fixpoint pollLoop (sel : list selected) (i : channeldb.ContractTerm.t)
  : State preimageBeacon bool :=
  match sel with
  | [] => mret false
  | ticker_C :: sel' =>
      '(preimage, tempErr, permErr, i') ←
        call_GetPaymentPreimage i (uint32 0) (uint32 0);
      match permErr, tempErr with
      | Some _, _ => mret true
      | None, Some _ => pollLoop sel' i'
      | None, None => AddPreimage preimage;; mret true
      end
  | quit_recv :: _ => mret true
  end.

(** [pollExtpreimage]: registration, the loop, and on return the
    deferred [delete(p.polls, pollID)] and [close(quit)] (the channel is
    out of the registry when it is closed).  [pollInterval] is the period
    of the ticker, whose ticks are the [ticker_C] of [sel];
    [time.NewTicker] panics unless the period is positive, and this is
    [pollExtpreimage] for a positive [pollInterval]. *)
Definition pollExtpreimage (sel : list selected)
           (i : channeldb.ContractTerm.t) (pollInterval : Z)
  : State preimageBeacon bool :=
  p ← get;
  let polls0 := default ∅ (polls p) in
  let pollID := pollCounter p in
  set_polls (uint64 (pollCounter p + 1)) (Some (<[pollID := false]> polls0));;
  returned ← pollLoop sel i;
  if (returned : bool) then
    p ← get;
    set_polls (pollCounter p) (delete pollID <$> polls p);;
    mret true
  else mret false.

(** What most methods leave alone: the two registries and their counters. *)
Definition same_registrations (p p' : preimageBeacon) : Prop :=
  polls p' = polls p ∧ pollCounter p' = pollCounter p
  ∧ subscribers p' = subscribers p ∧ clientCounter p' = clientCounter p.

(** The ids in the poll registry were all handed out before: each is below
    the poll counter.  This is so in a new beacon, whose registry is [nil]. *)
Definition ids_below_counter (p : preimageBeacon) : Prop :=
  ∀ id : Z, is_Some (default ∅ (polls p) !! id) → id < pollCounter p.

End beacon.

Arguments preimageBeacon : clear implicits.

End witness_beacon_poll.

(** ** Package main: the beacon without polls

    The revision of witness_beacon.go that has [PollForPreimage]. *)

Module witness_beacon.

Section beacon.
Context {C D W : Type} `{!extpreimage.Client.t C}
        `{!htlcswitch.InvoiceDatabase.t D} `{!witnessCache.t W}.

(** The fields of [preimageBeacon]; then the goroutines started so far
    and the calls made so far. *)
Record preimageBeacon : Type := mkBeacon {
  extpreimageClient : option C;
  invoices : D;
  wCache : W;
  clientCounter : Z;
  subscribers : gmap Z preimageSubscriber;
  goroutines : list Goroutine;
  calls : list Call
}.

Definition go (g : Goroutine) : State preimageBeacon unit :=
  modify (λ p, mkBeacon (extpreimageClient p) (invoices p) (wCache p)
                        (clientCounter p) (subscribers p)
                        (goroutines p ++ [g]) (calls p)).

Definition call_LookupInvoice (rHash : bytes)
  : State preimageBeacon (channeldb.Invoice.t * Z * option error) :=
  λ p, let (r, d) := htlcswitch.InvoiceDatabase.LookupInvoice rHash (invoices p) in
       (r, mkBeacon (extpreimageClient p) d (wCache p)
                    (clientCounter p) (subscribers p)
                    (goroutines p) (calls p ++ [CallLookupInvoice rHash])).

Definition call_GetPaymentPreimage (i : channeldb.ContractTerm.t)
           (timeLock currentHeight : Z)
  : State preimageBeacon
          (bytes * option error * option error * channeldb.ContractTerm.t) :=
  λ p, let (r, w) :=
         channeldb.GetPaymentPreimage timeLock currentHeight
           (extpreimage.mkWorld i (extpreimageClient p) (invoices p) []) in
       ((r, extpreimage.self w),
        mkBeacon (extpreimage.extpreimageClient w) (extpreimage.registry w)
                 (wCache p) (clientCounter p) (subscribers p)
                 (goroutines p)
                 (calls p ++ map CallResolution (extpreimage.calls w))).

Definition call_LookupWitness (wType : channeldb.WitnessType) (key : bytes)
  : State preimageBeacon (bytes * option error) :=
  λ p, let (r, w) := witnessCache.LookupWitness wType key (wCache p) in
       (r, mkBeacon (extpreimageClient p) (invoices p) w
                    (clientCounter p) (subscribers p)
                    (goroutines p)
                    (calls p ++ [CallLookupWitness wType key])).

Definition call_AddWitness (wType : channeldb.WitnessType) (witness : bytes)
  : State preimageBeacon (option error) :=
  λ p, let (r, w) := witnessCache.AddWitness wType witness (wCache p) in
       (r, mkBeacon (extpreimageClient p) (invoices p) w
                    (clientCounter p) (subscribers p)
                    (goroutines p)
                    (calls p ++ [CallAddWitness wType witness])).

Definition LookupPreimage (payHash : bytes)
  : State preimageBeacon (bytes * bool) :=
  '(invoice, _, err) ← call_LookupInvoice (invoiceKey payHash);
  match err with
  | Some ErrInvoiceNotFound =>
      '(preimage, err) ← call_LookupWitness channeldb.Sha256HashWitness payHash;
      match err with
      | Some _ => mret ([], false)
      | None => mret (preimage, true)
      end
  | Some _ => mret ([], false)
  | None =>
      let invoiceTerm := castInvoiceTerm invoice in
      '(preimage, tempErr, permErr, _) ←
        call_GetPaymentPreimage invoiceTerm (uint32 0) (uint32 0);
      match permErr, tempErr with
      | Some _, _ => mret ([], false)
      | None, Some _ => mret ([], false)
      | None, None => mret (preimage, true)
      end
  end.

Fixpoint notify (pre : bytes) (clients : list (Z * preimageSubscriber))
  : State preimageBeacon unit :=
  match clients with
  | [] => mret tt
  | (client, _) :: rest => go (GoNotify client pre);; notify pre rest
  end.

Definition AddPreimage (pre : bytes) : State preimageBeacon (option error) :=
  err ← call_AddWitness channeldb.Sha256HashWitness pre;
  match err with
  | Some e => mret (Some e)
  | None =>
      p ← get;
      notify pre (map_to_list (subscribers p));;
      mret None
  end.

(** [PollForPreimage]: whether the caller should keep polling. *)
Definition PollForPreimage (payHash : bytes) : State preimageBeacon bool :=
  let keepPolling := true in
  let stopPolling := false in
  '(invoice, _, err) ← call_LookupInvoice (invoiceKey payHash);
  match err with
  | Some ErrInvoiceNotFound => mret stopPolling
  | Some _ => mret keepPolling
  | None =>
      let invoiceTerm := castInvoiceTerm invoice in
      '(preimage, tempErr, permErr, _) ←
        call_GetPaymentPreimage invoiceTerm (uint32 0) (uint32 0);
      match permErr, tempErr with
      | Some _, _ => mret stopPolling
      | None, Some _ => mret keepPolling
      | None, None =>
          err ← AddPreimage preimage;
          match err with
          | Some _ => mret keepPolling
          | None => mret stopPolling
          end
      end
  end.

End beacon.

Arguments preimageBeacon : clear implicits.

End witness_beacon.

(** ** Stand-ins for the collaborators

    The remote service, the invoice store and the witness store are outside
    the sources.  These implementations of their interfaces are the ones the
    examples run on: a remote service that answers from a script, an invoice
    store and a witness store held in memory. *)

Global Instance byte_countable : Countable byte :=
  inj_countable Byte.to_N Byte.of_N Byte.of_to_N.

Module stub.

(** What the remote end does with one stream: it answers, or the
    transport fails. *)
Inductive Reply : Type :=
| Respond (res : extpreimage.GetPreimageResponse.t)
| Fail (err : error).

(** A remote service that takes its answers from a list, one per [RecvMsg];
    a stream read after the last answer is at its end. *)
Global Instance scripted : extpreimage.RPC (list Reply) := {|
  extpreimage.ClientConn := string;
  extpreimage.ClientStream := unit;
  extpreimage.Dial := λ host, mret (inl host);
  extpreimage.NewClientStream := λ _, mret (inl tt);
  extpreimage.SendMsg := λ _ _, mret None;
  extpreimage.CloseSend := λ _, mret None;
  extpreimage.RecvMsg := λ _ script,
    match script with
    | [] => (inr EOF, [])
    | Respond res :: script' => (inl res, script')
    | Fail err :: script' => (inr err, script')
    end;
  extpreimage.Close := λ _, mret None
|}.

(** An invoice store: the invoices by payment hash, and the error every
    write fails with, if any. *)
Record invoiceStore : Type := mkStore {
  stored : gmap bytes channeldb.Invoice.t;
  write_error : option error
}.

Definition zeroInvoice : channeldb.Invoice.t :=
  channeldb.Invoice.mk [] (channeldb.ContractTerm.mk false zero32 zero32 0 false).

Definition with_preimage (preimage : bytes) (i : channeldb.Invoice.t)
  : channeldb.Invoice.t :=
  let c := channeldb.Invoice.Terms i in
  channeldb.Invoice.mk (channeldb.Invoice.Memo i)
    (channeldb.ContractTerm.mk
       (channeldb.ContractTerm.ExternalPreimage c)
       (channeldb.ContractTerm.PaymentHash c)
       preimage
       (channeldb.ContractTerm.Value c)
       (channeldb.ContractTerm.Settled c)).

Global Instance invoiceStore_registry : extpreimage.InvoiceRegistry.t invoiceStore := {|
  extpreimage.InvoiceRegistry.AddInvoicePreimage := λ hash preimage s,
    match write_error s with
    | Some err => (Some err, s)
    | None =>
        (None, mkStore (alter (with_preimage preimage) hash (stored s))
                       (write_error s))
    end
|}.

Global Instance invoiceStore_database : htlcswitch.InvoiceDatabase.t invoiceStore := {|
  htlcswitch.InvoiceDatabase.LookupInvoice := λ rHash s,
    match stored s !! rHash with
    | Some i => ((i, 0, None), s)
    | None => ((zeroInvoice, 0, Some ErrInvoiceNotFound), s)
    end;
  htlcswitch.InvoiceDatabase.as_registry := invoiceStore_registry
|}.

(** A witness store: the preimages added, latest last, and the error every
    write fails with, if any.  A lookup finds the preimage of the key. *)
Record witnessStore : Type := mkWitnesses {
  witnesses : list bytes;
  add_error : option error
}.

Global Instance witnessStore_cache : witnessCache.t witnessStore := {|
  witnessCache.LookupWitness := λ _ key s,
    match filter (λ w, sha256.Sum256 w = key) (witnesses s) with
    | w :: _ => ((w, None), s)
    | [] => (([], Some (Errorf "no witnesses")), s)
    end;
  witnessCache.AddWitness := λ _ witness s,
    match add_error s with
    | Some err => (Some err, s)
    | None => (None, mkWitnesses (witnesses s ++ [witness]) (add_error s))
    end
|}.

(** An invoice store that is closed: every operation fails with its error. *)
Record closedStore : Type := mkClosed {
  closed_with : error
}.

Global Instance closedStore_registry : extpreimage.InvoiceRegistry.t closedStore := {|
  extpreimage.InvoiceRegistry.AddInvoicePreimage := λ _ _ s,
    (Some (closed_with s), s)
|}.

Global Instance closedStore_database : htlcswitch.InvoiceDatabase.t closedStore := {|
  htlcswitch.InvoiceDatabase.LookupInvoice := λ _ s,
    ((zeroInvoice, 0, Some (closed_with s)), s);
  htlcswitch.InvoiceDatabase.as_registry := closedStore_registry
|}.

End stub.

(** ** Vocabulary of the statements *)

(** A result of [Retrieve] or [GetPaymentPreimage]: preimage, temporary
    error, permanent error. *)
Definition Resolution : Type := bytes * option error * option error.

Definition preimage_of (r : Resolution) : bytes := r.1.1.
Definition tempErr_of (r : Resolution) : option error := r.1.2.
Definition permErr_of (r : Resolution) : option error := r.2.

(** At most one failure channel is populated, and a failure carries the zero
    preimage. *)
Definition one_channel (r : Resolution) : Prop :=
  ¬ (tempErr_of r ≠ None ∧ permErr_of r ≠ None)
  ∧ (tempErr_of r ≠ None ∨ permErr_of r ≠ None → preimage_of r = zero32).

(** The hash check: [preimage] is 32 bytes long and hashes to the payment
    hash of [req]. *)
Definition matches_hash (req : extpreimage.PreimageRequest.t) (preimage : bytes)
  : Prop :=
  length preimage = 32%nat
  ∧ sha256.Sum256 preimage = extpreimage.PreimageRequest.PaymentHash req.

(** What a resolution can add to the record of calls, from the outcome
    [retrieved] of the client's [Retrieve] on [req] (if a client is called at
    all) and the error [persisted] of the registry's [AddInvoicePreimage]
    under [hash]: nothing; the one [Retrieve] that failed; or the one
    [Retrieve] that succeeded followed by the one write of its preimage. *)
Definition resolution_calls (req : extpreimage.PreimageRequest.t) (hash : bytes)
           (retrieved : option Resolution) : list extpreimage.Call :=
  match retrieved with
  | None => []
  | Some (preimage, None, None) =>
      [extpreimage.CallRetrieve req;
       extpreimage.CallAddInvoicePreimage hash preimage]
  | Some _ => [extpreimage.CallRetrieve req]
  end.

(** The keys of the invoice lookups among the calls [cs], in call order. *)
Definition invoice_lookups (cs : list Call) : list bytes :=
  omap (λ c, match c with CallLookupInvoice rHash => Some rHash | _ => None end) cs.

(** The witnesses added among the calls [cs], in call order. *)
Definition witnesses_added (cs : list Call) : list bytes :=
  omap (λ c, match c with CallAddWitness _ witness => Some witness | _ => None end) cs.

(** [sub] occurs in [s]. *)
Definition contains (s sub : string) : Prop :=
  ∃ before after, s = before +:+ sub +:+ after.

Section answers.
Context {N : Type} `{!extpreimage.RPC N}.

(** The wire request [Retrieve] builds for [req] on the client [c]. *)
Definition wire_request (c : extpreimage.client)
           (req : extpreimage.PreimageRequest.t)
  : extpreimage.GetPreimageRequest.t :=
  extpreimage.GetPreimageRequest.mk
    (extpreimage.PreimageRequest.PaymentHash req)
    (extpreimage.PreimageRequest.Amount req)
    (extpreimage.symbol c).1
    (int64 (extpreimage.PreimageRequest.TimeLock req))
    (int64 (extpreimage.PreimageRequest.BestHeight req)).

(** The remote service answers the request [req] of the client [c] with
    the response [res]: the chain name maps to a symbol, and the one
    exchange [Retrieve] makes yields [res]. *)
Definition answers (c : extpreimage.client)
           (req : extpreimage.PreimageRequest.t)
           (res : extpreimage.GetPreimageResponse.t) : Prop :=
  (extpreimage.symbol c).2 = None
  ∧ (extpreimage.retrieve (wire_request c req) c).1 = inl res.

(** What a response is worth to [req], in the words of the specification
    (steps 4 to 7 of [Retrieve]): a declared permanent error is permanent;
    a preimage that is not 32 bytes long, or that does not hash to the
    payment hash, is a temporary error; otherwise the preimage is the
    result. *)
Definition verdict (req : extpreimage.PreimageRequest.t)
           (res : extpreimage.GetPreimageResponse.t) : Resolution :=
  let preimage := extpreimage.GetPreimageResponse.PaymentPreimage res in
  let permanent := extpreimage.GetPreimageResponse.PermanentError res in
  if decide (permanent ≠ "")
  then (zero32, None,
        Some (Errorf ("extpreimage: Encountered permanent error from external service: "
                      +:+ permanent)))
  else if decide (length preimage ≠ 32%nat)
  then (zero32,
        Some (Errorf ("extpreimage: Returned preimage was of length "
                      +:+ fmt_int (Z.of_nat (length preimage)) +:+ ", expected 32")),
        None)
  else if decide (sha256.Sum256 preimage ≠ extpreimage.PreimageRequest.PaymentHash req)
  then (zero32,
        Some (Errorf "extpreimage: Returned preimage did not match provided hash"),
        None)
  else (preimage, None, None).

(** C1 as it is stated, on one client and one request: whatever response
    the service gives, if its preimage fails the hash check then [Retrieve]
    returns a temporary error and no permanent error. *)
Definition hash_check_failure_is_temporary (c : extpreimage.client)
           (req : extpreimage.PreimageRequest.t) : Prop :=
  ∀ res,
    answers c req res →
    ¬ matches_hash req (extpreimage.GetPreimageResponse.PaymentPreimage res) →
    tempErr_of (extpreimage.Retrieve req c).1 ≠ None
    ∧ permErr_of (extpreimage.Retrieve req c).1 = None.

End answers.

(** The client after it has served the requests [reqs], one [Retrieve] after
    the other. *)
Fixpoint after_requests {N : Type} `{!extpreimage.RPC N}
         (reqs : list extpreimage.PreimageRequest.t) (c : extpreimage.client)
  : extpreimage.client :=
  match reqs with
  | [] => c
  | req :: reqs' => after_requests reqs' (extpreimage.Retrieve req c).2
  end.

(** Bytes from text and as lower-case hexadecimal, for the examples. *)
Definition of_ascii_string (s : string) : bytes :=
  map byte_of_ascii (list_ascii_of_string s).

Definition hexdigit (b : Z) : ascii :=
  ascii_of_nat (Z.to_nat (if b <? 10 then 48 + b else 87 + b)).

Fixpoint hex (bs : bytes) : string :=
  match bs with
  | [] => EmptyString
  | b :: rest =>
      String (hexdigit (byte_to_Z b / 16))
             (String (hexdigit (byte_to_Z b mod 16)) (hex rest))
  end.


(** ** Inputs of the examples *)

Module example.

Definition preimage1 : bytes := replicate 32 x01.
Definition preimage2 : bytes := replicate 32 x02.
Definition hash1 : bytes := sha256.Sum256 preimage1.

(** A client configured for bitcoin, not yet connected, whose remote service
    answers from [script]. *)
Definition client_of (script : list stub.Reply) : extpreimage.client :=
  extpreimage.mkClient "preimages.example:8080" "bitcoin" script None.

(** A request for the preimage of [hash1]. *)
Definition request1 : extpreimage.PreimageRequest.t :=
  extpreimage.PreimageRequest.mk hash1 1000 288 123456.

(** Responses: the right preimage; another preimage; a preimage one byte
    short; a permanent error; a permanent error next to a preimage that does
    not hash to [hash1]. *)
Definition good : extpreimage.GetPreimageResponse.t :=
  extpreimage.GetPreimageResponse.mk preimage1 "".
Definition wrong : extpreimage.GetPreimageResponse.t :=
  extpreimage.GetPreimageResponse.mk preimage2 "".
Definition short : extpreimage.GetPreimageResponse.t :=
  extpreimage.GetPreimageResponse.mk (replicate 31 x01) "".
Definition boom : extpreimage.GetPreimageResponse.t :=
  extpreimage.GetPreimageResponse.mk [] "boom".
Definition boom_and_wrong : extpreimage.GetPreimageResponse.t :=
  extpreimage.GetPreimageResponse.mk preimage2 "boom".

(** Invoices of [extpreimage] and contract terms of [channeldb]: external
    with no preimage stored; external with [preimage1] stored; not external
    with no preimage stored. *)
Definition external_invoice : extpreimage.Invoice.t :=
  extpreimage.Invoice.mk true hash1 zero32 1000000 false.
Definition settled_invoice : extpreimage.Invoice.t :=
  extpreimage.Invoice.mk true hash1 preimage1 1000000 false.
Definition empty_invoice : extpreimage.Invoice.t :=
  extpreimage.Invoice.mk false zero32 zero32 1000000 false.

Definition external_term : channeldb.ContractTerm.t :=
  channeldb.ContractTerm.mk true hash1 zero32 1000000 false.
Definition settled_term : channeldb.ContractTerm.t :=
  channeldb.ContractTerm.mk true hash1 preimage1 1000000 false.
Definition empty_term : channeldb.ContractTerm.t :=
  channeldb.ContractTerm.mk false zero32 zero32 1000000 false.

(** An invoice store that holds the external invoice under [hash1]. *)
Definition store : stub.invoiceStore :=
  stub.mkStore {[ hash1 := channeldb.Invoice.mk [] external_term ]} None.

(** The world of a resolution of [i]: a client whose service answers from
    [script], the store, no call made yet. *)
Definition world_of {I : Type} (i : I) (script : list stub.Reply)
  : extpreimage.World I extpreimage.client stub.invoiceStore :=
  extpreimage.mkWorld i (Some (client_of script)) store [].

(** Two subscribers, nothing delivered yet, not cancelled. *)
Definition two_subscribers : gmap Z preimageSubscriber :=
  {[ 0 := mkSubscriber [] false; 1 := mkSubscriber [] false ]}.

(** A beacon with polls over the store, the two subscribers, a client whose
    service answers from [script], and a witness store whose writes fail
    with [add_error], if any. *)
Definition beacon_of (script : list stub.Reply) (add_error : option error)
  : witness_beacon_poll.preimageBeacon extpreimage.client stub.invoiceStore
                                       stub.witnessStore :=
  witness_beacon_poll.mkBeacon
    (Some (client_of script)) store (stub.mkWitnesses [] add_error)
    2 two_subscribers 0 None [] [].

(** The same for the beacon without polls. *)
Definition old_beacon_of (script : list stub.Reply) (add_error : option error)
  : witness_beacon.preimageBeacon extpreimage.client stub.invoiceStore
                                  stub.witnessStore :=
  witness_beacon.mkBeacon
    (Some (client_of script)) store (stub.mkWitnesses [] add_error)
    2 two_subscribers [] [].

(** [LookupPreimage] of [hash1] and the loop of a poll for the external
    invoice, on such a beacon with a working witness store. *)
Definition lookup (script : list stub.Reply) :=
  witness_beacon_poll.LookupPreimage hash1 (beacon_of script None).

Definition loop (sel : list witness_beacon_poll.selected)
           (script : list stub.Reply) :=
  witness_beacon_poll.pollLoop sel external_term (beacon_of script None).

(** The store with every write failing. *)
Definition broken_store : stub.invoiceStore :=
  stub.mkStore {[ hash1 := channeldb.Invoice.mk [] external_term ]}
               (Some (Errorf "database is closed")).

(** The beacons over a closed invoice store. *)
Definition closed_beacon
  : witness_beacon_poll.preimageBeacon extpreimage.client stub.closedStore
                                       stub.witnessStore :=
  witness_beacon_poll.mkBeacon
    (Some (client_of [stub.Respond good]))
    (stub.mkClosed (Errorf "database is closed"))
    (stub.mkWitnesses [preimage1] None)
    2 two_subscribers 0 None [] [].

Definition old_closed_beacon
  : witness_beacon.preimageBeacon extpreimage.client stub.closedStore
                                  stub.witnessStore :=
  witness_beacon.mkBeacon
    (Some (client_of [stub.Respond good]))
    (stub.mkClosed (Errorf "database is closed"))
    (stub.mkWitnesses [preimage1] None)
    2 two_subscribers [] [].

(** The beacons whose witness store holds [preimage2], of which the invoice
    store knows nothing. *)
Definition hash2 : bytes := sha256.Sum256 preimage2.

Definition cached_beacon
  : witness_beacon_poll.preimageBeacon extpreimage.client stub.invoiceStore
                                       stub.witnessStore :=
  witness_beacon_poll.mkBeacon
    (Some (client_of [stub.Respond good])) store
    (stub.mkWitnesses [preimage2] None)
    2 two_subscribers 0 None [] [].

Definition old_cached_beacon
  : witness_beacon.preimageBeacon extpreimage.client stub.invoiceStore
                                  stub.witnessStore :=
  witness_beacon.mkBeacon
    (Some (client_of [stub.Respond good])) store
    (stub.mkWitnesses [preimage2] None)
    2 two_subscribers [] [].

(** The beacons whose invoice store holds, under [hash1], the invoice that
    stores [preimage1]. *)
Definition settled_store : stub.invoiceStore :=
  stub.mkStore {[ hash1 := channeldb.Invoice.mk [] settled_term ]} None.

Definition settled_beacon
  : witness_beacon_poll.preimageBeacon extpreimage.client stub.invoiceStore
                                       stub.witnessStore :=
  witness_beacon_poll.mkBeacon
    (Some (client_of [stub.Respond wrong])) settled_store
    (stub.mkWitnesses [] None)
    2 two_subscribers 0 None [] [].

Definition old_settled_beacon
  : witness_beacon.preimageBeacon extpreimage.client stub.invoiceStore
                                  stub.witnessStore :=
  witness_beacon.mkBeacon
    (Some (client_of [stub.Respond wrong])) settled_store
    (stub.mkWitnesses [] None)
    2 two_subscribers [] [].

End example.

(** * Theorems *)

(** ** The hash function agrees with published digests *)

Example sha256_constants :
  length sha256.init = 8%nat ∧ length sha256.K = 64%nat
  ∧ head sha256.init = Some 0x6a09e667 ∧ last sha256.init = Some 0x5be0cd19
  ∧ head sha256.K = Some 0x428a2f98 ∧ last sha256.K = Some 0xc67178f2.
Proof. vm_compute. repeat split. Qed.

Example Sum256_abc :
  hex (sha256.Sum256 (of_ascii_string "abc"))
  = "ba7816bf8f01cfea414140de5dae2223b00361a396177a9cb410ff61f20015ad"%string.
Proof. vm_compute. reflexivity. Qed.

Example Sum256_empty :
  hex (sha256.Sum256 [])
  = "e3b0c44298fc1c149afbf4c8996fb92427ae41e4649b934ca495991b7852b855"%string.
Proof. vm_compute. reflexivity. Qed.

Example Sum256_zero32 :
  hex (sha256.Sum256 zero32)
  = "66687aadf862bd776c8fc18b8e9f8e20089714856ee233b3902a591d0d5f2925"%string.
Proof. vm_compute. reflexivity. Qed.

Example Sum256_two_blocks :
  hex (sha256.Sum256 (replicate 100 "a"%byte))
  = "2816597888e4a0d3a36b82b83316ab32680eb8f00f8cd3b904d681246d285a0e"%string.
Proof. vm_compute. reflexivity. Qed.

(** ** Bytes and state *)

Lemma bytes_Equal_true (a b : bytes) : bytes_Equal a b = true ↔ a = b.
Proof. unfold bytes_Equal. apply bool_decide_eq_true. Qed.

Lemma bytes_Equal_false (a b : bytes) : bytes_Equal a b = false ↔ a ≠ b.
Proof. unfold bytes_Equal. apply bool_decide_eq_false. Qed.

Lemma length_zero32 : length zero32 = 32%nat.
Proof. reflexivity. Qed.

Lemma length_copy (dst src : bytes) : length (copy dst src) = length dst.
Proof.
  unfold copy. rewrite length_app, length_take, length_drop. lia.
Qed.

Lemma copy_full (dst src : bytes) :
  length src = length dst → copy dst src = src.
Proof.
  intros Hlen. unfold copy.
  rewrite take_ge by lia. rewrite drop_ge by lia. apply app_nil_r.
Qed.

Lemma append_empty_r (s : string) : s +:+ "" = s.
Proof.
  induction s as [|a s IH]; [done|].
  change (String a (s +:+ "") = String a s). by rewrite IH.
Qed.

Lemma contains_suffix (prefix s : string) : contains (prefix +:+ s) s.
Proof. exists prefix, "". by rewrite append_empty_r. Qed.

(** Unfolding of the sequencing of state transformers. *)
Ltac run :=
  unfold mbind, mret, State_bind, State_ret, get, gets, modify in *.

(** ** The external preimage client *)

Section Retrieve_facts.
Context {N : Type} `{!extpreimage.RPC N}.
Implicit Types (c : extpreimage.client) (req : extpreimage.PreimageRequest.t)
         (res : extpreimage.GetPreimageResponse.t).

(** Without a symbol for the chain, no request is made. *)
Lemma Retrieve_no_symbol c req err :
  (extpreimage.symbol c).2 = Some err →
  extpreimage.Retrieve req c = (zero32, Some err, None, c).
Proof.
  intros Hs. unfold extpreimage.Retrieve. run.
  destruct (extpreimage.symbol c) as [s [e|]]; simpl in Hs; by simplify_eq.
Qed.

(** A failed exchange is a temporary error. *)
Lemma Retrieve_transport c req err c' :
  (extpreimage.symbol c).2 = None →
  extpreimage.retrieve (wire_request c req) c = (inr err, c') →
  extpreimage.Retrieve req c = (zero32, Some err, None, c').
Proof.
  intros Hs Hr. unfold extpreimage.Retrieve. run.
  unfold wire_request in Hr.
  destruct (extpreimage.symbol c) as [s [e|]]; simpl in *; [done|].
  by rewrite Hr.
Qed.

Lemma Retrieve_response c req res c' :
  (extpreimage.symbol c).2 = None →
  extpreimage.retrieve (wire_request c req) c = (inl res, c') →
  extpreimage.Retrieve req c = (verdict req res, c').
Proof.
  intros Hs Hr. unfold extpreimage.Retrieve. run.
  unfold wire_request in Hr.
  destruct (extpreimage.symbol c) as [s [e|]]; simpl in *; [done|].
  rewrite Hr. unfold verdict.
  destruct (String.eqb_spec (extpreimage.GetPreimageResponse.PermanentError res) "")
    as [Hp|Hp]; simpl.
  - rewrite decide_False by (intros ?; done).
    destruct (Nat.eqb_spec (length (extpreimage.GetPreimageResponse.PaymentPreimage res)) 32)
      as [Hl|Hl]; simpl.
    + rewrite decide_False by (intros ?; done).
      destruct (bytes_Equal _ _) eqn:Hh; simpl.
      * apply bytes_Equal_true in Hh.
        rewrite decide_False by (intros ?; done).
        by rewrite copy_full.
      * apply bytes_Equal_false in Hh. by rewrite decide_True.
    + by rewrite decide_True.
  - by rewrite decide_True.
Qed.

Lemma answers_response c req res :
  answers c req res →
  (extpreimage.symbol c).2 = None
  ∧ ∃ c', extpreimage.retrieve (wire_request c req) c = (inl res, c').
Proof.
  intros [Hs Hr]. split; [done|].
  destruct (extpreimage.retrieve _ c) as [r c'] eqn:E. simpl in Hr.
  subst r. by exists c'.
Qed.

Lemma Retrieve_answers c req res :
  answers c req res → (extpreimage.Retrieve req c).1 = verdict req res.
Proof.
  intros (Hs & c' & Hr)%answers_response.
  by rewrite (Retrieve_response _ _ _ _ Hs Hr).
Qed.

(** Every result of [Retrieve] comes from one of three places. *)
Lemma Retrieve_cases c req :
  (∃ err, (extpreimage.Retrieve req c).1 = (zero32, Some err, None))
  ∨ (∃ res, answers c req res
            ∧ (extpreimage.Retrieve req c).1 = verdict req res).
Proof.
  destruct ((extpreimage.symbol c).2) as [err|] eqn:Hs.
  { left. exists err. by rewrite (Retrieve_no_symbol _ _ _ Hs). }
  destruct (extpreimage.retrieve (wire_request c req) c) as [[res|err] c'] eqn:Hr.
  - right. exists res.
    assert (answers c req res) as Ha by (split; [done | by rewrite Hr]).
    split; [done | by apply Retrieve_answers].
  - left. exists err. by rewrite (Retrieve_transport _ _ _ _ Hs Hr).
Qed.

Lemma verdict_one_channel req res : one_channel (verdict req res).
Proof.
  unfold verdict, one_channel, tempErr_of, permErr_of, preimage_of.
  repeat case_decide; simpl;
    (split; [intros [Ht Hp]; congruence | first [reflexivity | intros [?|?]; congruence]]).
Qed.

Lemma Retrieve_one_channel c req :
  one_channel (extpreimage.Retrieve req c).1.
Proof.
  destruct (Retrieve_cases c req) as [[err ->] | (res & _ & ->)].
  - unfold one_channel, tempErr_of, permErr_of, preimage_of; simpl.
    split; [intros [Ht Hp]; congruence | reflexivity].
  - apply verdict_one_channel.
Qed.

Lemma verdict_accepts req res preimage :
  verdict req res = (preimage, None, None) →
  extpreimage.GetPreimageResponse.PermanentError res = ""
  ∧ preimage = extpreimage.GetPreimageResponse.PaymentPreimage res
  ∧ matches_hash req preimage.
Proof.
  unfold verdict, matches_hash. intros Hv.
  repeat case_decide; simplify_eq. done.
Qed.

Lemma verdict_rejects req res :
  extpreimage.GetPreimageResponse.PermanentError res = "" →
  ¬ matches_hash req (extpreimage.GetPreimageResponse.PaymentPreimage res) →
  ∃ err, verdict req res = (zero32, Some err, None).
Proof.
  unfold verdict, matches_hash. intros Hp Hm.
  rewrite decide_False by (by intros ?).
  repeat case_decide; eauto.
  exfalso. by apply Hm.
Qed.

Lemma verdict_permanent req res :
  extpreimage.GetPreimageResponse.PermanentError res ≠ "" →
  verdict req res
  = (zero32, None,
     Some (Errorf ("extpreimage: Encountered permanent error from external service: "
                   +:+ extpreimage.GetPreimageResponse.PermanentError res))).
Proof. unfold verdict. intros Hp. by rewrite decide_True. Qed.

End Retrieve_facts.

(** C1, as amended.  Whenever [Retrieve] returns with both errors [nil], the
    preimage it returns is 32 bytes long and its SHA-256 is the payment hash
    of the request; and whenever the response declares no permanent error
    and its preimage fails this check, [Retrieve] returns a temporary error,
    a [nil] permanent error and the zero preimage. *)
Theorem C1_Retrieve_checks_the_hash {N : Type} `{!extpreimage.RPC N}
        (c : extpreimage.client) (req : extpreimage.PreimageRequest.t) :
  (∀ preimage c',
     extpreimage.Retrieve req c = (preimage, None, None, c') →
     matches_hash req preimage)
  ∧ (∀ res,
       answers c req res →
       extpreimage.GetPreimageResponse.PermanentError res = "" →
       ¬ matches_hash req (extpreimage.GetPreimageResponse.PaymentPreimage res) →
       ∃ err, (extpreimage.Retrieve req c).1 = (zero32, Some err, None)).
Proof.
  split.
  - intros preimage c' HR.
    destruct (Retrieve_cases c req) as [[err He] | (res & _ & Hv)];
      rewrite HR in *; simpl in *; [discriminate|].
    symmetry in Hv. by apply verdict_accepts in Hv as (_ & _ & ?).
  - intros res Ha Hp Hm. rewrite (Retrieve_answers _ _ _ Ha).
    by apply verdict_rejects.
Qed.

Lemma C1_Retrieve_checks_the_hash_witness :
  matches_hash example.request1 example.preimage1
  ∧ ∃ err,
      (extpreimage.Retrieve example.request1
         (example.client_of [stub.Respond example.wrong])).1
      = (zero32, Some err, None).
Proof.
  split.
  - eapply (proj1 (C1_Retrieve_checks_the_hash
                     (example.client_of [stub.Respond example.good])
                     example.request1)).
    vm_compute. reflexivity.
  - apply (proj2 (C1_Retrieve_checks_the_hash
                    (example.client_of [stub.Respond example.wrong])
                    example.request1) example.wrong).
    + split; vm_compute; reflexivity.
    + reflexivity.
    + intros [_ Hh]. vm_compute in Hh. discriminate Hh.
Defined.

(** C1, as stated, fails: the service answers [request1] with a response
    that declares the permanent error "boom" and carries a 32-byte preimage
    that does not hash to the payment hash; the preimage fails the hash
    check, and [Retrieve] returns a permanent error and no temporary one. *)
Lemma C1_counterexample :
  let c := example.client_of [stub.Respond example.boom_and_wrong] in
  answers c example.request1 example.boom_and_wrong
  ∧ ¬ matches_hash example.request1
        (extpreimage.GetPreimageResponse.PaymentPreimage example.boom_and_wrong)
  ∧ ¬ hash_check_failure_is_temporary c example.request1.
Proof.
  assert (answers (example.client_of [stub.Respond example.boom_and_wrong])
                  example.request1 example.boom_and_wrong) as Ha
      by (split; vm_compute; reflexivity).
  assert (¬ matches_hash example.request1
            (extpreimage.GetPreimageResponse.PaymentPreimage example.boom_and_wrong))
    as Hm by (intros [_ Hh]; vm_compute in Hh; discriminate Hh).
  simpl. split; [done|]. split; [done|].
  intros Hclaim. destruct (Hclaim _ Ha Hm) as [_ Hperm].
  vm_compute in Hperm. discriminate Hperm.
Qed.

(** C7.  When the response of the remote service carries a non-empty
    permanent error, [Retrieve] returns the zero preimage, a [nil] temporary
    error and a permanent error whose message is the fixed prefix followed
    by that string, unaltered; the permanent error contains the string. *)
Theorem C7_Retrieve_surfaces_permanent_error {N : Type} `{!extpreimage.RPC N}
        (c : extpreimage.client) (req : extpreimage.PreimageRequest.t)
        (res : extpreimage.GetPreimageResponse.t) :
  answers c req res →
  extpreimage.GetPreimageResponse.PermanentError res ≠ "" →
  ∃ err,
    (extpreimage.Retrieve req c).1 = (zero32, None, Some err)
    ∧ Error err
      = "extpreimage: Encountered permanent error from external service: "
        +:+ extpreimage.GetPreimageResponse.PermanentError res
    ∧ contains (Error err) (extpreimage.GetPreimageResponse.PermanentError res).
Proof.
  intros Ha Hp. rewrite (Retrieve_answers _ _ _ Ha), (verdict_permanent _ _ Hp).
  eexists. split; [reflexivity|]. split; [reflexivity|].
  apply contains_suffix.
Qed.

Lemma C7_Retrieve_surfaces_permanent_error_witness :
  ∃ err,
    (extpreimage.Retrieve example.request1
       (example.client_of [stub.Respond example.boom])).1
    = (zero32, None, Some err)
    ∧ Error err
      = "extpreimage: Encountered permanent error from external service: boom"
    ∧ contains (Error err) "boom".
Proof.
  apply (C7_Retrieve_surfaces_permanent_error
           (example.client_of [stub.Respond example.boom])
           example.request1 example.boom).
  - split; vm_compute; reflexivity.
  - discriminate.
Defined.

(** ** The resolution of one invoice *)

(** Case analysis along the branches of [GetPaymentPreimage]. *)
Ltac branches :=
  repeat match goal with
         | |- context [match ?x with _ => _ end] =>
             lazymatch x with
             | context [match _ with _ => _ end] => fail
             | _ => destruct x eqn:?; simpl
             end
         end.

Ltac resolution :=
  unfold extpreimage.GetPaymentPreimage, channeldb.GetPaymentPreimage,
    extpreimage.call_Retrieve, extpreimage.call_AddInvoicePreimage;
  run; simpl.

Section GetPaymentPreimage_facts.
Context {C R : Type} `{!extpreimage.Client.t C}
        `{!extpreimage.InvoiceRegistry.t R}.
Implicit Types (w : extpreimage.World extpreimage.Invoice.t C R)
         (v : extpreimage.World channeldb.ContractTerm.t C R)
         (timeLock currentHeight : Z).

Lemma Invoice_one_channel w timeLock currentHeight :
  one_channel (extpreimage.GetPaymentPreimage timeLock currentHeight w).1.
Proof.
  unfold one_channel, tempErr_of, permErr_of, preimage_of.
  resolution; branches;
    (split; [intros [? ?]; congruence | first [reflexivity | intros [?|?]; congruence]]).
Qed.

Lemma ContractTerm_one_channel v timeLock currentHeight :
  one_channel (channeldb.GetPaymentPreimage timeLock currentHeight v).1.
Proof.
  unfold one_channel, tempErr_of, permErr_of, preimage_of.
  resolution; branches;
    (split; [intros [? ?]; congruence | first [reflexivity | intros [?|?]; congruence]]).
Qed.

Lemma Invoice_self_unchanged w timeLock currentHeight :
  extpreimage.self (extpreimage.GetPaymentPreimage timeLock currentHeight w).2
  = extpreimage.self w.
Proof. resolution; branches; reflexivity. Qed.

Lemma ContractTerm_self_unchanged v timeLock currentHeight :
  extpreimage.self (channeldb.GetPaymentPreimage timeLock currentHeight v).2
  = extpreimage.self v.
Proof. resolution; branches; reflexivity. Qed.

End GetPaymentPreimage_facts.

(** C2.  The results of [Retrieve] and of both [GetPaymentPreimage] populate
    at most one failure channel: the temporary and the permanent error are
    never both non-nil, and when either is non-nil the preimage returned is
    the zero value. *)
Theorem C2_one_failure_channel :
  (∀ (N : Type) (rpc : extpreimage.RPC N) (c : extpreimage.client)
     (req : extpreimage.PreimageRequest.t),
     one_channel (extpreimage.Retrieve req c).1)
  ∧ (∀ (C R : Type) (client : extpreimage.Client.t C)
       (registry : extpreimage.InvoiceRegistry.t R)
       (w : extpreimage.World extpreimage.Invoice.t C R)
       (timeLock currentHeight : Z),
       one_channel (extpreimage.GetPaymentPreimage timeLock currentHeight w).1)
  ∧ (∀ (C R : Type) (client : extpreimage.Client.t C)
       (registry : extpreimage.InvoiceRegistry.t R)
       (w : extpreimage.World channeldb.ContractTerm.t C R)
       (timeLock currentHeight : Z),
       one_channel (channeldb.GetPaymentPreimage timeLock currentHeight w).1).
Proof.
  split; [|split]; intros.
  - apply Retrieve_one_channel.
  - apply Invoice_one_channel.
  - apply ContractTerm_one_channel.
Qed.

(** C5.  On an invoice whose stored preimage is not the zero value,
    [GetPaymentPreimage] returns that preimage with both errors [nil],
    whatever the external flag, and leaves everything as it was: no call to
    the client, no write to the registry. *)
Theorem C5_stored_preimage_is_returned {C R : Type}
        `{!extpreimage.Client.t C} `{!extpreimage.InvoiceRegistry.t R}
        (timeLock currentHeight : Z) :
  (∀ w : extpreimage.World extpreimage.Invoice.t C R,
     extpreimage.Invoice.PaymentPreimage (extpreimage.self w) ≠ zero32 →
     extpreimage.GetPaymentPreimage timeLock currentHeight w
     = (extpreimage.Invoice.PaymentPreimage (extpreimage.self w), None, None, w))
  ∧ (∀ w : extpreimage.World channeldb.ContractTerm.t C R,
       channeldb.ContractTerm.PaymentPreimage (extpreimage.self w) ≠ zero32 →
       channeldb.GetPaymentPreimage timeLock currentHeight w
       = (channeldb.ContractTerm.PaymentPreimage (extpreimage.self w), None, None, w)).
Proof.
  split; intros w Hpre; apply bytes_Equal_false in Hpre;
    resolution; by rewrite Hpre.
Qed.

Lemma C5_stored_preimage_is_returned_witness :
  extpreimage.GetPaymentPreimage 288 123456
    (example.world_of example.settled_invoice [stub.Respond example.wrong])
  = (example.preimage1, None, None,
     example.world_of example.settled_invoice [stub.Respond example.wrong])
  ∧ channeldb.GetPaymentPreimage 288 123456
      (example.world_of example.settled_term [stub.Respond example.wrong])
    = (example.preimage1, None, None,
       example.world_of example.settled_term [stub.Respond example.wrong]).
Proof.
  split.
  - apply (proj1 (C5_stored_preimage_is_returned 288 123456)
             (example.world_of example.settled_invoice [stub.Respond example.wrong])).
    vm_compute. discriminate.
  - apply (proj2 (C5_stored_preimage_is_returned 288 123456)
             (example.world_of example.settled_term [stub.Respond example.wrong])).
    vm_compute. discriminate.
Defined.

(** C6.  On an invoice whose stored preimage is the zero value and whose
    external flag is false, [GetPaymentPreimage] returns the zero preimage,
    a [nil] temporary error and the permanent error "no preimage available
    on invoice". *)
Theorem C6_no_preimage_available {C R : Type}
        `{!extpreimage.Client.t C} `{!extpreimage.InvoiceRegistry.t R}
        (timeLock currentHeight : Z) :
  (∀ w : extpreimage.World extpreimage.Invoice.t C R,
     extpreimage.Invoice.PaymentPreimage (extpreimage.self w) = zero32 →
     extpreimage.Invoice.ExternalPreimage (extpreimage.self w) = false →
     extpreimage.GetPaymentPreimage timeLock currentHeight w
     = (zero32, None, Some (Errorf "no preimage available on invoice"), w))
  ∧ (∀ w : extpreimage.World channeldb.ContractTerm.t C R,
       channeldb.ContractTerm.PaymentPreimage (extpreimage.self w) = zero32 →
       channeldb.ContractTerm.ExternalPreimage (extpreimage.self w) = false →
       channeldb.GetPaymentPreimage timeLock currentHeight w
       = (zero32, None, Some (Errorf "no preimage available on invoice"), w)).
Proof.
  split; intros w Hpre Hext; apply bytes_Equal_true in Hpre;
    resolution; by rewrite Hpre, Hext.
Qed.

Lemma C6_no_preimage_available_witness :
  extpreimage.GetPaymentPreimage 288 123456
    (example.world_of example.empty_invoice [stub.Respond example.good])
  = (zero32, None, Some (Errorf "no preimage available on invoice"),
     example.world_of example.empty_invoice [stub.Respond example.good])
  ∧ channeldb.GetPaymentPreimage 288 123456
      (example.world_of example.empty_term [stub.Respond example.good])
    = (zero32, None, Some (Errorf "no preimage available on invoice"),
       example.world_of example.empty_term [stub.Respond example.good]).
Proof.
  split.
  - by apply (proj1 (C6_no_preimage_available 288 123456)
                (example.world_of example.empty_invoice [stub.Respond example.good])).
  - by apply (proj2 (C6_no_preimage_available 288 123456)
                (example.world_of example.empty_term [stub.Respond example.good])).
Defined.

Section external_success.
Context {C R : Type} `{!extpreimage.Client.t C}
        `{!extpreimage.InvoiceRegistry.t R}.

(** A preimage fetched for an [Invoice] reaches the registry through one call
    of [AddInvoicePreimage], after the one call of [Retrieve]. *)
Lemma Invoice_fetched (w w' : extpreimage.World extpreimage.Invoice.t C R)
      (timeLock currentHeight : Z) (preimage : bytes) :
  extpreimage.Invoice.PaymentPreimage (extpreimage.self w) = zero32 →
  extpreimage.GetPaymentPreimage timeLock currentHeight w
  = (preimage, None, None, w') →
  let hash := extpreimage.Invoice.PaymentHash (extpreimage.self w) in
  (∃ req, extpreimage.calls w'
          = extpreimage.calls w
            ++ [extpreimage.CallRetrieve req;
                extpreimage.CallAddInvoicePreimage hash preimage])
  ∧ extpreimage.registry w'
    = (extpreimage.InvoiceRegistry.AddInvoicePreimage hash preimage
         (extpreimage.registry w)).2.
Proof.
  intros Hpre%bytes_Equal_true. resolution. rewrite Hpre. simpl.
  branches; intros ?; simplify_eq; simpl.
  split.
  - eexists. by rewrite <- app_assoc.
  - match goal with Hadd : _ = (None, _) |- _ => by rewrite Hadd end.
Qed.

Lemma ContractTerm_fetched (w w' : extpreimage.World channeldb.ContractTerm.t C R)
      (timeLock currentHeight : Z) (preimage : bytes) :
  channeldb.ContractTerm.PaymentPreimage (extpreimage.self w) = zero32 →
  channeldb.GetPaymentPreimage timeLock currentHeight w
  = (preimage, None, None, w') →
  let hash := channeldb.ContractTerm.PaymentHash (extpreimage.self w) in
  (∃ req, extpreimage.calls w'
          = extpreimage.calls w
            ++ [extpreimage.CallRetrieve req;
                extpreimage.CallAddInvoicePreimage hash preimage])
  ∧ extpreimage.registry w'
    = (extpreimage.InvoiceRegistry.AddInvoicePreimage hash preimage
         (extpreimage.registry w)).2.
Proof.
  intros Hpre%bytes_Equal_true. resolution. rewrite Hpre. simpl.
  branches; intros ?; simplify_eq; simpl.
  split.
  - eexists. by rewrite <- app_assoc.
  - match goal with Hadd : _ = (None, _) |- _ => by rewrite Hadd end.
Qed.

End external_success.

(** C10.  [GetPaymentPreimage] leaves the invoice it is invoked on as it
    was, field for field.  When it fetches a preimage for an invoice that
    stores none, the preimage goes to the registry through one call of
    [AddInvoicePreimage] under the invoice's payment hash, and the stored
    preimage of the invoice in memory is still the zero value. *)
Theorem C10_GetPaymentPreimage_does_not_mutate {C R : Type}
        `{!extpreimage.Client.t C} `{!extpreimage.InvoiceRegistry.t R}
        (timeLock currentHeight : Z) :
  (∀ w : extpreimage.World extpreimage.Invoice.t C R,
     let w' := (extpreimage.GetPaymentPreimage timeLock currentHeight w).2 in
     extpreimage.self w' = extpreimage.self w)
  ∧ (∀ w : extpreimage.World channeldb.ContractTerm.t C R,
       let w' := (channeldb.GetPaymentPreimage timeLock currentHeight w).2 in
       extpreimage.self w' = extpreimage.self w)
  ∧ (∀ (w w' : extpreimage.World extpreimage.Invoice.t C R) (preimage : bytes),
       extpreimage.Invoice.PaymentPreimage (extpreimage.self w) = zero32 →
       extpreimage.GetPaymentPreimage timeLock currentHeight w
       = (preimage, None, None, w') →
       extpreimage.Invoice.PaymentPreimage (extpreimage.self w') = zero32
       ∧ (∃ req, extpreimage.calls w'
                 = extpreimage.calls w
                   ++ [extpreimage.CallRetrieve req;
                       extpreimage.CallAddInvoicePreimage
                         (extpreimage.Invoice.PaymentHash (extpreimage.self w))
                         preimage]))
  ∧ (∀ (w w' : extpreimage.World channeldb.ContractTerm.t C R) (preimage : bytes),
       channeldb.ContractTerm.PaymentPreimage (extpreimage.self w) = zero32 →
       channeldb.GetPaymentPreimage timeLock currentHeight w
       = (preimage, None, None, w') →
       channeldb.ContractTerm.PaymentPreimage (extpreimage.self w') = zero32
       ∧ (∃ req, extpreimage.calls w'
                 = extpreimage.calls w
                   ++ [extpreimage.CallRetrieve req;
                       extpreimage.CallAddInvoicePreimage
                         (channeldb.ContractTerm.PaymentHash (extpreimage.self w))
                         preimage])).
Proof.
  split; [|split; [|split]].
  - intros w. apply Invoice_self_unchanged.
  - intros w. apply ContractTerm_self_unchanged.
  - intros w w' preimage Hpre Hget. split.
    + pose proof (Invoice_self_unchanged w timeLock currentHeight) as Hself.
      rewrite Hget in Hself. simpl in Hself. by rewrite Hself.
    + by destruct (Invoice_fetched _ _ _ _ _ Hpre Hget) as [? _].
  - intros w w' preimage Hpre Hget. split.
    + pose proof (ContractTerm_self_unchanged w timeLock currentHeight) as Hself.
      rewrite Hget in Hself. simpl in Hself. by rewrite Hself.
    + by destruct (ContractTerm_fetched _ _ _ _ _ Hpre Hget) as [? _].
Qed.

Lemma C10_GetPaymentPreimage_does_not_mutate_witness :
  let w := example.world_of example.external_invoice [stub.Respond example.good] in
  let w' := (extpreimage.GetPaymentPreimage 288 123456 w).2 in
  let v := example.world_of example.external_term [stub.Respond example.good] in
  let v' := (channeldb.GetPaymentPreimage 288 123456 v).2 in
  (extpreimage.self w' = example.external_invoice
   ∧ extpreimage.Invoice.PaymentPreimage (extpreimage.self w') = zero32
   ∧ ∃ req, extpreimage.calls w'
            = [extpreimage.CallRetrieve req;
               extpreimage.CallAddInvoicePreimage example.hash1 example.preimage1])
  ∧ (extpreimage.self v' = example.external_term
     ∧ channeldb.ContractTerm.PaymentPreimage (extpreimage.self v') = zero32
     ∧ ∃ req, extpreimage.calls v'
              = [extpreimage.CallRetrieve req;
                 extpreimage.CallAddInvoicePreimage example.hash1 example.preimage1]).
Proof.
  intros w w' v v'.
  destruct (C10_GetPaymentPreimage_does_not_mutate
              (C := extpreimage.client) (R := stub.invoiceStore) 288 123456)
    as (Hself & Hself' & Hfetch & Hfetch').
  split.
  - split; [exact (Hself w)|].
    apply (Hfetch w w' example.preimage1).
    + reflexivity.
    + vm_compute. reflexivity.
  - split; [exact (Hself' v)|].
    apply (Hfetch' v v' example.preimage1).
    + reflexivity.
    + vm_compute. reflexivity.
Defined.

(** ** The key of the invoice lookup *)

Lemma invoiceKey_padded (payHash : bytes) :
  invoiceKey payHash
  = take 32 payHash ++ replicate (32 - length payHash) x00.
Proof.
  unfold invoiceKey, copy. rewrite length_zero32. f_equal.
  unfold zero32. rewrite drop_replicate. reflexivity.
Qed.

Lemma length_invoiceKey (payHash : bytes) : length (invoiceKey payHash) = 32%nat.
Proof. unfold invoiceKey. by rewrite length_copy. Qed.

Lemma invoiceKey_prefix (a b : bytes) :
  take 32 a = take 32 b → invoiceKey a = invoiceKey b.
Proof.
  intros Hab. rewrite !invoiceKey_padded, Hab. f_equal. f_equal.
  assert (length (take 32 a) = length (take 32 b)) as Hlen by (by rewrite Hab).
  rewrite !length_take in Hlen. lia.
Qed.

Lemma invoice_lookups_app (cs ds : list Call) :
  invoice_lookups (cs ++ ds) = invoice_lookups cs ++ invoice_lookups ds.
Proof. apply omap_app. Qed.

Lemma invoice_lookups_resolution (cs : list extpreimage.Call) :
  invoice_lookups (map CallResolution cs) = [].
Proof. induction cs as [|c cs IH]; [done | exact IH]. Qed.

(** ** The beacon with polls *)

Section poll_beacon_facts.
Context {C D W : Type} `{!extpreimage.Client.t C}
        `{!htlcswitch.InvoiceDatabase.t D} `{!witnessCache.t W}.
Import witness_beacon_poll.
Implicit Types (p : preimageBeacon C D W) (i : channeldb.ContractTerm.t).


Lemma same_registrations_refl p : same_registrations p p.
Proof. by repeat split. Qed.

Lemma same_registrations_trans p p' p'' :
  same_registrations p p' → same_registrations p' p'' → same_registrations p p''.
Proof.
  unfold same_registrations. intros (?&?&?&?) (?&?&?&?).
  repeat split; congruence.
Qed.

Lemma notify_spec pre l p :
  let p' := (notify pre l p).2 in
  same_registrations p p'
  ∧ calls p' = calls p
  ∧ wCache p' = wCache p
  ∧ goroutines p' = goroutines p ++ map (λ kv, GoNotify kv.1 pre) l.
Proof.
  revert p. induction l as [|[client s] l IH]; intros p; simpl.
  - rewrite app_nil_r. by repeat split.
  - unfold go at 1. run. simpl.
    destruct (IH (mkBeacon (extpreimageClient p) (invoices p) (wCache p)
                           (clientCounter p) (subscribers p) (pollCounter p)
                           (polls p) (goroutines p ++ [GoNotify client pre])
                           (calls p))) as (Hreg & Hcalls & Hw & Hgo).
    destruct (notify pre l _) as [[] p'] eqn:E. simpl in *.
    split; [exact Hreg|]. split; [exact Hcalls|]. split; [exact Hw|].
    by rewrite Hgo, <- app_assoc.
Qed.

Lemma AddPreimage_failure pre p e w' :
  witnessCache.AddWitness channeldb.Sha256HashWitness pre (wCache p) = (Some e, w') →
  AddPreimage pre p
  = (Some e,
     mkBeacon (extpreimageClient p) (invoices p) w'
              (clientCounter p) (subscribers p) (pollCounter p) (polls p)
              (goroutines p)
              (calls p ++ [CallAddWitness channeldb.Sha256HashWitness pre])).
Proof.
  intros Hadd. unfold AddPreimage, call_AddWitness. run. by rewrite Hadd.
Qed.

Lemma AddPreimage_success pre p w' :
  witnessCache.AddWitness channeldb.Sha256HashWitness pre (wCache p) = (None, w') →
  let p' := (AddPreimage pre p).2 in
  (AddPreimage pre p).1 = None
  ∧ same_registrations p p'
  ∧ wCache p' = w'
  ∧ calls p' = calls p ++ [CallAddWitness channeldb.Sha256HashWitness pre]
  ∧ goroutines p'
    = goroutines p ++ map (λ kv, GoNotify kv.1 pre) (map_to_list (subscribers p)).
Proof.
  intros Hadd. unfold AddPreimage, call_AddWitness. run. rewrite Hadd. simpl.
  match goal with
  | |- context [notify pre ?l ?q] =>
      destruct (notify_spec pre l q) as (Hreg & Hcalls & Hw & Hgo);
      destruct (notify pre l q) as [[] p'] eqn:E
  end.
  simpl in *. split; [done|]. split; [exact Hreg|]. by repeat split.
Qed.

Lemma AddPreimage_same_registrations pre p :
  same_registrations p (AddPreimage pre p).2.
Proof.
  destruct (witnessCache.AddWitness channeldb.Sha256HashWitness pre (wCache p))
    as [[e|] w'] eqn:Hadd.
  - rewrite (AddPreimage_failure _ _ _ _ Hadd). by repeat split.
  - by destruct (AddPreimage_success _ _ _ Hadd) as (_ & ? & _).
Qed.

Lemma call_GetPaymentPreimage_same_registrations i timeLock currentHeight p :
  same_registrations p (call_GetPaymentPreimage i timeLock currentHeight p).2.
Proof.
  unfold call_GetPaymentPreimage.
  destruct (channeldb.GetPaymentPreimage _ _ _) as [r w]. by repeat split.
Qed.

Lemma call_GetPaymentPreimage_goroutines i timeLock currentHeight p :
  goroutines (call_GetPaymentPreimage i timeLock currentHeight p).2 = goroutines p.
Proof.
  unfold call_GetPaymentPreimage.
  by destruct (channeldb.GetPaymentPreimage _ _ _) as [r w].
Qed.

(** The result of the beacon's resolution is the result of
    [GetPaymentPreimage] on the beacon's client and invoice store, and the
    term comes back as it was. *)
Lemma call_GetPaymentPreimage_result i timeLock currentHeight p :
  let w := extpreimage.mkWorld i (extpreimageClient p) (invoices p) [] in
  (call_GetPaymentPreimage i timeLock currentHeight p).1
  = ((channeldb.GetPaymentPreimage timeLock currentHeight w).1, i).
Proof.
  simpl. unfold call_GetPaymentPreimage.
  pose proof (ContractTerm_self_unchanged
                (extpreimage.mkWorld i (extpreimageClient p) (invoices p) [])
                timeLock currentHeight) as Hself.
  destruct (channeldb.GetPaymentPreimage _ _ _) as [r w]. simpl in *.
  by rewrite Hself.
Qed.

Lemma pollLoop_same_registrations sel i p :
  same_registrations p (pollLoop sel i p).2.
Proof.
  revert i p. induction sel as [|s sel IH]; intros i p; simpl.
  - apply same_registrations_refl.
  - destruct s; [|apply same_registrations_refl].
    run.
    pose proof (call_GetPaymentPreimage_same_registrations i (uint32 0) (uint32 0) p)
      as Hreg.
    destruct (call_GetPaymentPreimage i (uint32 0) (uint32 0) p)
      as [[[[preimage tempErr] permErr] i'] p1]. simpl in *.
    destruct permErr as [e|]; [exact Hreg|].
    destruct tempErr as [e|].
    + eapply same_registrations_trans; [exact Hreg | apply IH].
    + pose proof (AddPreimage_same_registrations preimage p1) as Hadd.
      destruct (AddPreimage preimage p1) as [err p2]. simpl in *.
      eapply same_registrations_trans; eassumption.
Qed.

End poll_beacon_facts.

Section LookupPreimage_facts.
Context {C D W : Type} `{!extpreimage.Client.t C}
        `{!htlcswitch.InvoiceDatabase.t D} `{!witnessCache.t W}.
Import witness_beacon_poll.
Implicit Types (p : preimageBeacon C D W).

(** The invoice lookups [LookupPreimage] makes: one, under the key. *)
Lemma LookupPreimage_invoice_lookups payHash p :
  invoice_lookups (calls (LookupPreimage payHash p).2)
  = invoice_lookups (calls p) ++ [invoiceKey payHash].
Proof.
  unfold LookupPreimage, call_LookupInvoice, call_LookupWitness,
    call_GetPaymentPreimage, go. run.
  destruct (htlcswitch.InvoiceDatabase.LookupInvoice _ _)
    as [[[invoice height] err] d].
  destruct err as [[msg| |]|]; simpl.
  - by rewrite invoice_lookups_app.
  - by rewrite invoice_lookups_app.
  - destruct (witnessCache.LookupWitness _ _ _) as [[preimage err] w].
    destruct err; simpl;
      rewrite !invoice_lookups_app; simpl; by rewrite app_nil_r.
  - destruct (channeldb.GetPaymentPreimage _ _ _)
      as [[[preimage tempErr] permErr] w].
    destruct permErr, tempErr; simpl;
      rewrite !invoice_lookups_app, invoice_lookups_resolution; simpl;
      by rewrite app_nil_r.
Qed.

(** [LookupPreimage] on an invoice that the store finds. *)
Lemma LookupPreimage_found payHash p invoice height d preimage tempErr permErr :
  htlcswitch.InvoiceDatabase.LookupInvoice (invoiceKey payHash) (invoices p)
  = (invoice, height, None, d) →
  (channeldb.GetPaymentPreimage (uint32 0) (uint32 0)
     (extpreimage.mkWorld (castInvoiceTerm invoice) (extpreimageClient p) d [])).1
  = (preimage, tempErr, permErr) →
  (LookupPreimage payHash p).1
  = match permErr, tempErr with
    | None, None => (preimage, true)
    | _, _ => ([], false)
    end
  ∧ goroutines (LookupPreimage payHash p).2
    = match permErr, tempErr with
      | None, Some _ =>
          goroutines p ++ [GoPollExtpreimage (castInvoiceTerm invoice) (10 * Second)]
      | _, _ => goroutines p
      end.
Proof.
  intros Hlook Hres.
  unfold LookupPreimage, call_LookupInvoice, go. run. rewrite Hlook. simpl.
  match goal with
  | |- context [call_GetPaymentPreimage ?i ?t ?h ?q] =>
      pose proof (call_GetPaymentPreimage_result i t h q) as Hr;
      pose proof (call_GetPaymentPreimage_goroutines i t h q) as Hg;
      destruct (call_GetPaymentPreimage i t h q) as [[[[pre' t'] p'] i'] p2]
  end.
  simpl in Hr, Hg. rewrite Hres in Hr. simplify_eq.
  destruct permErr, tempErr; simpl; by rewrite ?Hg.
Qed.

End LookupPreimage_facts.

(** C3.  [LookupPreimage] returns a preimage and a flag, never an error.
    When the store finds the invoice and its resolution (with zero time lock
    and height) yields a permanent error, the result is [(nil, false)] and
    no goroutine is started; when it yields a temporary error, the result is
    [(nil, false)] and one goroutine is started, [pollExtpreimage] on that
    invoice's terms every ten seconds; when it yields neither, the result is
    the resolved preimage and [true], and no goroutine is started. *)
Theorem C3_LookupPreimage_degrades_resolution_errors {C D W : Type}
        `{!extpreimage.Client.t C} `{!htlcswitch.InvoiceDatabase.t D}
        `{!witnessCache.t W}
        (p : witness_beacon_poll.preimageBeacon C D W) (payHash : bytes)
        (invoice : channeldb.Invoice.t) (height : Z) (d : D)
        (preimage : bytes) (tempErr permErr : option error) :
  htlcswitch.InvoiceDatabase.LookupInvoice (invoiceKey payHash)
    (witness_beacon_poll.invoices p)
  = (invoice, height, None, d) →
  (channeldb.GetPaymentPreimage (uint32 0) (uint32 0)
     (extpreimage.mkWorld (castInvoiceTerm invoice)
        (witness_beacon_poll.extpreimageClient p) d [])).1
  = (preimage, tempErr, permErr) →
  let result := (witness_beacon_poll.LookupPreimage payHash p).1 in
  let started := witness_beacon_poll.goroutines
                   (witness_beacon_poll.LookupPreimage payHash p).2 in
  (permErr ≠ None →
   result = ([], false) ∧ started = witness_beacon_poll.goroutines p)
  ∧ (tempErr ≠ None →
     result = ([], false)
     ∧ started = witness_beacon_poll.goroutines p
                 ++ [GoPollExtpreimage (castInvoiceTerm invoice) (10 * Second)])
  ∧ (tempErr = None → permErr = None →
     result = (preimage, true) ∧ started = witness_beacon_poll.goroutines p).
Proof.
  intros Hlook Hres result started.
  destruct (LookupPreimage_found _ _ _ _ _ _ _ _ Hlook Hres) as [Hr Hg].
  fold result in Hr. fold started in Hg.
  pose proof (ContractTerm_one_channel
                (extpreimage.mkWorld (castInvoiceTerm invoice)
                   (witness_beacon_poll.extpreimageClient p) d [])
                (uint32 0) (uint32 0)) as [Hone _].
  rewrite Hres in Hone. unfold tempErr_of, permErr_of in Hone. simpl in Hone.
  split; [|split].
  - intros Hp. destruct permErr; [|done]. destruct tempErr; by rewrite Hr, Hg.
  - intros Ht. destruct tempErr; [|done].
    destruct permErr; [exfalso; apply Hone; by split|].
    by rewrite Hr, Hg.
  - intros -> ->. by rewrite Hr, Hg.
Qed.

Lemma C3_LookupPreimage_degrades_resolution_errors_witness :
  ((example.lookup [stub.Fail (Errorf "connection refused")]).1 = ([], false)
   ∧ witness_beacon_poll.goroutines
       (example.lookup [stub.Fail (Errorf "connection refused")]).2
     = [GoPollExtpreimage example.external_term (10 * Second)])
  ∧ ((example.lookup [stub.Respond example.boom]).1 = ([], false)
     ∧ witness_beacon_poll.goroutines
         (example.lookup [stub.Respond example.boom]).2 = [])
  ∧ ((example.lookup [stub.Respond example.good]).1 = (example.preimage1, true)
     ∧ witness_beacon_poll.goroutines
         (example.lookup [stub.Respond example.good]).2 = []).
Proof.
  split; [|split].
  - edestruct (C3_LookupPreimage_degrades_resolution_errors
                 (example.beacon_of [stub.Fail (Errorf "connection refused")] None)
                 example.hash1) as (_ & Htemp & _).
    + vm_compute. reflexivity.
    + vm_compute. reflexivity.
    + apply Htemp. discriminate.
  - edestruct (C3_LookupPreimage_degrades_resolution_errors
                 (example.beacon_of [stub.Respond example.boom] None)
                 example.hash1) as (Hperm & _ & _).
    + vm_compute. reflexivity.
    + vm_compute. reflexivity.
    + apply Hperm. discriminate.
  - edestruct (C3_LookupPreimage_degrades_resolution_errors
                 (example.beacon_of [stub.Respond example.good] None)
                 example.hash1) as (_ & _ & Hok).
    + vm_compute. reflexivity.
    + vm_compute. reflexivity.
    + apply Hok; reflexivity.
Defined.

(** ** The beacon without polls *)

Section old_beacon_facts.
Context {C D W : Type} `{!extpreimage.Client.t C}
        `{!htlcswitch.InvoiceDatabase.t D} `{!witnessCache.t W}.
Import witness_beacon.
Implicit Types (p : preimageBeacon C D W).

Lemma old_AddPreimage_failure pre p e w' :
  witnessCache.AddWitness channeldb.Sha256HashWitness pre (wCache p) = (Some e, w') →
  AddPreimage pre p
  = (Some e,
     mkBeacon (extpreimageClient p) (invoices p) w'
              (clientCounter p) (subscribers p) (goroutines p)
              (calls p ++ [CallAddWitness channeldb.Sha256HashWitness pre])).
Proof.
  intros Hadd. unfold AddPreimage, call_AddWitness. run. by rewrite Hadd.
Qed.

Lemma old_LookupPreimage_invoice_lookups payHash p :
  invoice_lookups (calls (LookupPreimage payHash p).2)
  = invoice_lookups (calls p) ++ [invoiceKey payHash].
Proof.
  unfold LookupPreimage, call_LookupInvoice, call_LookupWitness,
    call_GetPaymentPreimage. run.
  destruct (htlcswitch.InvoiceDatabase.LookupInvoice _ _)
    as [[[invoice height] err] d].
  destruct err as [[msg| |]|]; simpl.
  - by rewrite invoice_lookups_app.
  - by rewrite invoice_lookups_app.
  - destruct (witnessCache.LookupWitness _ _ _) as [[preimage err] w].
    destruct err; simpl;
      rewrite !invoice_lookups_app; simpl; by rewrite app_nil_r.
  - destruct (channeldb.GetPaymentPreimage _ _ _)
      as [[[preimage tempErr] permErr] w].
    destruct permErr, tempErr; simpl;
      rewrite !invoice_lookups_app, invoice_lookups_resolution; simpl;
      by rewrite app_nil_r.
Qed.

End old_beacon_facts.

(** C4.  If the write to the witness store inside [AddPreimage] fails,
    [AddPreimage] returns that error, starts no goroutine (no delivery is
    attempted) and leaves every subscriber, with what its update channel
    holds, as it was; in both revisions of the beacon. *)
Theorem C4_failed_write_notifies_nobody {C D W : Type}
        `{!extpreimage.Client.t C} `{!htlcswitch.InvoiceDatabase.t D}
        `{!witnessCache.t W} (pre : bytes) (e : error) (w' : W) :
  (∀ p : witness_beacon_poll.preimageBeacon C D W,
     witnessCache.AddWitness channeldb.Sha256HashWitness pre
       (witness_beacon_poll.wCache p) = (Some e, w') →
     let p' := (witness_beacon_poll.AddPreimage pre p).2 in
     (witness_beacon_poll.AddPreimage pre p).1 = Some e
     ∧ witness_beacon_poll.goroutines p' = witness_beacon_poll.goroutines p
     ∧ witness_beacon_poll.subscribers p' = witness_beacon_poll.subscribers p)
  ∧ (∀ p : witness_beacon.preimageBeacon C D W,
       witnessCache.AddWitness channeldb.Sha256HashWitness pre
         (witness_beacon.wCache p) = (Some e, w') →
       let p' := (witness_beacon.AddPreimage pre p).2 in
       (witness_beacon.AddPreimage pre p).1 = Some e
       ∧ witness_beacon.goroutines p' = witness_beacon.goroutines p
       ∧ witness_beacon.subscribers p' = witness_beacon.subscribers p).
Proof.
  split; intros p Hadd.
  - by rewrite (AddPreimage_failure _ _ _ _ Hadd).
  - by rewrite (old_AddPreimage_failure _ _ _ _ Hadd).
Qed.

Lemma C4_failed_write_notifies_nobody_witness :
  let failure := Errorf "witness cache closed" in
  let p := example.beacon_of [] (Some failure) in
  let q := example.old_beacon_of [] (Some failure) in
  ((witness_beacon_poll.AddPreimage example.preimage1 p).1 = Some failure
   ∧ witness_beacon_poll.goroutines
       (witness_beacon_poll.AddPreimage example.preimage1 p).2 = []
   ∧ witness_beacon_poll.subscribers
       (witness_beacon_poll.AddPreimage example.preimage1 p).2
     = example.two_subscribers)
  ∧ ((witness_beacon.AddPreimage example.preimage1 q).1 = Some failure
     ∧ witness_beacon.goroutines
         (witness_beacon.AddPreimage example.preimage1 q).2 = []
     ∧ witness_beacon.subscribers
         (witness_beacon.AddPreimage example.preimage1 q).2
       = example.two_subscribers).
Proof.
  intros failure p q.
  destruct (C4_failed_write_notifies_nobody
              (C := extpreimage.client) (D := stub.invoiceStore)
              example.preimage1 failure
              (stub.mkWitnesses [] (Some failure))) as [Hnew Hold].
  split.
  - apply (Hnew p). reflexivity.
  - apply (Hold q). reflexivity.
Defined.

(** On success [AddPreimage] does start one goroutine per subscriber, in
    some order. *)
Example AddPreimage_notifies_on_success :
  let p := example.beacon_of [] None in
  (witness_beacon_poll.AddPreimage example.preimage1 p).1 = None
  ∧ witness_beacon_poll.goroutines
      (witness_beacon_poll.AddPreimage example.preimage1 p).2
    ≡ₚ [GoNotify 0 example.preimage1; GoNotify 1 example.preimage1].
Proof. split; vm_compute; [done | apply perm_swap]. Qed.

(** C9.  The key of the invoice lookup is 32 bytes long: the first 32 bytes
    of [payHash], followed by zeros when [payHash] is shorter.  Two
    arguments with the same first 32 bytes give the same key, and the bytes
    after the 32nd do not enter it.  [LookupPreimage], which is defined on
    every byte slice, looks up one invoice, under that key; in both
    revisions of the beacon. *)
Theorem C9_invoice_key_is_the_first_32_bytes {C D W : Type}
        `{!extpreimage.Client.t C} `{!htlcswitch.InvoiceDatabase.t D}
        `{!witnessCache.t W} :
  (∀ payHash : bytes,
     length (invoiceKey payHash) = 32%nat
     ∧ invoiceKey payHash
       = take 32 payHash ++ replicate (32 - length payHash) x00
     ∧ invoiceKey (take 32 payHash) = invoiceKey payHash)
  ∧ (∀ a b : bytes, take 32 a = take 32 b → invoiceKey a = invoiceKey b)
  ∧ (∀ (p : witness_beacon_poll.preimageBeacon C D W) (payHash : bytes),
       ∃ result p',
         witness_beacon_poll.LookupPreimage payHash p = (result, p')
         ∧ invoice_lookups (witness_beacon_poll.calls p')
           = invoice_lookups (witness_beacon_poll.calls p) ++ [invoiceKey payHash])
  ∧ (∀ (p : witness_beacon.preimageBeacon C D W) (payHash : bytes),
       ∃ result p',
         witness_beacon.LookupPreimage payHash p = (result, p')
         ∧ invoice_lookups (witness_beacon.calls p')
           = invoice_lookups (witness_beacon.calls p) ++ [invoiceKey payHash]).
Proof.
  split; [|split; [|split]].
  - intros payHash. split; [apply length_invoiceKey|].
    split; [apply invoiceKey_padded|].
    apply invoiceKey_prefix. by rewrite take_take.
  - apply invoiceKey_prefix.
  - intros p payHash.
    pose proof (LookupPreimage_invoice_lookups payHash p) as Hl.
    destruct (witness_beacon_poll.LookupPreimage payHash p) as [result p'].
    by exists result, p'.
  - intros p payHash.
    pose proof (old_LookupPreimage_invoice_lookups payHash p) as Hl.
    destruct (witness_beacon.LookupPreimage payHash p) as [result p'].
    by exists result, p'.
Qed.

Lemma C9_invoice_key_is_the_first_32_bytes_witness :
  invoiceKey (example.hash1 ++ [x01]) = invoiceKey (example.hash1 ++ [x02; x03]).
Proof.
  apply (proj1 (proj2 (C9_invoice_key_is_the_first_32_bytes
                         (C := extpreimage.client) (D := stub.invoiceStore)
                         (W := stub.witnessStore)))).
  vm_compute. reflexivity.
Defined.

Example invoiceKey_short : invoiceKey [x01; x02] = [x01; x02] ++ replicate 30 x00.
Proof. reflexivity. Qed.

Example LookupPreimage_long_payHash :
  let p := example.beacon_of [stub.Respond example.good] None in
  (witness_beacon_poll.LookupPreimage (example.hash1 ++ [x01; x02]) p).1
  = (example.preimage1, true)
  ∧ (witness_beacon_poll.LookupPreimage [] p).1 = ([], false).
Proof. vm_compute. done. Qed.

(** ** The background poll *)

Lemma uint64_succ_ne (c : Z) : uint64 (c + 1) ≠ c.
Proof.
  unfold uint64. intros Heq.
  pose proof (Z.mod_pos_bound (c + 1) (2 ^ 64) ltac:(lia)) as Hb.
  destruct (decide (c + 1 < 2 ^ 64)) as [Hlt|Hge].
  - rewrite Z.mod_small in Heq by lia. lia.
  - assert (c = 2 ^ 64 - 1) as -> by lia.
    vm_compute in Heq. discriminate Heq.
Qed.

Section pollExtpreimage_facts.
Context {C D W : Type} `{!extpreimage.Client.t C}
        `{!htlcswitch.InvoiceDatabase.t D} `{!witnessCache.t W}.
Import witness_beacon_poll.
Implicit Types (p : preimageBeacon C D W) (i : channeldb.ContractTerm.t).

(** One tick of the loop, by the outcome of the resolution. *)
Lemma pollLoop_tick sel i p preimage tempErr permErr i' p1 :
  call_GetPaymentPreimage i (uint32 0) (uint32 0) p
  = (preimage, tempErr, permErr, i', p1) →
  pollLoop (ticker_C :: sel) i p
  = match permErr, tempErr with
    | Some _, _ => (true, p1)
    | None, Some _ => pollLoop sel i p1
    | None, None => (true, (AddPreimage preimage p1).2)
    end.
Proof.
  intros Hres. simpl. run. rewrite Hres.
  pose proof (call_GetPaymentPreimage_result i (uint32 0) (uint32 0) p) as Hr.
  rewrite Hres in Hr. simpl in Hr. simplify_eq.
  destruct permErr, tempErr; try reflexivity.
  by destruct (AddPreimage preimage p1).
Qed.

(** While the loop runs the poll is in the registry; once it has returned
    the poll is out of it. *)
Lemma pollExtpreimage_registry sel i pollInterval p :
  ∃ registry,
    polls (pollExtpreimage sel i pollInterval p).2 = Some registry
    ∧ registry !! pollCounter p
      = if (pollExtpreimage sel i pollInterval p).1 then None else Some false.
Proof.
  unfold pollExtpreimage, set_polls. run. simpl.
  match goal with
  | |- context [pollLoop sel i ?q] =>
      destruct (pollLoop_same_registrations sel i q) as (Hpolls & _);
      destruct (pollLoop sel i q) as [returned p1]
  end.
  simpl in Hpolls. destruct returned; simpl; rewrite Hpolls; simpl.
  - eexists. split; [reflexivity|]. apply lookup_delete_eq.
  - eexists. split; [reflexivity|]. apply lookup_insert_eq.
Qed.

Lemma pollExtpreimage_counter sel i pollInterval p :
  pollCounter (pollExtpreimage sel i pollInterval p).2
  = uint64 (pollCounter p + 1).
Proof.
  unfold pollExtpreimage, set_polls. run. simpl.
  match goal with
  | |- context [pollLoop sel i ?q] =>
      destruct (pollLoop_same_registrations sel i q) as (_ & Hcounter & _);
      destruct (pollLoop sel i q) as [returned p1]
  end.
  simpl in Hcounter. by destruct returned.
Qed.

Lemma pollExtpreimage_other_polls sel i pollInterval p (id : Z) :
  id ≠ pollCounter p →
  default ∅ (polls (pollExtpreimage sel i pollInterval p).2) !! id
  = default ∅ (polls p) !! id.
Proof.
  intros Hid. unfold pollExtpreimage, set_polls. run. simpl.
  match goal with
  | |- context [pollLoop sel i ?q] =>
      destruct (pollLoop_same_registrations sel i q) as (Hpolls & _);
      destruct (pollLoop sel i q) as [returned p1]
  end.
  simpl in Hpolls. destruct returned; simpl; rewrite Hpolls; simpl.
  - by rewrite lookup_delete_ne, lookup_insert_ne.
  - by rewrite lookup_insert_ne.
Qed.

(** [pollExtpreimage] is its loop between the registration and the
    deferred removal. *)
Lemma pollExtpreimage_loop sel i pollInterval p :
  let pollID := pollCounter p in
  let entered :=
    mkBeacon (extpreimageClient p) (invoices p) (wCache p) (clientCounter p)
      (subscribers p) (uint64 (pollID + 1))
      (Some (<[pollID := false]> (default ∅ (polls p))))
      (goroutines p) (calls p) in
  let left q :=
    mkBeacon (extpreimageClient q) (invoices q) (wCache q) (clientCounter q)
      (subscribers q) (pollCounter q) (delete pollID <$> polls q)
      (goroutines q) (calls q) in
  pollExtpreimage sel i pollInterval p
  = ((pollLoop sel i entered).1,
     if (pollLoop sel i entered).1
     then left (pollLoop sel i entered).2
     else (pollLoop sel i entered).2).
Proof.
  simpl. unfold pollExtpreimage, set_polls. run. simpl.
  destruct (pollLoop sel i _) as [[] q]; reflexivity.
Qed.

Lemma pollExtpreimage_ids_below_counter sel i pollInterval p :
  ids_below_counter p → 0 ≤ pollCounter p → pollCounter p + 1 < 2 ^ 64 →
  default ∅ (polls p) !! pollCounter p = None
  ∧ ids_below_counter (pollExtpreimage sel i pollInterval p).2.
Proof.
  intros Hinv Hlo Hhi. split.
  - destruct (default ∅ (polls p) !! pollCounter p) eqn:Hin; [|done].
    pose proof (Hinv (pollCounter p) ltac:(by eexists)). lia.
  - intros id Hid. rewrite pollExtpreimage_counter.
    unfold uint64. rewrite Z.mod_small by lia.
    destruct (decide (id = pollCounter p)) as [->|Hne]; [lia|].
    rewrite pollExtpreimage_other_polls in Hid by done.
    pose proof (Hinv id Hid). lia.
Qed.

(** The other methods keep the registered ids below the counter: they
    leave the registry and the counter alone, and [Stop] empties the
    registry. *)
Lemma same_registrations_ids_below_counter p p' :
  same_registrations p p' → ids_below_counter p → ids_below_counter p'.
Proof.
  intros (Hpolls & Hcounter & _) Hinv id. rewrite Hpolls, Hcounter. apply Hinv.
Qed.

Lemma Stop_ids_below_counter p : ids_below_counter (Stop p).2.
Proof.
  intros id [b Hb]. unfold Stop, set_polls in Hb. revert Hb. run. simpl.
  by rewrite lookup_empty.
Qed.

End pollExtpreimage_facts.

(** C8.  [pollExtpreimage], for a positive poll interval.  On entry it puts
    its id, the poll counter at entry, into the poll registry and moves the
    counter on; it then waits in its loop.  It returns on the quit signal.
    On a tick it resolves the invoice with zero time lock and height: a
    permanent error returns at once; on a temporary error the poll goes on
    with the events to come, exactly as a poll entered in the state the
    resolution left; otherwise [AddPreimage] is called with the resolved
    preimage, which is the witness handed to the store, and the poll
    returns.  Every return removes the id from the registry, and nothing
    but the id: while the poll runs its id is registered, after any return
    it is not, and the entries of other polls are never touched.  The id
    is unique: when the registered ids are below the counter, as they are
    in a new beacon, and the counter has not reached its last value, the id
    is free at entry, and the registered ids are below the counter again
    whatever the poll does, so that the next poll's id is free as well. *)
Theorem C8_pollExtpreimage_lifecycle {C D W : Type}
        `{!extpreimage.Client.t C} `{!htlcswitch.InvoiceDatabase.t D}
        `{!witnessCache.t W}
        (p : witness_beacon_poll.preimageBeacon C D W)
        (i : channeldb.ContractTerm.t) (pollInterval : Z) :
  0 < pollInterval →
  let pollID := witness_beacon_poll.pollCounter p in
  let entered :=
    witness_beacon_poll.mkBeacon
      (witness_beacon_poll.extpreimageClient p) (witness_beacon_poll.invoices p)
      (witness_beacon_poll.wCache p) (witness_beacon_poll.clientCounter p)
      (witness_beacon_poll.subscribers p) (uint64 (pollID + 1))
      (Some (<[pollID := false]> (default ∅ (witness_beacon_poll.polls p))))
      (witness_beacon_poll.goroutines p) (witness_beacon_poll.calls p) in
  let left (q : witness_beacon_poll.preimageBeacon C D W) :=
    witness_beacon_poll.mkBeacon
      (witness_beacon_poll.extpreimageClient q) (witness_beacon_poll.invoices q)
      (witness_beacon_poll.wCache q) (witness_beacon_poll.clientCounter q)
      (witness_beacon_poll.subscribers q) (witness_beacon_poll.pollCounter q)
      (delete pollID <$> witness_beacon_poll.polls q)
      (witness_beacon_poll.goroutines q) (witness_beacon_poll.calls q) in
  let reentering (q : witness_beacon_poll.preimageBeacon C D W) :=
    witness_beacon_poll.mkBeacon
      (witness_beacon_poll.extpreimageClient q) (witness_beacon_poll.invoices q)
      (witness_beacon_poll.wCache q) (witness_beacon_poll.clientCounter q)
      (witness_beacon_poll.subscribers q) pollID (witness_beacon_poll.polls p)
      (witness_beacon_poll.goroutines q) (witness_beacon_poll.calls q) in
  witness_beacon_poll.pollExtpreimage [] i pollInterval p = (false, entered)
  ∧ (∀ sel,
       witness_beacon_poll.pollExtpreimage
         (witness_beacon_poll.quit_recv :: sel) i pollInterval p
       = (true, left entered))
  ∧ (∀ sel preimage tempErr permErr i' p1,
       witness_beacon_poll.call_GetPaymentPreimage i (uint32 0) (uint32 0) entered
       = (preimage, tempErr, permErr, i', p1) →
       let tick := witness_beacon_poll.pollExtpreimage
                     (witness_beacon_poll.ticker_C :: sel) i pollInterval p in
       (permErr ≠ None → tick = (true, left p1))
       ∧ (tempErr ≠ None →
          tick = witness_beacon_poll.pollExtpreimage sel i pollInterval
                   (reentering p1))
       ∧ (tempErr = None → permErr = None →
          tick = (true, left (witness_beacon_poll.AddPreimage preimage p1).2)
          ∧ witnesses_added
              (witness_beacon_poll.calls
                 (witness_beacon_poll.AddPreimage preimage p1).2)
            = witnesses_added (witness_beacon_poll.calls p1) ++ [preimage]))
  ∧ (∀ sel,
       let outcome := witness_beacon_poll.pollExtpreimage sel i pollInterval p in
       witness_beacon_poll.pollCounter outcome.2 = uint64 (pollID + 1)
       ∧ witness_beacon_poll.pollCounter outcome.2 ≠ pollID
       ∧ (∃ registry,
            witness_beacon_poll.polls outcome.2 = Some registry
            ∧ registry !! pollID = if outcome.1 then None else Some false)
       ∧ (∀ id : Z, id ≠ pollID →
            default ∅ (witness_beacon_poll.polls outcome.2) !! id
            = default ∅ (witness_beacon_poll.polls p) !! id))
  ∧ (witness_beacon_poll.ids_below_counter p →
     0 ≤ pollID → pollID + 1 < 2 ^ 64 →
     default ∅ (witness_beacon_poll.polls p) !! pollID = None
     ∧ ∀ sel,
         witness_beacon_poll.ids_below_counter
           (witness_beacon_poll.pollExtpreimage sel i pollInterval p).2).
Proof.
  intros _ pollID entered left reentering.
  split; [reflexivity|]. split; [reflexivity|]. split; [|split].
  - intros sel preimage tempErr permErr i' p1 Hres tick. subst tick.
    rewrite (pollExtpreimage_loop (witness_beacon_poll.ticker_C :: sel)).
    fold pollID. fold entered.
    rewrite (pollLoop_tick sel _ _ _ _ _ _ _ Hres).
    pose proof (call_GetPaymentPreimage_result i (uint32 0) (uint32 0) entered)
      as Hr.
    pose proof (call_GetPaymentPreimage_same_registrations
                  i (uint32 0) (uint32 0) entered) as (Hpolls & Hcounter & _).
    rewrite Hres in Hr, Hpolls, Hcounter. simpl in Hr, Hpolls, Hcounter.
    pose proof (ContractTerm_one_channel
                  (extpreimage.mkWorld i
                     (witness_beacon_poll.extpreimageClient p)
                     (witness_beacon_poll.invoices p) [])
                  (uint32 0) (uint32 0)) as [Hone _].
    injection Hr as Hr Hi. rewrite <- Hr in Hone.
    unfold tempErr_of, permErr_of in Hone. simpl in Hone.
    split; [|split].
    + intros Hp. by destruct permErr.
    + intros Ht. destruct tempErr; [|done].
      destruct permErr; [exfalso; apply Hone; by split|].
      rewrite (pollExtpreimage_loop sel i pollInterval (reentering p1)).
      assert (p1 = witness_beacon_poll.mkBeacon
                (witness_beacon_poll.extpreimageClient p1)
                (witness_beacon_poll.invoices p1)
                (witness_beacon_poll.wCache p1)
                (witness_beacon_poll.clientCounter p1)
                (witness_beacon_poll.subscribers p1) (uint64 (pollID + 1))
                (Some (<[pollID := false]>
                         (default ∅ (witness_beacon_poll.polls p))))
                (witness_beacon_poll.goroutines p1)
                (witness_beacon_poll.calls p1)) as Hp1.
      { destruct p1. simpl in *. by rewrite Hpolls, Hcounter. }
      subst i'. simpl. rewrite <- Hp1. reflexivity.
    + intros -> ->. split; [done|].
      destruct (witnessCache.AddWitness channeldb.Sha256HashWitness preimage
                  (witness_beacon_poll.wCache p1)) as [[e|] w'] eqn:Hadd.
      * rewrite (AddPreimage_failure _ _ _ _ Hadd). simpl.
        unfold witnesses_added. by rewrite omap_app.
      * destruct (AddPreimage_success _ _ _ Hadd) as (_ & _ & _ & Hcalls & _).
        rewrite Hcalls. unfold witnesses_added. by rewrite omap_app.
  - intros sel outcome. subst outcome.
    split; [apply pollExtpreimage_counter|].
    split; [rewrite pollExtpreimage_counter; apply uint64_succ_ne|].
    split; [apply pollExtpreimage_registry|].
    intros id Hid. by apply pollExtpreimage_other_polls.
  - intros Hinv Hlo Hhi.
    split; [by apply (pollExtpreimage_ids_below_counter [] i pollInterval)|].
    intros sel. by apply pollExtpreimage_ids_below_counter.
Qed.

Lemma C8_pollExtpreimage_lifecycle_witness :
  (∃ p1,
     witness_beacon_poll.pollExtpreimage
       [witness_beacon_poll.ticker_C; witness_beacon_poll.ticker_C]
       example.external_term (10 * Second)
       (example.beacon_of [stub.Fail (Errorf "connection refused");
                           stub.Respond example.good] None)
     = witness_beacon_poll.pollExtpreimage [witness_beacon_poll.ticker_C]
         example.external_term (10 * Second) p1
     ∧ witnesses_added (witness_beacon_poll.calls p1) = [])
  ∧ (∃ q,
       witness_beacon_poll.pollExtpreimage
         [witness_beacon_poll.ticker_C; witness_beacon_poll.ticker_C]
         example.external_term (10 * Second)
         (example.beacon_of [stub.Respond example.boom;
                             stub.Respond example.good] None)
       = (true, q)
       ∧ witnesses_added (witness_beacon_poll.calls q) = []
       ∧ witness_beacon_poll.polls q = Some ∅)
  ∧ (∃ q,
       witness_beacon_poll.pollExtpreimage
         [witness_beacon_poll.ticker_C; witness_beacon_poll.ticker_C]
         example.external_term (10 * Second)
         (example.beacon_of [stub.Respond example.good;
                             stub.Respond example.good] None)
       = (true, q)
       ∧ witnesses_added (witness_beacon_poll.calls q) = [example.preimage1]
       ∧ witness_beacon_poll.polls q = Some ∅)
  ∧ witness_beacon_poll.ids_below_counter
      (witness_beacon_poll.pollExtpreimage
         [witness_beacon_poll.ticker_C] example.external_term (10 * Second)
         (example.beacon_of [stub.Fail (Errorf "connection refused")] None)).2.
Proof.
  assert (0 < 10 * Second) as Hpos by (vm_compute; reflexivity).
  pose (resolve script :=
          witness_beacon_poll.call_GetPaymentPreimage example.external_term
            (uint32 0) (uint32 0)
            (witness_beacon_poll.pollExtpreimage [] example.external_term
               (10 * Second) (example.beacon_of script None)).2).
  pose (tick script :=
          proj1 (proj2 (proj2 (C8_pollExtpreimage_lifecycle
                                 (example.beacon_of script None)
                                 example.external_term (10 * Second) Hpos)))
            [witness_beacon_poll.ticker_C]
            (resolve script).1.1.1.1 (resolve script).1.1.1.2
            (resolve script).1.1.2 (resolve script).1.2 (resolve script).2).
  split; [|split; [|split]].
  - destruct (tick [stub.Fail (Errorf "connection refused");
                    stub.Respond example.good]) as (_ & Htemp & _).
    + vm_compute. reflexivity.
    + eexists. split.
      * apply Htemp. vm_compute. discriminate.
      * vm_compute. reflexivity.
  - destruct (tick [stub.Respond example.boom; stub.Respond example.good])
      as (Hperm & _ & _).
    + vm_compute. reflexivity.
    + eexists. split; [|split].
      * apply Hperm. vm_compute. discriminate.
      * vm_compute. reflexivity.
      * vm_compute. reflexivity.
  - destruct (tick [stub.Respond example.good; stub.Respond example.good])
      as (_ & _ & Hok).
    + vm_compute. reflexivity.
    + destruct Hok as [Hloop Hadded];
        [vm_compute; reflexivity | vm_compute; reflexivity |].
      eexists. split; [|split].
      * exact Hloop.
      * vm_compute. reflexivity.
      * vm_compute. reflexivity.
  - apply (proj2 (proj2 (proj2 (proj2
             (C8_pollExtpreimage_lifecycle
                (example.beacon_of [stub.Fail (Errorf "connection refused")] None)
                example.external_term (10 * Second) Hpos))))).
    + intros id [b Hb]. simpl in Hb. by rewrite lookup_empty in Hb.
    + vm_compute. discriminate.
    + vm_compute. reflexivity.
Defined.

(** A service that fails on the first tick and answers with the right
    preimage on the second: after the first tick the poll is registered and
    the witness store is as it was; after the second the poll has returned
    and is deregistered, the store holds the preimage, and one goroutine per
    subscriber has been started. *)
Example poll_temporary_error_then_preimage :
  let p := example.beacon_of [stub.Fail (Errorf "connection refused");
                              stub.Respond example.good] None in
  let tick := witness_beacon_poll.ticker_C in
  let after1 := witness_beacon_poll.pollExtpreimage [tick] example.external_term Second p in
  let after2 := witness_beacon_poll.pollExtpreimage [tick; tick] example.external_term Second p in
  (after1.1 = false
   ∧ witness_beacon_poll.polls after1.2 = Some {[ 0 := false ]}
   ∧ stub.witnesses (witness_beacon_poll.wCache after1.2) = []
   ∧ witness_beacon_poll.goroutines after1.2 = [])
  ∧ (after2.1 = true
     ∧ witness_beacon_poll.polls after2.2 = Some ∅
     ∧ stub.witnesses (witness_beacon_poll.wCache after2.2) = [example.preimage1]
     ∧ witness_beacon_poll.goroutines after2.2
       ≡ₚ [GoNotify 0 example.preimage1; GoNotify 1 example.preimage1]).
Proof.
  vm_compute. repeat split; apply perm_swap.
Qed.

(** A permanent error ends the poll without a write to the witness store;
    so does the quit signal. *)
Example poll_permanent_error_and_quit :
  let p := example.beacon_of [stub.Respond example.boom;
                              stub.Respond example.good] None in
  let tick := witness_beacon_poll.ticker_C in
  let stopped := witness_beacon_poll.pollExtpreimage [tick; tick] example.external_term Second p in
  let quit := witness_beacon_poll.pollExtpreimage
                [witness_beacon_poll.quit_recv; tick] example.external_term Second p in
  (stopped.1 = true
   ∧ witness_beacon_poll.polls stopped.2 = Some ∅
   ∧ witness_beacon_poll.calls stopped.2
     = [CallResolution
          (extpreimage.CallRetrieve
             (extpreimage.PreimageRequest.mk example.hash1 1000 0 0))])
  ∧ (quit.1 = true
     ∧ witness_beacon_poll.polls quit.2 = Some ∅
     ∧ witness_beacon_poll.calls quit.2 = []).
Proof.
  vm_compute. repeat split.
Qed.

(** ** More on the external preimage client *)

Section client_facts.
Context {N : Type} `{!extpreimage.RPC N}.
Implicit Types (c : extpreimage.client) (req : extpreimage.PreimageRequest.t)
         (wire : extpreimage.GetPreimageRequest.t).

Lemma in_rpc_frame {A} (m : State N A) c :
  extpreimage.host (extpreimage.in_rpc m c).2 = extpreimage.host c
  ∧ extpreimage.chain (extpreimage.in_rpc m c).2 = extpreimage.chain c
  ∧ extpreimage.conn (extpreimage.in_rpc m c).2 = extpreimage.conn c.
Proof. unfold extpreimage.in_rpc. by destruct (m (extpreimage.rpc c)). Qed.

(** [connect] by cases: a connection is reused as it is; a successful dial
    is remembered; a failed dial leaves the client without a connection. *)
Lemma connect_cases c :
  (∃ cn, extpreimage.conn c = Some cn ∧ extpreimage.connect c = (inl cn, c))
  ∨ (extpreimage.conn c = None
     ∧ ∃ n,
         (∃ cn, extpreimage.Dial (extpreimage.host c) (extpreimage.rpc c) = (inl cn, n)
                ∧ extpreimage.connect c
                  = (inl cn,
                     extpreimage.mkClient (extpreimage.host c) (extpreimage.chain c)
                                          n (Some cn)))
         ∨ (∃ cause, extpreimage.Dial (extpreimage.host c) (extpreimage.rpc c)
                     = (inr cause, n)
                     ∧ extpreimage.connect c
                       = (inr (Errorf ("extpreimage: Failed to start gRPC connection: "
                                       +:+ Error cause)),
                          extpreimage.mkClient (extpreimage.host c)
                                               (extpreimage.chain c) n None))).
Proof.
  unfold extpreimage.connect, extpreimage.in_rpc, extpreimage.set_conn. run.
  simpl. destruct (extpreimage.conn c) as [cn|] eqn:Hconn.
  - left. by exists cn.
  - right. split; [done|].
    destruct (extpreimage.Dial (extpreimage.host c) (extpreimage.rpc c))
      as [[cn|cause] n] eqn:Hdial; simpl.
    + exists n. left. by exists cn.
    + exists n. right. exists cause. rewrite Hconn. split; reflexivity.
Qed.

Lemma connect_frame c :
  extpreimage.host (extpreimage.connect c).2 = extpreimage.host c
  ∧ extpreimage.chain (extpreimage.connect c).2 = extpreimage.chain c
  ∧ (∀ cn, extpreimage.conn c = Some cn →
           extpreimage.conn (extpreimage.connect c).2 = Some cn)
  ∧ (∀ cn, (extpreimage.connect c).1 = inl cn →
           extpreimage.conn (extpreimage.connect c).2 = Some cn).
Proof.
  destruct (connect_cases c)
    as [(cn & Hc & ->) | (Hc & n & [(cn & _ & ->) | (cause & _ & ->)])];
    simpl; repeat split; try done; intros ? ?; simplify_eq; congruence.
Qed.

Lemma retrieve_frame wire c :
  extpreimage.host (extpreimage.retrieve wire c).2 = extpreimage.host c
  ∧ extpreimage.chain (extpreimage.retrieve wire c).2 = extpreimage.chain c
  ∧ (∀ cn, extpreimage.conn c = Some cn →
           extpreimage.conn (extpreimage.retrieve wire c).2 = Some cn)
  ∧ (∀ res, (extpreimage.retrieve wire c).1 = inl res →
            extpreimage.conn (extpreimage.retrieve wire c).2 ≠ None).
Proof.
  destruct (connect_frame c) as (Hh & Hc & Hkeep & Hset).
  unfold extpreimage.retrieve. run.
  destruct (extpreimage.connect c) as [[cl|err] c1]; simpl in *;
    [|by repeat split].
  specialize (Hset cl eq_refl).
  pose proof (in_rpc_frame (extpreimage.GetPreimage cl wire) c1) as (Hh2 & Hc2 & Hn2).
  destruct (extpreimage.in_rpc (extpreimage.GetPreimage cl wire) c1)
    as [[stream|err] c2]; simpl in *.
  2:{ split; [congruence|]. split; [congruence|]. split; [|done].
      intros cn Hcn. rewrite Hn2. by apply Hkeep. }
  pose proof (in_rpc_frame (extpreimage.Recv stream) c2) as (Hh3 & Hc3 & Hn3).
  destruct (extpreimage.in_rpc (extpreimage.Recv stream) c2)
    as [r c3] eqn:E; simpl in *.
  assert (extpreimage.host c3 = extpreimage.host c
          ∧ extpreimage.chain c3 = extpreimage.chain c
          ∧ (∀ cn, extpreimage.conn c = Some cn → extpreimage.conn c3 = Some cn)
          ∧ extpreimage.conn c3 ≠ None) as (? & ? & ? & ?).
  { split; [congruence|]. split; [congruence|]. split.
    - intros cn Hcn. rewrite Hn3, Hn2. by apply Hkeep.
    - rewrite Hn3, Hn2, Hset. done. }
  destruct r as [res|err]; simpl.
  - by repeat split.
  - destruct (decide (err = EOF)); simpl; by repeat split.
Qed.

Lemma Retrieve_frame req c :
  extpreimage.host (extpreimage.Retrieve req c).2 = extpreimage.host c
  ∧ extpreimage.chain (extpreimage.Retrieve req c).2 = extpreimage.chain c
  ∧ (∀ cn, extpreimage.conn c = Some cn →
           extpreimage.conn (extpreimage.Retrieve req c).2 = Some cn).
Proof.
  destruct ((extpreimage.symbol c).2) as [err|] eqn:Hs.
  { by rewrite (Retrieve_no_symbol _ _ _ Hs). }
  destruct (retrieve_frame (wire_request c req) c) as (Hh & Hc & Hkeep & _).
  destruct (extpreimage.retrieve (wire_request c req) c) as [[res|err] c'] eqn:Hr.
  - by rewrite (Retrieve_response _ _ _ _ Hs Hr).
  - by rewrite (Retrieve_transport _ _ _ _ Hs Hr).
Qed.

Lemma symbol_supported c :
  (extpreimage.symbol c).2 = None
  ↔ extpreimage.chain c = "bitcoin" ∨ extpreimage.chain c = "litecoin".
Proof.
  unfold extpreimage.symbol.
  destruct (String.eqb_spec (extpreimage.chain c) "bitcoin") as [Hb|Hb];
    [simpl; split; auto|].
  destruct (String.eqb_spec (extpreimage.chain c) "litecoin") as [Hl|Hl];
    simpl; (split; [auto; discriminate | intros [?|?]; congruence]).
Qed.

Lemma after_requests_frame (reqs : list extpreimage.PreimageRequest.t) c :
  extpreimage.host (after_requests reqs c) = extpreimage.host c
  ∧ extpreimage.chain (after_requests reqs c) = extpreimage.chain c
  ∧ (∀ cn, extpreimage.conn c = Some cn →
           extpreimage.conn (after_requests reqs c) = Some cn).
Proof.
  revert c. induction reqs as [|req reqs IH]; intros c; simpl; [done|].
  destruct (Retrieve_frame req c) as (Hh & Hc & Hkeep).
  destruct (IH (extpreimage.Retrieve req c).2) as (Hh' & Hc' & Hkeep').
  split; [congruence|]. split; [congruence|].
  intros cn Hcn. apply Hkeep'. by apply Hkeep.
Qed.

End client_facts.

(** X1.  [New] accepts the chain names "bitcoin" and "litecoin" and no
    other.  The client it returns has the given host, chain and RPC
    implementation and no connection yet, and [symbol] maps it to BTC for
    bitcoin and to LTC for litecoin, without error; for any other name [New]
    returns the error that names it. *)
Theorem X1_New_accepts_supported_chains {N : Type} `{!extpreimage.RPC N}
        (RPCImpl : N) (RPCHost ChainName : string) :
  (ChainName = "bitcoin" ∨ ChainName = "litecoin" →
   extpreimage.New RPCImpl RPCHost ChainName
   = inl (extpreimage.mkClient RPCHost ChainName RPCImpl None)
   ∧ extpreimage.symbol (extpreimage.mkClient RPCHost ChainName RPCImpl None)
     = (if decide (ChainName = "bitcoin")
        then extpreimage.Symbol_BTC else extpreimage.Symbol_LTC, None))
  ∧ (ChainName ≠ "bitcoin" → ChainName ≠ "litecoin" →
     extpreimage.New RPCImpl RPCHost ChainName
     = inr (Errorf ("extpreimage: Invalid chain name: " +:+ ChainName))).
Proof.
  unfold extpreimage.New, extpreimage.symbol. simpl. split.
  - intros [-> | ->]; split; reflexivity.
  - intros Hb Hl.
    destruct (String.eqb_spec ChainName "bitcoin"); [done|].
    destruct (String.eqb_spec ChainName "litecoin"); [done|]. reflexivity.
Qed.

Lemma X1_New_accepts_supported_chains_witness :
  (extpreimage.New ([] : list stub.Reply) "preimages.example:8080" "litecoin"
   = inl (extpreimage.mkClient "preimages.example:8080" "litecoin" [] None)
   ∧ extpreimage.symbol
       (extpreimage.mkClient "preimages.example:8080" "litecoin"
                             ([] : list stub.Reply) None)
     = (extpreimage.Symbol_LTC, None))
  ∧ extpreimage.New ([] : list stub.Reply) "preimages.example:8080" "dogecoin"
    = inr (Errorf "extpreimage: Invalid chain name: dogecoin").
Proof.
  split.
  - apply (proj1 (X1_New_accepts_supported_chains
                    ([] : list stub.Reply) "preimages.example:8080" "litecoin")).
    by right.
  - apply (proj2 (X1_New_accepts_supported_chains
                    ([] : list stub.Reply) "preimages.example:8080" "dogecoin"));
      discriminate.
Defined.

(** X2.  On a client whose chain name is neither "bitcoin" nor "litecoin",
    [Retrieve] returns the zero preimage, the temporary error that names the
    chain and no permanent error, and leaves the client as it was: nothing
    is dialled and nothing is sent. *)
Theorem X2_Retrieve_on_unsupported_chain {N : Type} `{!extpreimage.RPC N}
        (c : extpreimage.client) (req : extpreimage.PreimageRequest.t) :
  extpreimage.chain c ≠ "bitcoin" →
  extpreimage.chain c ≠ "litecoin" →
  extpreimage.Retrieve req c
  = (zero32,
     Some (Errorf ("extpreimage: Invalid chain name: " +:+ extpreimage.chain c)),
     None, c).
Proof.
  intros Hb Hl. apply Retrieve_no_symbol. unfold extpreimage.symbol.
  destruct (String.eqb_spec (extpreimage.chain c) "bitcoin"); [done|].
  by destruct (String.eqb_spec (extpreimage.chain c) "litecoin").
Qed.

Lemma X2_Retrieve_on_unsupported_chain_witness :
  let c := extpreimage.mkClient "preimages.example:8080" "dogecoin"
                                [stub.Respond example.good] None in
  extpreimage.Retrieve example.request1 c
  = (zero32, Some (Errorf "extpreimage: Invalid chain name: dogecoin"), None, c).
Proof.
  apply (X2_Retrieve_on_unsupported_chain
           (extpreimage.mkClient "preimages.example:8080" "dogecoin"
                                 [stub.Respond example.good] None)
           example.request1); discriminate.
Defined.

(** X3.  [connect] dials at most once.  When it succeeds the client holds
    the connection, host and chain are as before, and a second [connect]
    returns the same connection and changes nothing (no dial).  When it
    fails the client had no connection and still has none, and the error is
    the dial error behind a fixed prefix. *)
Theorem X3_connect_keeps_the_connection {N : Type} `{!extpreimage.RPC N}
        (c c' : extpreimage.client) :
  (∀ cn, extpreimage.connect c = (inl cn, c') →
         extpreimage.conn c' = Some cn
         ∧ extpreimage.host c' = extpreimage.host c
         ∧ extpreimage.chain c' = extpreimage.chain c
         ∧ extpreimage.connect c' = (inl cn, c'))
  ∧ (∀ err, extpreimage.connect c = (inr err, c') →
            extpreimage.conn c = None
            ∧ extpreimage.conn c' = None
            ∧ ∃ cause,
                err = Errorf ("extpreimage: Failed to start gRPC connection: "
                              +:+ Error cause)).
Proof.
  split.
  - intros cn Hconnect.
    destruct (connect_cases c)
      as [(cn' & Hc & Heq) | (Hc & n & [(cn' & _ & Heq) | (cause & _ & Heq)])];
      rewrite Heq in Hconnect; simplify_eq; simpl.
    + by repeat split.
    + by repeat split.
  - intros err Hconnect.
    destruct (connect_cases c)
      as [(cn' & Hc & Heq) | (Hc & n & [(cn' & _ & Heq) | (cause & _ & Heq)])];
      rewrite Heq in Hconnect; simplify_eq; simpl.
    split; [done|]. split; [done|]. by exists cause.
Qed.

Lemma X3_connect_keeps_the_connection_witness :
  let c := example.client_of [] in
  let c' := (extpreimage.connect c).2 in
  extpreimage.conn c' = Some "preimages.example:8080"
  ∧ extpreimage.host c' = "preimages.example:8080"
  ∧ extpreimage.chain c' = "bitcoin"
  ∧ extpreimage.connect c' = (inl "preimages.example:8080", c').
Proof.
  intros c c'.
  apply (proj1 (X3_connect_keeps_the_connection c c')). reflexivity.
Defined.

(** X4.  [Retrieve] never changes the client's host or chain, and never
    drops or replaces a connection the client holds.  So a client made by
    [New] still maps to a currency symbol after any number of requests: none
    of them can fail for the chain name. *)
Theorem X4_Retrieve_keeps_the_configuration {N : Type} `{!extpreimage.RPC N} :
  (∀ (c : extpreimage.client) (req : extpreimage.PreimageRequest.t),
     let c' := (extpreimage.Retrieve req c).2 in
     extpreimage.host c' = extpreimage.host c
     ∧ extpreimage.chain c' = extpreimage.chain c
     ∧ (∀ cn, extpreimage.conn c = Some cn → extpreimage.conn c' = Some cn))
  ∧ (∀ (RPCImpl : N) (RPCHost ChainName : string) (c : extpreimage.client)
       (reqs : list extpreimage.PreimageRequest.t),
       extpreimage.New RPCImpl RPCHost ChainName = inl c →
       extpreimage.host (after_requests reqs c) = RPCHost
       ∧ extpreimage.chain (after_requests reqs c) = ChainName
       ∧ (extpreimage.symbol (after_requests reqs c)).2 = None).
Proof.
  split.
  - intros c req. apply Retrieve_frame.
  - intros RPCImpl RPCHost ChainName c reqs Hnew.
    destruct (after_requests_frame reqs c) as (Hh & Hc & _).
    unfold extpreimage.New in Hnew.
    destruct (String.eqb_spec ChainName "bitcoin") as [Hb|Hb];
      destruct (String.eqb_spec ChainName "litecoin") as [Hl|Hl];
      simpl in Hnew; simplify_eq; simpl in *;
      (split; [done|]; split; [done|]; apply symbol_supported; rewrite Hc; auto).
Qed.

Lemma X4_Retrieve_keeps_the_configuration_witness :
  let c := example.client_of [stub.Fail EOF; stub.Respond example.boom] in
  let c' := after_requests [example.request1; example.request1] c in
  extpreimage.host c' = "preimages.example:8080"
  ∧ extpreimage.chain c' = "bitcoin"
  ∧ (extpreimage.symbol c').2 = None.
Proof.
  apply (proj2 X4_Retrieve_keeps_the_configuration
               [stub.Fail EOF; stub.Respond example.boom]
               "preimages.example:8080" "bitcoin").
  reflexivity.
Defined.

(** X5.  [Retrieve] succeeds only on what the service sent: when it returns
    a preimage with both errors [nil], the service answered this request
    with exactly that preimage and an empty permanent error, and the client
    holds a connection afterwards. *)
Theorem X5_Retrieve_returns_the_response {N : Type} `{!extpreimage.RPC N}
        (c c' : extpreimage.client) (req : extpreimage.PreimageRequest.t)
        (preimage : bytes) :
  extpreimage.Retrieve req c = (preimage, None, None, c') →
  answers c req (extpreimage.GetPreimageResponse.mk preimage "")
  ∧ extpreimage.conn c' ≠ None.
Proof.
  intros HR.
  destruct ((extpreimage.symbol c).2) as [err|] eqn:Hs.
  { rewrite (Retrieve_no_symbol _ _ _ Hs) in HR. discriminate. }
  pose proof (retrieve_frame (wire_request c req) c) as (_ & _ & _ & Hconn).
  destruct (extpreimage.retrieve (wire_request c req) c) as [[res|err] c1] eqn:Hr.
  - rewrite (Retrieve_response _ _ _ _ Hs Hr) in HR. simplify_eq.
    match goal with Hv : verdict _ _ = _ |- _ =>
      apply verdict_accepts in Hv as (Hperm & Hpre & _) end.
    destruct res as [pre perm]. simpl in *. subst. split.
    + split; [done | by rewrite Hr].
    + by eapply Hconn.
  - rewrite (Retrieve_transport _ _ _ _ Hs Hr) in HR. discriminate.
Qed.

Lemma X5_Retrieve_returns_the_response_witness :
  answers (example.client_of [stub.Respond example.good]) example.request1
          example.good
  ∧ extpreimage.conn
      (extpreimage.Retrieve example.request1
         (example.client_of [stub.Respond example.good])).2 ≠ None.
Proof.
  apply (X5_Retrieve_returns_the_response
           (example.client_of [stub.Respond example.good])
           (extpreimage.Retrieve example.request1
              (example.client_of [stub.Respond example.good])).2
           example.request1 example.preimage1).
  vm_compute. reflexivity.
Defined.

(** X6.  [Retrieve] returns a permanent error only when the service declared
    one: a non-nil permanent error means that the service answered the
    request with a non-empty permanent error, which the returned error
    carries behind its fixed prefix.  No failure of the chain name, of the
    connection or of the stream, and no bad preimage, is ever permanent. *)
Theorem X6_permanent_errors_come_from_the_service {N : Type}
        `{!extpreimage.RPC N}
        (c : extpreimage.client) (req : extpreimage.PreimageRequest.t)
        (err : error) :
  permErr_of (extpreimage.Retrieve req c).1 = Some err →
  ∃ res,
    answers c req res
    ∧ extpreimage.GetPreimageResponse.PermanentError res ≠ ""
    ∧ err = Errorf ("extpreimage: Encountered permanent error from external service: "
                    +:+ extpreimage.GetPreimageResponse.PermanentError res).
Proof.
  intros Hperm.
  destruct (Retrieve_cases c req) as [[e He] | (res & Ha & Hv)];
    rewrite ?He, ?Hv in Hperm; [discriminate|].
  exists res. split; [done|].
  unfold verdict, permErr_of in Hperm.
  repeat case_decide; simpl in Hperm; simplify_eq. by split.
Qed.

Lemma X6_permanent_errors_come_from_the_service_witness :
  ∃ res,
    answers (example.client_of [stub.Respond example.boom]) example.request1 res
    ∧ extpreimage.GetPreimageResponse.PermanentError res ≠ ""
    ∧ Errorf "extpreimage: Encountered permanent error from external service: boom"
      = Errorf ("extpreimage: Encountered permanent error from external service: "
                +:+ extpreimage.GetPreimageResponse.PermanentError res).
Proof.
  apply (X6_permanent_errors_come_from_the_service
           (example.client_of [stub.Respond example.boom]) example.request1).
  vm_compute. reflexivity.
Defined.

(** X7.  Once the stream is open, an error of the one receive is a temporary
    error of [Retrieve]: the end of the stream ([io.EOF]) is reported as
    "server closed stream early", any other error is passed on as it is;
    the preimage is zero and the permanent error [nil]. *)
Theorem X7_receive_errors_are_temporary {N : Type} `{!extpreimage.RPC N}
        (c c1 c2 c3 : extpreimage.client) (req : extpreimage.PreimageRequest.t)
        (cn : extpreimage.ClientConn) (stream : extpreimage.ClientStream)
        (err : error) :
  (extpreimage.symbol c).2 = None →
  extpreimage.connect c = (inl cn, c1) →
  extpreimage.in_rpc (extpreimage.GetPreimage cn (wire_request c req)) c1
  = (inl stream, c2) →
  extpreimage.in_rpc (extpreimage.Recv stream) c2 = (inr err, c3) →
  extpreimage.Retrieve req c
  = (zero32,
     Some (if decide (err = EOF)
           then Errorf "extpreimage: server closed stream early"
           else err),
     None, c3).
Proof.
  intros Hs Hconnect Hopen Hrecv.
  apply Retrieve_transport; [done|].
  unfold extpreimage.retrieve. run.
  rewrite Hconnect, Hopen, Hrecv. by destruct (decide (err = EOF)).
Qed.

Lemma X7_receive_errors_are_temporary_witness :
  extpreimage.Retrieve example.request1 (example.client_of [])
  = (zero32, Some (Errorf "extpreimage: server closed stream early"), None,
     extpreimage.mkClient "preimages.example:8080" "bitcoin" []
                          (Some "preimages.example:8080"))
  ∧ extpreimage.Retrieve example.request1
      (example.client_of [stub.Fail (Errorf "connection reset")])
    = (zero32, Some (Errorf "connection reset"), None,
       extpreimage.mkClient "preimages.example:8080" "bitcoin" []
                            (Some "preimages.example:8080")).
Proof.
  pose (connected script :=
          extpreimage.mkClient "preimages.example:8080" "bitcoin"
                               (script : list stub.Reply)
                               (Some "preimages.example:8080")).
  split.
  - exact (X7_receive_errors_are_temporary
             (example.client_of []) (connected []) (connected []) (connected [])
             example.request1 "preimages.example:8080" tt EOF
             eq_refl eq_refl eq_refl eq_refl).
  - exact (X7_receive_errors_are_temporary
             (example.client_of [stub.Fail (Errorf "connection reset")])
             (connected [stub.Fail (Errorf "connection reset")])
             (connected [stub.Fail (Errorf "connection reset")])
             (connected [])
             example.request1 "preimages.example:8080" tt
             (Errorf "connection reset")
             eq_refl eq_refl eq_refl eq_refl).
Defined.

(** ** More on the resolution of one invoice *)

Lemma Retrieve_success_matches {N : Type} `{!extpreimage.RPC N}
      (c c' : extpreimage.client) (req : extpreimage.PreimageRequest.t)
      (preimage : bytes) :
  extpreimage.Retrieve req c = (preimage, None, None, c') →
  matches_hash req preimage.
Proof.
  intros HR.
  destruct (Retrieve_cases c req) as [[err He] | (res & _ & Hv)];
    rewrite HR in *; simpl in *; [discriminate|].
  symmetry in Hv. by apply verdict_accepts in Hv as (_ & _ & ?).
Qed.

(** X8.  For an invoice that is not external, [GetPaymentHash] and
    [GetPaymentPreimage] agree: either both succeed, and the SHA-256 of the
    preimage returned is the hash returned; or both fail, the hash returned
    is zero and the failure of the resolution is permanent.  Either way the
    resolution calls nobody and changes nothing.  In both packages. *)
Theorem X8_hash_and_preimage_agree_locally {C R : Type}
        `{!extpreimage.Client.t C} `{!extpreimage.InvoiceRegistry.t R}
        (timeLock currentHeight : Z) :
  (∀ w : extpreimage.World extpreimage.Invoice.t C R,
     extpreimage.Invoice.ExternalPreimage (extpreimage.self w) = false →
     let hashed := extpreimage.GetPaymentHash (extpreimage.self w) in
     let resolved := extpreimage.GetPaymentPreimage timeLock currentHeight w in
     resolved.2 = w
     ∧ tempErr_of resolved.1 = None
     ∧ (hashed.2 = None ↔ permErr_of resolved.1 = None)
     ∧ (hashed.2 = None → sha256.Sum256 (preimage_of resolved.1) = hashed.1)
     ∧ (hashed.2 ≠ None → hashed.1 = zero32 ∧ preimage_of resolved.1 = zero32))
  ∧ (∀ w : extpreimage.World channeldb.ContractTerm.t C R,
       channeldb.ContractTerm.ExternalPreimage (extpreimage.self w) = false →
       let hashed := channeldb.GetPaymentHash (extpreimage.self w) in
       let resolved := channeldb.GetPaymentPreimage timeLock currentHeight w in
       resolved.2 = w
       ∧ tempErr_of resolved.1 = None
       ∧ (hashed.2 = None ↔ permErr_of resolved.1 = None)
       ∧ (hashed.2 = None → sha256.Sum256 (preimage_of resolved.1) = hashed.1)
       ∧ (hashed.2 ≠ None → hashed.1 = zero32 ∧ preimage_of resolved.1 = zero32)).
Proof.
  split; intros w Hext; simpl;
    unfold extpreimage.GetPaymentHash, channeldb.GetPaymentHash,
      tempErr_of, permErr_of, preimage_of;
    resolution; rewrite Hext;
    destruct (bytes_Equal _ zero32); simpl; repeat split; congruence.
Qed.

Lemma X8_hash_and_preimage_agree_locally_witness :
  let i := extpreimage.Invoice.mk false zero32 example.preimage1 1000000 false in
  let w := example.world_of i [] in
  (extpreimage.GetPaymentPreimage 288 123456 w).2 = w
  ∧ extpreimage.GetPaymentHash i = (example.hash1, None)
  ∧ sha256.Sum256 (preimage_of (extpreimage.GetPaymentPreimage 288 123456 w).1)
    = example.hash1
  ∧ (extpreimage.GetPaymentHash example.empty_invoice).1 = zero32
  ∧ permErr_of (extpreimage.GetPaymentPreimage 288 123456
                  (example.world_of example.empty_invoice [])).1 ≠ None.
Proof.
  intros i w.
  pose proof (proj1 (X8_hash_and_preimage_agree_locally
                       (C := extpreimage.client) (R := stub.invoiceStore)
                       288 123456)) as Hagree.
  destruct (Hagree w eq_refl) as (Hsame & _ & _ & Hhash & _).
  destruct (Hagree (example.world_of example.empty_invoice []) eq_refl)
    as (_ & _ & Hiff & _ & Hzero).
  split; [exact Hsame|].
  split; [reflexivity|].
  split; [apply Hhash; reflexivity|].
  split; [apply Hzero; discriminate|].
  intros Hnone. apply Hiff in Hnone. discriminate Hnone.
Defined.

Section fetched_verified.
Context {N R : Type} `{!extpreimage.RPC N} `{!extpreimage.InvoiceRegistry.t R}.

Lemma Invoice_fetched_verified
      (w w' : extpreimage.World extpreimage.Invoice.t extpreimage.client R)
      (timeLock currentHeight : Z) (preimage : bytes) :
  extpreimage.Invoice.PaymentPreimage (extpreimage.self w) = zero32 →
  extpreimage.GetPaymentPreimage timeLock currentHeight w
  = (preimage, None, None, w') →
  extpreimage.Invoice.ExternalPreimage (extpreimage.self w) = true
  ∧ length preimage = 32%nat
  ∧ sha256.Sum256 preimage
    = extpreimage.Invoice.PaymentHash (extpreimage.self w).
Proof.
  intros Hpre%bytes_Equal_true.
  resolution; rewrite Hpre; simpl.
  destruct (extpreimage.Invoice.ExternalPreimage (extpreimage.self w));
    simpl; [|discriminate].
  destruct (extpreimage.extpreimageClient w) as [c|]; simpl; [|discriminate].
  unfold extpreimage.Client.Retrieve, extpreimage.client_Client.
  match goal with
  | |- context [extpreimage.Retrieve ?req c] =>
      destruct (extpreimage.Retrieve req c) as [[[pre t] p] c'] eqn:HR
  end.
  simpl. destruct p, t; simpl; try discriminate.
  match goal with
  | |- context [extpreimage.InvoiceRegistry.AddInvoicePreimage ?h ?q ?r] =>
      destruct (extpreimage.InvoiceRegistry.AddInvoicePreimage h q r)
        as [[e|] r']
  end; simpl; try discriminate.
  intros ?; simplify_eq.
  by apply Retrieve_success_matches in HR as [Hlen Hhash].
Qed.

Lemma ContractTerm_fetched_verified
      (w w' : extpreimage.World channeldb.ContractTerm.t extpreimage.client R)
      (timeLock currentHeight : Z) (preimage : bytes) :
  channeldb.ContractTerm.PaymentPreimage (extpreimage.self w) = zero32 →
  channeldb.GetPaymentPreimage timeLock currentHeight w
  = (preimage, None, None, w') →
  channeldb.ContractTerm.ExternalPreimage (extpreimage.self w) = true
  ∧ length preimage = 32%nat
  ∧ sha256.Sum256 preimage
    = channeldb.ContractTerm.PaymentHash (extpreimage.self w).
Proof.
  intros Hpre%bytes_Equal_true.
  resolution; rewrite Hpre; simpl.
  destruct (channeldb.ContractTerm.ExternalPreimage (extpreimage.self w));
    simpl; [|discriminate].
  destruct (extpreimage.extpreimageClient w) as [c|]; simpl; [|discriminate].
  unfold extpreimage.Client.Retrieve, extpreimage.client_Client.
  match goal with
  | |- context [extpreimage.Retrieve ?req c] =>
      destruct (extpreimage.Retrieve req c) as [[[pre t] p] c'] eqn:HR
  end.
  simpl. destruct p, t; simpl; try discriminate.
  match goal with
  | |- context [extpreimage.InvoiceRegistry.AddInvoicePreimage ?h ?q ?r] =>
      destruct (extpreimage.InvoiceRegistry.AddInvoicePreimage h q r)
        as [[e|] r']
  end; simpl; try discriminate.
  intros ?; simplify_eq.
  by apply Retrieve_success_matches in HR as [Hlen Hhash].
Qed.

End fetched_verified.

(** X9.  With the external preimage client of this package behind it, a
    resolution that fetches a preimage returns only a verified one: if the
    invoice stores no preimage and [GetPaymentPreimage] returns a preimage
    with both errors [nil], the invoice is external, the preimage is 32
    bytes long and its SHA-256 is the invoice's payment hash; so it hashes
    to what [GetPaymentHash] returns when the payment hash is not zero.  In
    both packages. *)
Theorem X9_fetched_preimage_matches_the_hash {N R : Type}
        `{!extpreimage.RPC N} `{!extpreimage.InvoiceRegistry.t R}
        (timeLock currentHeight : Z) (preimage : bytes) :
  (∀ w w' : extpreimage.World extpreimage.Invoice.t extpreimage.client R,
     extpreimage.Invoice.PaymentPreimage (extpreimage.self w) = zero32 →
     extpreimage.GetPaymentPreimage timeLock currentHeight w
     = (preimage, None, None, w') →
     extpreimage.Invoice.ExternalPreimage (extpreimage.self w) = true
     ∧ length preimage = 32%nat
     ∧ sha256.Sum256 preimage
       = extpreimage.Invoice.PaymentHash (extpreimage.self w)
     ∧ (extpreimage.Invoice.PaymentHash (extpreimage.self w) ≠ zero32 →
        extpreimage.GetPaymentHash (extpreimage.self w)
        = (sha256.Sum256 preimage, None)))
  ∧ (∀ w w' : extpreimage.World channeldb.ContractTerm.t extpreimage.client R,
       channeldb.ContractTerm.PaymentPreimage (extpreimage.self w) = zero32 →
       channeldb.GetPaymentPreimage timeLock currentHeight w
       = (preimage, None, None, w') →
       channeldb.ContractTerm.ExternalPreimage (extpreimage.self w) = true
       ∧ length preimage = 32%nat
       ∧ sha256.Sum256 preimage
         = channeldb.ContractTerm.PaymentHash (extpreimage.self w)
       ∧ (channeldb.ContractTerm.PaymentHash (extpreimage.self w) ≠ zero32 →
          channeldb.GetPaymentHash (extpreimage.self w)
          = (sha256.Sum256 preimage, None))).
Proof.
  split; intros w w' Hpre Hget.
  - destruct (Invoice_fetched_verified _ _ _ _ _ Hpre Hget) as (Hext & Hlen & Hhash).
    repeat split; try done.
    intros Hnz%bytes_Equal_false. unfold extpreimage.GetPaymentHash.
    by rewrite Hext, Hnz, Hhash.
  - destruct (ContractTerm_fetched_verified _ _ _ _ _ Hpre Hget)
      as (Hext & Hlen & Hhash).
    repeat split; try done.
    intros Hnz%bytes_Equal_false. unfold channeldb.GetPaymentHash.
    by rewrite Hext, Hnz, Hhash.
Qed.

Lemma X9_fetched_preimage_matches_the_hash_witness :
  let w := example.world_of example.external_invoice [stub.Respond example.good] in
  extpreimage.Invoice.ExternalPreimage (extpreimage.self w) = true
  ∧ length example.preimage1 = 32%nat
  ∧ sha256.Sum256 example.preimage1
    = extpreimage.Invoice.PaymentHash (extpreimage.self w)
  ∧ (extpreimage.Invoice.PaymentHash (extpreimage.self w) ≠ zero32 →
     extpreimage.GetPaymentHash (extpreimage.self w)
     = (sha256.Sum256 example.preimage1, None)).
Proof.
  intros w.
  apply (proj1 (X9_fetched_preimage_matches_the_hash
                  (R := stub.invoiceStore) 288 123456 example.preimage1)
               w (extpreimage.GetPaymentPreimage 288 123456 w).2).
  - reflexivity.
  - vm_compute. reflexivity.
Defined.

(** X10.  On an external invoice that stores no preimage, a resolution
    without a client ([nil]) returns the zero preimage, the temporary error
    "no extpreimage client configured" and no permanent error, and changes
    nothing.  In both packages. *)
Theorem X10_no_client_is_a_temporary_error {C R : Type}
        `{!extpreimage.Client.t C} `{!extpreimage.InvoiceRegistry.t R}
        (timeLock currentHeight : Z) :
  (∀ w : extpreimage.World extpreimage.Invoice.t C R,
     extpreimage.Invoice.PaymentPreimage (extpreimage.self w) = zero32 →
     extpreimage.Invoice.ExternalPreimage (extpreimage.self w) = true →
     extpreimage.extpreimageClient w = None →
     extpreimage.GetPaymentPreimage timeLock currentHeight w
     = (zero32, Some (Errorf "no extpreimage client configured"), None, w))
  ∧ (∀ w : extpreimage.World channeldb.ContractTerm.t C R,
       channeldb.ContractTerm.PaymentPreimage (extpreimage.self w) = zero32 →
       channeldb.ContractTerm.ExternalPreimage (extpreimage.self w) = true →
       extpreimage.extpreimageClient w = None →
       channeldb.GetPaymentPreimage timeLock currentHeight w
       = (zero32, Some (Errorf "no extpreimage client configured"), None, w)).
Proof.
  split; intros w Hpre%bytes_Equal_true Hext Hnil;
    resolution; rewrite Hpre, Hext; simpl; by rewrite Hnil.
Qed.

Lemma X10_no_client_is_a_temporary_error_witness :
  let w : extpreimage.World extpreimage.Invoice.t extpreimage.client
                            stub.invoiceStore :=
    extpreimage.mkWorld example.external_invoice None example.store [] in
  let v : extpreimage.World channeldb.ContractTerm.t extpreimage.client
                            stub.invoiceStore :=
    extpreimage.mkWorld example.external_term None example.store [] in
  extpreimage.GetPaymentPreimage 0 0 w
  = (zero32, Some (Errorf "no extpreimage client configured"), None, w)
  ∧ channeldb.GetPaymentPreimage 0 0 v
    = (zero32, Some (Errorf "no extpreimage client configured"), None, v).
Proof.
  intros w v. split.
  - by apply (proj1 (X10_no_client_is_a_temporary_error 0 0) w).
  - by apply (proj2 (X10_no_client_is_a_temporary_error 0 0) v).
Defined.

(** X11.  The calls of a resolution.  The client is asked only for an
    external invoice that stores no preimage, and then once, with a request
    made of the invoice's payment hash, its value in whole satoshis and the
    time lock and height given.  The registry is written only after that
    [Retrieve] returned no error, and then once, under the invoice's payment
    hash, with the preimage retrieved.  In both packages. *)
Theorem X11_calls_of_a_resolution {C R : Type}
        `{!extpreimage.Client.t C} `{!extpreimage.InvoiceRegistry.t R}
        (timeLock currentHeight : Z) :
  (∀ w : extpreimage.World extpreimage.Invoice.t C R,
     let i := extpreimage.self w in
     let req :=
       extpreimage.PreimageRequest.mk
         (extpreimage.Invoice.PaymentHash i)
         (int64 (lnwire.ToSatoshis (extpreimage.Invoice.Value i)))
         timeLock currentHeight in
     let retrieved :=
       if decide (extpreimage.Invoice.PaymentPreimage i = zero32)
       then if extpreimage.Invoice.ExternalPreimage i
            then (λ c, (extpreimage.Client.Retrieve req c).1)
                   <$> extpreimage.extpreimageClient w
            else None
       else None in
     extpreimage.calls (extpreimage.GetPaymentPreimage timeLock currentHeight w).2
     = extpreimage.calls w
       ++ resolution_calls req (extpreimage.Invoice.PaymentHash i) retrieved)
  ∧ (∀ w : extpreimage.World channeldb.ContractTerm.t C R,
       let i := extpreimage.self w in
       let req :=
         extpreimage.PreimageRequest.mk
           (channeldb.ContractTerm.PaymentHash i)
           (int64 (lnwire.ToSatoshis (channeldb.ContractTerm.Value i)))
           timeLock currentHeight in
       let retrieved :=
         if decide (channeldb.ContractTerm.PaymentPreimage i = zero32)
         then if channeldb.ContractTerm.ExternalPreimage i
              then (λ c, (extpreimage.Client.Retrieve req c).1)
                     <$> extpreimage.extpreimageClient w
              else None
         else None in
       extpreimage.calls (channeldb.GetPaymentPreimage timeLock currentHeight w).2
       = extpreimage.calls w
         ++ resolution_calls req (channeldb.ContractTerm.PaymentHash i) retrieved).
Proof.
  split; intros w; simpl; resolution; unfold bytes_Equal;
    (destruct (decide (_ (extpreimage.self w) = zero32)) as [Hz|Hz];
     [rewrite bool_decide_eq_true_2 by done
     |rewrite bool_decide_eq_false_2 by done; simpl; by rewrite app_nil_r]);
    simpl;
    (destruct (_ (extpreimage.self w) : bool) eqn:Hext; simpl;
     [|by rewrite app_nil_r]);
    (destruct (extpreimage.extpreimageClient w) as [c|]; simpl;
     [|by rewrite app_nil_r]);
    match goal with
    | |- context [extpreimage.Client.Retrieve ?req c] =>
        destruct (extpreimage.Client.Retrieve req c) as [[[pre t] p] c']
    end;
    simpl; destruct p, t; simpl; try reflexivity;
    match goal with
    | |- context [extpreimage.InvoiceRegistry.AddInvoicePreimage ?h ?q ?r] =>
        destruct (extpreimage.InvoiceRegistry.AddInvoicePreimage h q r)
          as [[e|] r']
    end;
    simpl; by rewrite <- app_assoc.
Qed.

(** X12.  When the client retrieved a preimage but the registry fails to
    store it, the resolution returns the registry's error as a temporary
    error, without the preimage (the zero value) and with no permanent
    error; the client keeps the state its [Retrieve] left.  In both
    packages. *)
Theorem X12_failed_persist_is_temporary {C R : Type}
        `{!extpreimage.Client.t C} `{!extpreimage.InvoiceRegistry.t R}
        (timeLock currentHeight : Z) (c c' : C) (preimage : bytes)
        (err : error) (r' : R) :
  (∀ w : extpreimage.World extpreimage.Invoice.t C R,
     let i := extpreimage.self w in
     extpreimage.Invoice.PaymentPreimage i = zero32 →
     extpreimage.Invoice.ExternalPreimage i = true →
     extpreimage.extpreimageClient w = Some c →
     extpreimage.Client.Retrieve
       (extpreimage.PreimageRequest.mk
          (extpreimage.Invoice.PaymentHash i)
          (int64 (lnwire.ToSatoshis (extpreimage.Invoice.Value i)))
          timeLock currentHeight) c
     = (preimage, None, None, c') →
     extpreimage.InvoiceRegistry.AddInvoicePreimage
       (extpreimage.Invoice.PaymentHash i) preimage (extpreimage.registry w)
     = (Some err, r') →
     let resolved := extpreimage.GetPaymentPreimage timeLock currentHeight w in
     resolved.1 = (zero32, Some err, None)
     ∧ extpreimage.extpreimageClient resolved.2 = Some c'
     ∧ extpreimage.registry resolved.2 = r')
  ∧ (∀ w : extpreimage.World channeldb.ContractTerm.t C R,
       let i := extpreimage.self w in
       channeldb.ContractTerm.PaymentPreimage i = zero32 →
       channeldb.ContractTerm.ExternalPreimage i = true →
       extpreimage.extpreimageClient w = Some c →
       extpreimage.Client.Retrieve
         (extpreimage.PreimageRequest.mk
            (channeldb.ContractTerm.PaymentHash i)
            (int64 (lnwire.ToSatoshis (channeldb.ContractTerm.Value i)))
            timeLock currentHeight) c
       = (preimage, None, None, c') →
       extpreimage.InvoiceRegistry.AddInvoicePreimage
         (channeldb.ContractTerm.PaymentHash i) preimage (extpreimage.registry w)
       = (Some err, r') →
       let resolved := channeldb.GetPaymentPreimage timeLock currentHeight w in
       resolved.1 = (zero32, Some err, None)
       ∧ extpreimage.extpreimageClient resolved.2 = Some c'
       ∧ extpreimage.registry resolved.2 = r').
Proof.
  split; intros w i Hpre%bytes_Equal_true Hext Hc HR Hadd; subst i;
    resolution; rewrite Hpre, Hext; simpl; rewrite Hc; simpl;
    rewrite HR; simpl; by rewrite Hadd.
Qed.

Lemma X12_failed_persist_is_temporary_witness :
  let c := example.client_of [stub.Respond example.good] in
  let w := extpreimage.mkWorld example.external_invoice (Some c)
                               example.broken_store [] in
  (extpreimage.GetPaymentPreimage 288 123456 w).1
  = (zero32, Some (Errorf "database is closed"), None)
  ∧ extpreimage.extpreimageClient (extpreimage.GetPaymentPreimage 288 123456 w).2
    = Some (extpreimage.Retrieve example.request1 c).2
  ∧ extpreimage.registry (extpreimage.GetPaymentPreimage 288 123456 w).2
    = example.broken_store.
Proof.
  apply (proj1 (X12_failed_persist_is_temporary
                  288 123456
                  (example.client_of [stub.Respond example.good])
                  (extpreimage.Retrieve example.request1
                     (example.client_of [stub.Respond example.good])).2
                  example.preimage1 (Errorf "database is closed")
                  example.broken_store)
               (extpreimage.mkWorld example.external_invoice
                  (Some (example.client_of [stub.Respond example.good]))
                  example.broken_store [])).
  - reflexivity.
  - reflexivity.
  - reflexivity.
  - vm_compute. reflexivity.
  - reflexivity.
Defined.

(** ** More on the lookup of a preimage *)

Lemma witnesses_added_app (cs ds : list Call) :
  witnesses_added (cs ++ ds) = witnesses_added cs ++ witnesses_added ds.
Proof. apply omap_app. Qed.

Lemma witnesses_added_resolution (cs : list extpreimage.Call) :
  witnesses_added (map CallResolution cs) = [].
Proof. induction cs as [|c cs IH]; [done | exact IH]. Qed.

(** X13.  When the invoice store fails with an error other than "invoice not
    found", [LookupPreimage] returns [(nil, false)] at once: its only effect
    is that one lookup; the witness cache and the client are not consulted
    and no goroutine is started.  In both revisions of the beacon. *)
Theorem X13_store_error_is_not_found {C D W : Type}
        `{!extpreimage.Client.t C} `{!htlcswitch.InvoiceDatabase.t D}
        `{!witnessCache.t W}
        (payHash : bytes) (invoice : channeldb.Invoice.t) (height : Z)
        (err : error) (d : D) :
  err ≠ ErrInvoiceNotFound →
  (∀ p : witness_beacon_poll.preimageBeacon C D W,
     htlcswitch.InvoiceDatabase.LookupInvoice (invoiceKey payHash)
       (witness_beacon_poll.invoices p) = (invoice, height, Some err, d) →
     witness_beacon_poll.LookupPreimage payHash p
     = ([], false,
        witness_beacon_poll.mkBeacon
          (witness_beacon_poll.extpreimageClient p) d
          (witness_beacon_poll.wCache p) (witness_beacon_poll.clientCounter p)
          (witness_beacon_poll.subscribers p) (witness_beacon_poll.pollCounter p)
          (witness_beacon_poll.polls p) (witness_beacon_poll.goroutines p)
          (witness_beacon_poll.calls p ++ [CallLookupInvoice (invoiceKey payHash)])))
  ∧ (∀ p : witness_beacon.preimageBeacon C D W,
       htlcswitch.InvoiceDatabase.LookupInvoice (invoiceKey payHash)
         (witness_beacon.invoices p) = (invoice, height, Some err, d) →
       witness_beacon.LookupPreimage payHash p
       = ([], false,
          witness_beacon.mkBeacon
            (witness_beacon.extpreimageClient p) d
            (witness_beacon.wCache p) (witness_beacon.clientCounter p)
            (witness_beacon.subscribers p) (witness_beacon.goroutines p)
            (witness_beacon.calls p ++ [CallLookupInvoice (invoiceKey payHash)]))).
Proof.
  intros Herr. split; intros p Hlook.
  - unfold witness_beacon_poll.LookupPreimage,
      witness_beacon_poll.call_LookupInvoice. run. rewrite Hlook.
    by destruct err.
  - unfold witness_beacon.LookupPreimage, witness_beacon.call_LookupInvoice.
    run. rewrite Hlook. by destruct err.
Qed.

Lemma X13_store_error_is_not_found_witness :
  ((witness_beacon_poll.LookupPreimage example.hash1 example.closed_beacon).1
   = ([], false)
   ∧ witness_beacon_poll.calls
       (witness_beacon_poll.LookupPreimage example.hash1 example.closed_beacon).2
     = [CallLookupInvoice (invoiceKey example.hash1)])
  ∧ ((witness_beacon.LookupPreimage example.hash1 example.old_closed_beacon).1
     = ([], false)
     ∧ witness_beacon.calls
         (witness_beacon.LookupPreimage example.hash1 example.old_closed_beacon).2
       = [CallLookupInvoice (invoiceKey example.hash1)]).
Proof.
  pose proof (X13_store_error_is_not_found
                (C := extpreimage.client) (W := stub.witnessStore)
                example.hash1 stub.zeroInvoice 0 (Errorf "database is closed")
                (stub.mkClosed (Errorf "database is closed")))
    as Hx.
  destruct Hx as [Hnew Hold]; [discriminate|].
  split.
  - rewrite (Hnew example.closed_beacon eq_refl). split; reflexivity.
  - rewrite (Hold example.old_closed_beacon eq_refl). split; reflexivity.
Defined.

(** X14.  When the invoice store does not know the invoice, [LookupPreimage]
    falls back to the witness cache, which it asks for a SHA-256 witness
    under the whole of [payHash], not under the 32-byte key of the invoice
    lookup: the result is the cache's witness with [true], or [(nil, false)]
    when the cache returns an error.  The client is not consulted and no
    goroutine is started.  In both revisions of the beacon. *)
Theorem X14_unknown_invoice_falls_back_to_the_cache {C D W : Type}
        `{!extpreimage.Client.t C} `{!htlcswitch.InvoiceDatabase.t D}
        `{!witnessCache.t W}
        (payHash : bytes) (invoice : channeldb.Invoice.t) (height : Z) (d : D)
        (witness : bytes) (werr : option error) (w' : W) :
  (∀ p : witness_beacon_poll.preimageBeacon C D W,
     htlcswitch.InvoiceDatabase.LookupInvoice (invoiceKey payHash)
       (witness_beacon_poll.invoices p)
     = (invoice, height, Some ErrInvoiceNotFound, d) →
     witnessCache.LookupWitness channeldb.Sha256HashWitness payHash
       (witness_beacon_poll.wCache p) = (witness, werr, w') →
     witness_beacon_poll.LookupPreimage payHash p
     = (match werr with Some _ => ([], false) | None => (witness, true) end,
        witness_beacon_poll.mkBeacon
          (witness_beacon_poll.extpreimageClient p) d w'
          (witness_beacon_poll.clientCounter p)
          (witness_beacon_poll.subscribers p) (witness_beacon_poll.pollCounter p)
          (witness_beacon_poll.polls p) (witness_beacon_poll.goroutines p)
          (witness_beacon_poll.calls p
           ++ [CallLookupInvoice (invoiceKey payHash);
               CallLookupWitness channeldb.Sha256HashWitness payHash])))
  ∧ (∀ p : witness_beacon.preimageBeacon C D W,
       htlcswitch.InvoiceDatabase.LookupInvoice (invoiceKey payHash)
         (witness_beacon.invoices p)
       = (invoice, height, Some ErrInvoiceNotFound, d) →
       witnessCache.LookupWitness channeldb.Sha256HashWitness payHash
         (witness_beacon.wCache p) = (witness, werr, w') →
       witness_beacon.LookupPreimage payHash p
       = (match werr with Some _ => ([], false) | None => (witness, true) end,
          witness_beacon.mkBeacon
            (witness_beacon.extpreimageClient p) d w'
            (witness_beacon.clientCounter p)
            (witness_beacon.subscribers p) (witness_beacon.goroutines p)
            (witness_beacon.calls p
             ++ [CallLookupInvoice (invoiceKey payHash);
                 CallLookupWitness channeldb.Sha256HashWitness payHash]))).
Proof.
  split; intros p Hlook Hw.
  - unfold witness_beacon_poll.LookupPreimage,
      witness_beacon_poll.call_LookupInvoice,
      witness_beacon_poll.call_LookupWitness. run.
    rewrite Hlook. simpl. rewrite Hw. rewrite <- app_assoc. by destruct werr.
  - unfold witness_beacon.LookupPreimage, witness_beacon.call_LookupInvoice,
      witness_beacon.call_LookupWitness. run.
    rewrite Hlook. simpl. rewrite Hw. rewrite <- app_assoc. by destruct werr.
Qed.

Lemma X14_unknown_invoice_falls_back_to_the_cache_witness :
  ((witness_beacon_poll.LookupPreimage example.hash2 example.cached_beacon).1
   = (example.preimage2, true)
   ∧ witness_beacon_poll.calls
       (witness_beacon_poll.LookupPreimage example.hash2 example.cached_beacon).2
     = [CallLookupInvoice (invoiceKey example.hash2);
        CallLookupWitness channeldb.Sha256HashWitness example.hash2])
  ∧ ((witness_beacon.LookupPreimage example.hash2 example.old_cached_beacon).1
     = (example.preimage2, true)
     ∧ witness_beacon.calls
         (witness_beacon.LookupPreimage example.hash2 example.old_cached_beacon).2
       = [CallLookupInvoice (invoiceKey example.hash2);
          CallLookupWitness channeldb.Sha256HashWitness example.hash2]).
Proof.
  destruct (X14_unknown_invoice_falls_back_to_the_cache
              (C := extpreimage.client)
              example.hash2 stub.zeroInvoice 0 example.store
              example.preimage2 None (stub.mkWitnesses [example.preimage2] None))
    as [Hnew Hold].
  split.
  - rewrite (Hnew example.cached_beacon);
      [split; reflexivity | vm_compute; reflexivity | vm_compute; reflexivity].
  - rewrite (Hold example.old_cached_beacon);
      [split; reflexivity | vm_compute; reflexivity | vm_compute; reflexivity].
Defined.

(** X15.  When the invoice store finds an invoice that stores a preimage,
    [LookupPreimage] returns that preimage with [true]; its only effect is
    the one invoice lookup: the client, the registry's write and the witness
    cache are not used and no goroutine is started.  In both revisions of
    the beacon. *)
Theorem X15_stored_preimage_is_found {C D W : Type}
        `{!extpreimage.Client.t C} `{!htlcswitch.InvoiceDatabase.t D}
        `{!witnessCache.t W}
        (payHash : bytes) (invoice : channeldb.Invoice.t) (height : Z) (d : D) :
  channeldb.ContractTerm.PaymentPreimage (channeldb.Invoice.Terms invoice)
  ≠ zero32 →
  (∀ p : witness_beacon_poll.preimageBeacon C D W,
     htlcswitch.InvoiceDatabase.LookupInvoice (invoiceKey payHash)
       (witness_beacon_poll.invoices p) = (invoice, height, None, d) →
     witness_beacon_poll.LookupPreimage payHash p
     = (channeldb.ContractTerm.PaymentPreimage (channeldb.Invoice.Terms invoice),
        true,
        witness_beacon_poll.mkBeacon
          (witness_beacon_poll.extpreimageClient p) d
          (witness_beacon_poll.wCache p) (witness_beacon_poll.clientCounter p)
          (witness_beacon_poll.subscribers p) (witness_beacon_poll.pollCounter p)
          (witness_beacon_poll.polls p) (witness_beacon_poll.goroutines p)
          (witness_beacon_poll.calls p ++ [CallLookupInvoice (invoiceKey payHash)])))
  ∧ (∀ p : witness_beacon.preimageBeacon C D W,
       htlcswitch.InvoiceDatabase.LookupInvoice (invoiceKey payHash)
         (witness_beacon.invoices p) = (invoice, height, None, d) →
       witness_beacon.LookupPreimage payHash p
       = (channeldb.ContractTerm.PaymentPreimage (channeldb.Invoice.Terms invoice),
          true,
          witness_beacon.mkBeacon
            (witness_beacon.extpreimageClient p) d
            (witness_beacon.wCache p) (witness_beacon.clientCounter p)
            (witness_beacon.subscribers p) (witness_beacon.goroutines p)
            (witness_beacon.calls p ++ [CallLookupInvoice (invoiceKey payHash)]))).
Proof.
  intros Hpre%bytes_Equal_false. split; intros p Hlook.
  - unfold witness_beacon_poll.LookupPreimage,
      witness_beacon_poll.call_LookupInvoice,
      witness_beacon_poll.call_GetPaymentPreimage, castInvoiceTerm. run.
    rewrite Hlook. simpl. resolution. rewrite Hpre. simpl.
    by rewrite app_nil_r.
  - unfold witness_beacon.LookupPreimage, witness_beacon.call_LookupInvoice,
      witness_beacon.call_GetPaymentPreimage, castInvoiceTerm. run.
    rewrite Hlook. simpl. resolution. rewrite Hpre. simpl.
    by rewrite app_nil_r.
Qed.

Lemma X15_stored_preimage_is_found_witness :
  ((witness_beacon_poll.LookupPreimage example.hash1 example.settled_beacon).1
   = (example.preimage1, true)
   ∧ witness_beacon_poll.calls
       (witness_beacon_poll.LookupPreimage example.hash1 example.settled_beacon).2
     = [CallLookupInvoice (invoiceKey example.hash1)])
  ∧ ((witness_beacon.LookupPreimage example.hash1 example.old_settled_beacon).1
     = (example.preimage1, true)
     ∧ witness_beacon.calls
         (witness_beacon.LookupPreimage example.hash1 example.old_settled_beacon).2
       = [CallLookupInvoice (invoiceKey example.hash1)]).
Proof.
  destruct (X15_stored_preimage_is_found
              (C := extpreimage.client) (W := stub.witnessStore)
              example.hash1 (channeldb.Invoice.mk [] example.settled_term) 0
              example.settled_store)
    as [Hnew Hold]; [vm_compute; discriminate|].
  split.
  - rewrite (Hnew example.settled_beacon);
      [split; reflexivity | vm_compute; reflexivity].
  - rewrite (Hold example.old_settled_beacon);
      [split; reflexivity | vm_compute; reflexivity].
Defined.

(** ** More on the two beacons *)

Lemma ContractTerm_stored {C R : Type} `{!extpreimage.Client.t C}
      `{!extpreimage.InvoiceRegistry.t R}
      (w : extpreimage.World channeldb.ContractTerm.t C R)
      (timeLock currentHeight : Z) :
  channeldb.ContractTerm.PaymentPreimage (extpreimage.self w) ≠ zero32 →
  channeldb.GetPaymentPreimage timeLock currentHeight w
  = (channeldb.ContractTerm.PaymentPreimage (extpreimage.self w), None, None, w).
Proof. intros Hpre%bytes_Equal_false. resolution. by rewrite Hpre. Qed.

Section old_beacon_more.
Context {C D W : Type} `{!extpreimage.Client.t C}
        `{!htlcswitch.InvoiceDatabase.t D} `{!witnessCache.t W}.
Import witness_beacon.
Implicit Types (p : preimageBeacon C D W).

Lemma old_notify_spec pre l p :
  let p' := (notify pre l p).2 in
  subscribers p' = subscribers p
  ∧ clientCounter p' = clientCounter p
  ∧ calls p' = calls p
  ∧ wCache p' = wCache p
  ∧ goroutines p' = goroutines p ++ map (λ kv, GoNotify kv.1 pre) l.
Proof.
  revert p. induction l as [|[client s] l IH]; intros p; simpl.
  - rewrite app_nil_r. by repeat split.
  - unfold go at 1. run. simpl.
    destruct (IH (mkBeacon (extpreimageClient p) (invoices p) (wCache p)
                           (clientCounter p) (subscribers p)
                           (goroutines p ++ [GoNotify client pre])
                           (calls p))) as (Hs & Hc & Hcalls & Hw & Hgo).
    destruct (notify pre l _) as [[] p'] eqn:E. simpl in *.
    split; [exact Hs|]. split; [exact Hc|]. split; [exact Hcalls|].
    split; [exact Hw|]. by rewrite Hgo, <- app_assoc.
Qed.

Lemma old_AddPreimage_success pre p w' :
  witnessCache.AddWitness channeldb.Sha256HashWitness pre (wCache p) = (None, w') →
  let p' := (AddPreimage pre p).2 in
  (AddPreimage pre p).1 = None
  ∧ subscribers p' = subscribers p
  ∧ wCache p' = w'
  ∧ calls p' = calls p ++ [CallAddWitness channeldb.Sha256HashWitness pre]
  ∧ goroutines p'
    = goroutines p ++ map (λ kv, GoNotify kv.1 pre) (map_to_list (subscribers p)).
Proof.
  intros Hadd. unfold AddPreimage, call_AddWitness. run. rewrite Hadd. simpl.
  match goal with
  | |- context [notify pre ?l ?q] =>
      destruct (old_notify_spec pre l q) as (Hs & _ & Hcalls & Hw & Hgo);
      destruct (notify pre l q) as [[] p'] eqn:E
  end.
  simpl in *. split; [done|]. split; [exact Hs|]. by repeat split.
Qed.

Lemma old_call_GetPaymentPreimage_result i timeLock currentHeight p :
  let w := extpreimage.mkWorld i (extpreimageClient p) (invoices p) [] in
  (call_GetPaymentPreimage i timeLock currentHeight p).1
  = ((channeldb.GetPaymentPreimage timeLock currentHeight w).1, i).
Proof.
  simpl. unfold call_GetPaymentPreimage.
  pose proof (ContractTerm_self_unchanged
                (extpreimage.mkWorld i (extpreimageClient p) (invoices p) [])
                timeLock currentHeight) as Hself.
  destruct (channeldb.GetPaymentPreimage _ _ _) as [r w]. simpl in *.
  by rewrite Hself.
Qed.

(** What the resolution inside the beacon leaves alone. *)
Lemma old_call_GetPaymentPreimage_frame i timeLock currentHeight p :
  let p' := (call_GetPaymentPreimage i timeLock currentHeight p).2 in
  subscribers p' = subscribers p
  ∧ clientCounter p' = clientCounter p
  ∧ wCache p' = wCache p
  ∧ goroutines p' = goroutines p
  ∧ witnesses_added (calls p') = witnesses_added (calls p)
  ∧ invoice_lookups (calls p') = invoice_lookups (calls p).
Proof.
  simpl. unfold call_GetPaymentPreimage.
  destruct (channeldb.GetPaymentPreimage _ _ _) as [r w]. simpl.
  rewrite witnesses_added_app, witnesses_added_resolution,
    invoice_lookups_app, invoice_lookups_resolution, !app_nil_r.
  by repeat split.
Qed.

Lemma old_LookupPreimage_found payHash p invoice height d preimage tempErr permErr :
  htlcswitch.InvoiceDatabase.LookupInvoice (invoiceKey payHash) (invoices p)
  = (invoice, height, None, d) →
  (channeldb.GetPaymentPreimage (uint32 0) (uint32 0)
     (extpreimage.mkWorld (castInvoiceTerm invoice) (extpreimageClient p) d [])).1
  = (preimage, tempErr, permErr) →
  (LookupPreimage payHash p).1
  = match permErr, tempErr with
    | None, None => (preimage, true)
    | _, _ => ([], false)
    end.
Proof.
  intros Hlook Hres.
  unfold LookupPreimage, call_LookupInvoice. run. rewrite Hlook. simpl.
  match goal with
  | |- context [call_GetPaymentPreimage ?i ?t ?h ?q] =>
      pose proof (old_call_GetPaymentPreimage_result i t h q) as Hr;
      destruct (call_GetPaymentPreimage i t h q) as [[[[pre' t'] p'] i'] p2]
  end.
  simpl in Hr. rewrite Hres in Hr. simplify_eq.
  by destruct permErr, tempErr.
Qed.

End old_beacon_more.

Section poll_beacon_more.
Context {C D W : Type} `{!extpreimage.Client.t C}
        `{!htlcswitch.InvoiceDatabase.t D} `{!witnessCache.t W}.
Import witness_beacon_poll.
Implicit Types (p : preimageBeacon C D W).

Lemma call_GetPaymentPreimage_frame i timeLock currentHeight p :
  let p' := (call_GetPaymentPreimage i timeLock currentHeight p).2 in
  wCache p' = wCache p
  ∧ witnesses_added (calls p') = witnesses_added (calls p)
  ∧ invoice_lookups (calls p') = invoice_lookups (calls p).
Proof.
  simpl. unfold call_GetPaymentPreimage.
  destruct (channeldb.GetPaymentPreimage _ _ _) as [r w]. simpl.
  rewrite witnesses_added_app, witnesses_added_resolution,
    invoice_lookups_app, invoice_lookups_resolution, !app_nil_r.
  by repeat split.
Qed.

End poll_beacon_more.

(** The notifications [AddPreimage] starts for the subscribers [subs]: one
    goroutine for each registered subscriber, no two for the same one. *)
Lemma notifications_spec (pre : bytes) (subs : gmap Z preimageSubscriber) :
  let started := map (λ kv : Z * preimageSubscriber, GoNotify kv.1 pre)
                     (map_to_list subs) in
  NoDup started
  ∧ length started = size subs
  ∧ ∀ g, g ∈ started ↔ ∃ client, g = GoNotify client pre ∧ is_Some (subs !! client).
Proof.
  simpl. split; [|split].
  - assert (map (λ kv : Z * preimageSubscriber, GoNotify kv.1 pre) (map_to_list subs)
            = (λ client, GoNotify client pre) <$> (map_to_list subs).*1) as ->.
    { by rewrite <- list_fmap_compose. }
    apply NoDup_fmap_2; [|apply NoDup_fst_map_to_list].
    intros a b Hab. by injection Hab.
  - rewrite length_map. apply length_map_to_list.
  - intros g. rewrite list_elem_of_fmap. split.
    + intros ([client s] & -> & Hin%elem_of_map_to_list). simpl.
      exists client. split; [done|]. by exists s.
    + intros (client & -> & [s Hs]).
      exists (client, s). split; [done|]. by apply elem_of_map_to_list.
Qed.

(** X16.  With the external preimage client of this package behind the
    beacon, a preimage that [LookupPreimage] finds through an invoice is
    either the preimage the invoice stores, or, for an external invoice that
    stores none, a 32-byte preimage whose SHA-256 is the payment hash of
    that invoice.  In both revisions of the beacon. *)
Theorem X16_found_preimage_is_stored_or_verified {N D W : Type}
        `{!extpreimage.RPC N} `{!htlcswitch.InvoiceDatabase.t D}
        `{!witnessCache.t W}
        (payHash : bytes) (invoice : channeldb.Invoice.t) (height : Z) (d : D)
        (preimage : bytes) :
  let term := channeldb.Invoice.Terms invoice in
  let stored_or_verified :=
    (channeldb.ContractTerm.PaymentPreimage term ≠ zero32
     ∧ preimage = channeldb.ContractTerm.PaymentPreimage term)
    ∨ (channeldb.ContractTerm.PaymentPreimage term = zero32
       ∧ channeldb.ContractTerm.ExternalPreimage term = true
       ∧ length preimage = 32%nat
       ∧ sha256.Sum256 preimage = channeldb.ContractTerm.PaymentHash term) in
  (∀ p : witness_beacon_poll.preimageBeacon extpreimage.client D W,
     htlcswitch.InvoiceDatabase.LookupInvoice (invoiceKey payHash)
       (witness_beacon_poll.invoices p) = (invoice, height, None, d) →
     (witness_beacon_poll.LookupPreimage payHash p).1 = (preimage, true) →
     stored_or_verified)
  ∧ (∀ p : witness_beacon.preimageBeacon extpreimage.client D W,
       htlcswitch.InvoiceDatabase.LookupInvoice (invoiceKey payHash)
         (witness_beacon.invoices p) = (invoice, height, None, d) →
       (witness_beacon.LookupPreimage payHash p).1 = (preimage, true) →
       stored_or_verified).
Proof.
  intros term stored_or_verified.
  assert (∀ cl : option extpreimage.client,
            (channeldb.GetPaymentPreimage (uint32 0) (uint32 0)
               (extpreimage.mkWorld (castInvoiceTerm invoice) cl d [])).1
            = (preimage, None, None) →
            stored_or_verified) as Hcore.
  { intros cl Hres. unfold stored_or_verified, term.
    destruct (decide (channeldb.ContractTerm.PaymentPreimage
                        (channeldb.Invoice.Terms invoice) = zero32)) as [Hz|Hnz].
    - right. split; [done|].
      eapply (ContractTerm_fetched_verified
                (extpreimage.mkWorld (castInvoiceTerm invoice) cl d [])
                (channeldb.GetPaymentPreimage (uint32 0) (uint32 0)
                   (extpreimage.mkWorld (castInvoiceTerm invoice) cl d [])).2);
        [exact Hz|].
      rewrite <- Hres. apply surjective_pairing.
    - left. split; [done|].
      rewrite (ContractTerm_stored
                 (extpreimage.mkWorld (castInvoiceTerm invoice) cl d [])) in Hres
        by exact Hnz.
      simpl in Hres. by simplify_eq. }
  split; intros p Hlook Hfound.
  - destruct (channeldb.GetPaymentPreimage (uint32 0) (uint32 0)
                (extpreimage.mkWorld (castInvoiceTerm invoice)
                   (witness_beacon_poll.extpreimageClient p) d [])).1
      as [[pre t] pe] eqn:Hres.
    destruct (LookupPreimage_found _ _ _ _ _ _ _ _ Hlook Hres) as [Hr _].
    rewrite Hr in Hfound.
    destruct pe, t; simplify_eq. by eapply Hcore.
  - destruct (channeldb.GetPaymentPreimage (uint32 0) (uint32 0)
                (extpreimage.mkWorld (castInvoiceTerm invoice)
                   (witness_beacon.extpreimageClient p) d [])).1
      as [[pre t] pe] eqn:Hres.
    pose proof (old_LookupPreimage_found _ _ _ _ _ _ _ _ Hlook Hres) as Hr.
    rewrite Hr in Hfound.
    destruct pe, t; simplify_eq. by eapply Hcore.
Qed.

Lemma X16_found_preimage_is_stored_or_verified_witness :
  (channeldb.ContractTerm.PaymentPreimage example.external_term ≠ zero32
   ∧ example.preimage1 = channeldb.ContractTerm.PaymentPreimage example.external_term)
  ∨ (channeldb.ContractTerm.PaymentPreimage example.external_term = zero32
     ∧ channeldb.ContractTerm.ExternalPreimage example.external_term = true
     ∧ length example.preimage1 = 32%nat
     ∧ sha256.Sum256 example.preimage1
       = channeldb.ContractTerm.PaymentHash example.external_term).
Proof.
  apply (proj1 (X16_found_preimage_is_stored_or_verified
                  (W := stub.witnessStore)
                  example.hash1 (channeldb.Invoice.mk [] example.external_term) 0
                  example.store example.preimage1)
               (example.beacon_of [stub.Respond example.good] None)).
  - vm_compute. reflexivity.
  - vm_compute. reflexivity.
Defined.

(** X17.  When the write to the witness store succeeds, [AddPreimage]
    returns [nil], keeps the cache state the write left and the subscribers
    as they were, and starts exactly one goroutine per registered
    subscriber, each delivering this preimage, and nothing else.  In both
    revisions of the beacon. *)
Theorem X17_AddPreimage_notifies_every_subscriber {C D W : Type}
        `{!extpreimage.Client.t C} `{!htlcswitch.InvoiceDatabase.t D}
        `{!witnessCache.t W} (pre : bytes) (w' : W) :
  (∀ p : witness_beacon_poll.preimageBeacon C D W,
     witnessCache.AddWitness channeldb.Sha256HashWitness pre
       (witness_beacon_poll.wCache p) = (None, w') →
     let p' := (witness_beacon_poll.AddPreimage pre p).2 in
     (witness_beacon_poll.AddPreimage pre p).1 = None
     ∧ witness_beacon_poll.wCache p' = w'
     ∧ witness_beacon_poll.subscribers p' = witness_beacon_poll.subscribers p
     ∧ ∃ started,
         witness_beacon_poll.goroutines p'
         = witness_beacon_poll.goroutines p ++ started
         ∧ NoDup started
         ∧ length started = size (witness_beacon_poll.subscribers p)
         ∧ ∀ g, g ∈ started
                ↔ ∃ client, g = GoNotify client pre
                            ∧ is_Some (witness_beacon_poll.subscribers p !! client))
  ∧ (∀ p : witness_beacon.preimageBeacon C D W,
       witnessCache.AddWitness channeldb.Sha256HashWitness pre
         (witness_beacon.wCache p) = (None, w') →
       let p' := (witness_beacon.AddPreimage pre p).2 in
       (witness_beacon.AddPreimage pre p).1 = None
       ∧ witness_beacon.wCache p' = w'
       ∧ witness_beacon.subscribers p' = witness_beacon.subscribers p
       ∧ ∃ started,
           witness_beacon.goroutines p'
           = witness_beacon.goroutines p ++ started
           ∧ NoDup started
           ∧ length started = size (witness_beacon.subscribers p)
           ∧ ∀ g, g ∈ started
                  ↔ ∃ client, g = GoNotify client pre
                              ∧ is_Some (witness_beacon.subscribers p !! client)).
Proof.
  split; intros p Hadd p'.
  - destruct (AddPreimage_success _ _ _ Hadd) as (Hr & Hreg & Hw & _ & Hgo).
    destruct Hreg as (_ & _ & Hsubs & _).
    split; [done|]. split; [done|]. split; [done|].
    eexists. split; [exact Hgo|].
    apply (notifications_spec pre (witness_beacon_poll.subscribers p)).
  - destruct (old_AddPreimage_success _ _ _ Hadd) as (Hr & Hsubs & Hw & _ & Hgo).
    split; [done|]. split; [done|]. split; [done|].
    eexists. split; [exact Hgo|].
    apply (notifications_spec pre (witness_beacon.subscribers p)).
Qed.

Lemma X17_AddPreimage_notifies_every_subscriber_witness :
  (witness_beacon_poll.AddPreimage example.preimage1 (example.beacon_of [] None)).1
  = None
  ∧ stub.witnesses
      (witness_beacon_poll.wCache
         (witness_beacon_poll.AddPreimage example.preimage1
            (example.beacon_of [] None)).2)
    = [example.preimage1]
  ∧ ∃ started,
      witness_beacon_poll.goroutines
        (witness_beacon_poll.AddPreimage example.preimage1
           (example.beacon_of [] None)).2 = started
      ∧ length started = 2%nat
      ∧ GoNotify 0 example.preimage1 ∈ started
      ∧ GoNotify 1 example.preimage1 ∈ started.
Proof.
  destruct (proj1 (X17_AddPreimage_notifies_every_subscriber
                     (C := extpreimage.client) (D := stub.invoiceStore)
                     example.preimage1
                     (stub.mkWitnesses [example.preimage1] None))
                  (example.beacon_of [] None))
    as (Hr & Hw & _ & started & Hgo & _ & Hlen & Hin).
  { reflexivity. }
  split; [exact Hr|]. split; [by rewrite Hw|].
  exists started. split; [exact Hgo|]. split; [exact Hlen|].
  split; apply Hin; eexists; (split; [reflexivity|]); vm_compute; eauto.
Defined.

(** X18.  What [LookupPreimage] touches.  It never adds a witness to the
    witness store and leaves the polls and both counters as they were; when
    it reports "not found" the slice it returns is [nil].  It is not
    read-only: after the one invoice lookup a found invoice is resolved
    once, with zero time lock and height, and the client and the invoice
    store are left as that resolution left them, which may have called the
    remote service and stored the fetched preimage in the invoice store;
    the witness store is then not consulted.  When the lookup fails the
    client is as before and the invoice store as the lookup left it.  The
    beacon without polls starts no goroutine; the beacon with polls starts
    none or one, and that one is a poll with a period of ten seconds,
    started beside a "not found". *)
Theorem X18_LookupPreimage_writes_no_witness {C D W : Type}
        `{!extpreimage.Client.t C} `{!htlcswitch.InvoiceDatabase.t D}
        `{!witnessCache.t W} (payHash : bytes) :
  (∀ p : witness_beacon_poll.preimageBeacon C D W,
     let r := witness_beacon_poll.LookupPreimage payHash p in
     let looked :=
       htlcswitch.InvoiceDatabase.LookupInvoice (invoiceKey payHash)
         (witness_beacon_poll.invoices p) in
     let resolved :=
       (channeldb.GetPaymentPreimage (uint32 0) (uint32 0)
          (extpreimage.mkWorld (castInvoiceTerm looked.1.1.1)
             (witness_beacon_poll.extpreimageClient p) looked.2 [])).2 in
     witnesses_added (witness_beacon_poll.calls r.2)
     = witnesses_added (witness_beacon_poll.calls p)
     ∧ witness_beacon_poll.polls r.2 = witness_beacon_poll.polls p
     ∧ witness_beacon_poll.pollCounter r.2 = witness_beacon_poll.pollCounter p
     ∧ witness_beacon_poll.clientCounter r.2
       = witness_beacon_poll.clientCounter p
     ∧ (r.1.2 = false → r.1.1 = [])
     ∧ (witness_beacon_poll.goroutines r.2 = witness_beacon_poll.goroutines p
        ∨ ∃ i, r.1 = ([], false)
               ∧ witness_beacon_poll.goroutines r.2
                 = witness_beacon_poll.goroutines p
                   ++ [GoPollExtpreimage i (10 * Second)])
     ∧ (looked.1.2 ≠ None →
        witness_beacon_poll.extpreimageClient r.2
        = witness_beacon_poll.extpreimageClient p
        ∧ witness_beacon_poll.invoices r.2 = looked.2)
     ∧ (looked.1.2 = None →
        witness_beacon_poll.extpreimageClient r.2
        = extpreimage.extpreimageClient resolved
        ∧ witness_beacon_poll.invoices r.2 = extpreimage.registry resolved
        ∧ witness_beacon_poll.wCache r.2 = witness_beacon_poll.wCache p
        ∧ witness_beacon_poll.calls r.2
          = witness_beacon_poll.calls p
            ++ CallLookupInvoice (invoiceKey payHash)
               :: map CallResolution (extpreimage.calls resolved)))
  ∧ (∀ p : witness_beacon.preimageBeacon C D W,
       let r := witness_beacon.LookupPreimage payHash p in
       let looked :=
         htlcswitch.InvoiceDatabase.LookupInvoice (invoiceKey payHash)
           (witness_beacon.invoices p) in
       let resolved :=
         (channeldb.GetPaymentPreimage (uint32 0) (uint32 0)
            (extpreimage.mkWorld (castInvoiceTerm looked.1.1.1)
               (witness_beacon.extpreimageClient p) looked.2 [])).2 in
       witnesses_added (witness_beacon.calls r.2)
       = witnesses_added (witness_beacon.calls p)
       ∧ witness_beacon.clientCounter r.2 = witness_beacon.clientCounter p
       ∧ (r.1.2 = false → r.1.1 = [])
       ∧ witness_beacon.goroutines r.2 = witness_beacon.goroutines p
       ∧ (looked.1.2 ≠ None →
          witness_beacon.extpreimageClient r.2
          = witness_beacon.extpreimageClient p
          ∧ witness_beacon.invoices r.2 = looked.2)
       ∧ (looked.1.2 = None →
          witness_beacon.extpreimageClient r.2
          = extpreimage.extpreimageClient resolved
          ∧ witness_beacon.invoices r.2 = extpreimage.registry resolved
          ∧ witness_beacon.wCache r.2 = witness_beacon.wCache p
          ∧ witness_beacon.calls r.2
            = witness_beacon.calls p
              ++ CallLookupInvoice (invoiceKey payHash)
                 :: map CallResolution (extpreimage.calls resolved))).
Proof.
  split; intros p; simpl.
  - unfold witness_beacon_poll.LookupPreimage,
      witness_beacon_poll.call_LookupInvoice,
      witness_beacon_poll.call_LookupWitness, witness_beacon_poll.go,
      witness_beacon_poll.call_GetPaymentPreimage. run.
    destruct (htlcswitch.InvoiceDatabase.LookupInvoice _ _)
      as [[[invoice height] err] d].
    destruct err as [[msg| |]|]; simpl.
    + rewrite witnesses_added_app, app_nil_r.
      repeat (split; [done|]). split; [by left|]. done.
    + rewrite witnesses_added_app, app_nil_r.
      repeat (split; [done|]). split; [by left|]. done.
    + destruct (witnessCache.LookupWitness _ _ _) as [[preimage err] w].
      destruct err; simpl; rewrite !witnesses_added_app, !app_nil_r;
        (repeat (split; [done|]); split; [by left|]; done).
    + destruct (channeldb.GetPaymentPreimage _ _ _) as [[[pre t'] pe] w].
      simpl.
      assert (witnesses_added
                ((witness_beacon_poll.calls p
                  ++ [CallLookupInvoice (invoiceKey payHash)])
                 ++ map CallResolution (extpreimage.calls w))
              = witnesses_added (witness_beacon_poll.calls p)) as Hw.
      { by rewrite !witnesses_added_app, witnesses_added_resolution,
          !app_nil_r. }
      destruct pe, t'; simpl; rewrite Hw, <- app_assoc; simpl;
        repeat (split; [done|]);
        (split; [first [by left | right; eexists; by split]|]);
        (split; [done|]); intros _; by repeat split.
  - unfold witness_beacon.LookupPreimage, witness_beacon.call_LookupInvoice,
      witness_beacon.call_LookupWitness,
      witness_beacon.call_GetPaymentPreimage. run.
    destruct (htlcswitch.InvoiceDatabase.LookupInvoice _ _)
      as [[[invoice height] err] d].
    destruct err as [[msg| |]|]; simpl.
    + rewrite witnesses_added_app, app_nil_r. by repeat (split; [done|]).
    + rewrite witnesses_added_app, app_nil_r. by repeat (split; [done|]).
    + destruct (witnessCache.LookupWitness _ _ _) as [[preimage err] w].
      destruct err; simpl; rewrite !witnesses_added_app, !app_nil_r;
        by repeat (split; [done|]).
    + destruct (channeldb.GetPaymentPreimage _ _ _) as [[[pre t'] pe] w].
      simpl.
      assert (witnesses_added
                ((witness_beacon.calls p
                  ++ [CallLookupInvoice (invoiceKey payHash)])
                 ++ map CallResolution (extpreimage.calls w))
              = witnesses_added (witness_beacon.calls p)) as Hw.
      { by rewrite !witnesses_added_app, witnesses_added_resolution,
          !app_nil_r. }
      destruct pe, t'; simpl; rewrite Hw, <- app_assoc; simpl;
        repeat split; done.
Qed.

(** ** More on the polls *)

Section poll_effects.
Context {C D W : Type} `{!extpreimage.Client.t C}
        `{!htlcswitch.InvoiceDatabase.t D} `{!witnessCache.t W}.
Import witness_beacon_poll.
Implicit Types (p : preimageBeacon C D W) (i : channeldb.ContractTerm.t).

Lemma AddPreimage_calls pre p :
  calls (AddPreimage pre p).2
  = calls p ++ [CallAddWitness channeldb.Sha256HashWitness pre].
Proof.
  destruct (witnessCache.AddWitness channeldb.Sha256HashWitness pre (wCache p))
    as [[e|] w'] eqn:Hadd.
  - by rewrite (AddPreimage_failure _ _ _ _ Hadd).
  - by destruct (AddPreimage_success _ _ _ Hadd) as (_ & _ & _ & ? & _).
Qed.

(** What the loop of a poll adds to the records: no invoice lookup, at
    most one witness, and no goroutine but the notifications of that
    witness; nothing at all while it has not returned. *)
Lemma pollLoop_effects sel i p :
  invoice_lookups (calls (pollLoop sel i p).2) = invoice_lookups (calls p)
  ∧ ∃ added started,
      witnesses_added (calls (pollLoop sel i p).2)
      = witnesses_added (calls p) ++ added
      ∧ goroutines (pollLoop sel i p).2 = goroutines p ++ started
      ∧ (length added ≤ 1)%nat
      ∧ ((pollLoop sel i p).1 = false → added = [] ∧ started = [])
      ∧ (started = []
         ∨ ∃ pre, added = [pre]
                  ∧ started = map (λ kv, GoNotify kv.1 pre)
                                  (map_to_list (subscribers p))).
Proof.
  revert i p. induction sel as [|s sel IH]; intros i p.
  - simpl. split; [done|]. exists [], []. rewrite !app_nil_r.
    split; [done|]. split; [done|]. split; [simpl; lia|]. split; [done | by left].
  - destruct s.
    2:{ simpl. split; [done|]. exists [], []. rewrite !app_nil_r.
        split; [done|]. split; [done|]. split; [simpl; lia|].
        split; [done | by left]. }
    pose proof (call_GetPaymentPreimage_frame i (uint32 0) (uint32 0) p)
      as (_ & Hw & Hl).
    pose proof (call_GetPaymentPreimage_goroutines i (uint32 0) (uint32 0) p) as Hg.
    pose proof (call_GetPaymentPreimage_same_registrations
                  i (uint32 0) (uint32 0) p) as (_ & _ & Hsubs & _).
    destruct (call_GetPaymentPreimage i (uint32 0) (uint32 0) p)
      as [[[[preimage tempErr] permErr] i'] p1] eqn:Hres.
    rewrite (pollLoop_tick sel _ _ _ _ _ _ _ Hres). simpl in Hw, Hl, Hg, Hsubs.
    destruct permErr as [e|].
    { simpl. split; [done|]. exists [], []. rewrite !app_nil_r.
      split; [done|]. split; [done|]. split; [simpl; lia|].
      split; [done | by left]. }
    destruct tempErr as [e|].
    + destruct (IH i p1) as (Hl' & added & started & Hw' & Hg' & Hlen & Hrun & Hnote).
      split; [congruence|]. exists added, started. rewrite Hw', Hw, Hg', Hg.
      split; [done|]. split; [done|]. split; [done|]. split; [done|].
      by rewrite <- Hsubs.
    + simpl. rewrite AddPreimage_calls, invoice_lookups_app, witnesses_added_app.
      simpl. rewrite app_nil_r. split; [done|].
      destruct (witnessCache.AddWitness channeldb.Sha256HashWitness preimage
                  (wCache p1)) as [[e|] w'] eqn:Hadd.
      * exists [preimage], []. rewrite (AddPreimage_failure _ _ _ _ Hadd).
        simpl. rewrite Hw, Hg, app_nil_r.
        split; [done|]. split; [done|]. split; [lia|]. split; [done | by left].
      * destruct (AddPreimage_success _ _ _ Hadd) as (_ & _ & _ & _ & Hgo).
        exists [preimage],
          (map (λ kv, GoNotify kv.1 preimage) (map_to_list (subscribers p))).
        rewrite Hgo, Hw, Hg, Hsubs.
        split; [done|]. split; [done|]. split; [simpl; lia|]. split; [done|].
        right. by exists preimage.
Qed.

End poll_effects.

(** X19.  Under any schedule of ticks and quit signals a poll writes at
    most one witness to the witness store and never looks up an invoice;
    as long as it has not returned it has written no witness and started
    no goroutine.  The only goroutines it ever starts are the notifications
    of the witness it wrote: one for every registered subscriber. *)
Theorem X19_poll_writes_at_most_one_witness {C D W : Type}
        `{!extpreimage.Client.t C} `{!htlcswitch.InvoiceDatabase.t D}
        `{!witnessCache.t W}
        (p : witness_beacon_poll.preimageBeacon C D W)
        (sel : list witness_beacon_poll.selected)
        (i : channeldb.ContractTerm.t) (pollInterval : Z) :
  let outcome := witness_beacon_poll.pollExtpreimage sel i pollInterval p in
  invoice_lookups (witness_beacon_poll.calls outcome.2)
  = invoice_lookups (witness_beacon_poll.calls p)
  ∧ ∃ added started,
      witnesses_added (witness_beacon_poll.calls outcome.2)
      = witnesses_added (witness_beacon_poll.calls p) ++ added
      ∧ witness_beacon_poll.goroutines outcome.2
        = witness_beacon_poll.goroutines p ++ started
      ∧ (length added ≤ 1)%nat
      ∧ (outcome.1 = false → added = [] ∧ started = [])
      ∧ (started = []
         ∨ ∃ pre, added = [pre]
                  ∧ started = map (λ kv, GoNotify kv.1 pre)
                                  (map_to_list
                                     (witness_beacon_poll.subscribers p))).
Proof.
  simpl. rewrite pollExtpreimage_loop. simpl.
  match goal with
  | |- context [witness_beacon_poll.pollLoop sel i ?q] =>
      destruct (pollLoop_effects sel i q)
        as (Hl & added & started & Hw & Hg & Hlen & Hrun & Hnote);
      destruct (witness_beacon_poll.pollLoop sel i q) as [returned p1]
  end.
  simpl in *. destruct returned; simpl.
  - split; [done|]. exists added, started. by repeat (split; [done|]).
  - split; [done|]. exists added, started. by repeat (split; [done|]).
Qed.

Lemma X19_poll_writes_at_most_one_witness_witness :
  ∃ added started,
    witnesses_added
      (witness_beacon_poll.calls
         (witness_beacon_poll.pollExtpreimage
            [witness_beacon_poll.ticker_C] example.external_term Second
            (example.beacon_of [stub.Respond example.good] None)).2)
    = [] ++ added
    ∧ witness_beacon_poll.goroutines
        (witness_beacon_poll.pollExtpreimage
           [witness_beacon_poll.ticker_C] example.external_term Second
           (example.beacon_of [stub.Respond example.good] None)).2
      = [] ++ started
    ∧ (length added ≤ 1)%nat
    ∧ length started = 2%nat.
Proof.
  destruct (X19_poll_writes_at_most_one_witness
              (example.beacon_of [stub.Respond example.good] None)
              [witness_beacon_poll.ticker_C] example.external_term Second)
    as (_ & added & started & Hw & Hg & Hlen & _ & Hnote).
  exists added, started. split; [exact Hw|]. split; [exact Hg|].
  split; [exact Hlen|].
  destruct Hnote as [->|(pre & _ & ->)].
  - vm_compute in Hg. discriminate Hg.
  - rewrite length_map. vm_compute. reflexivity.
Defined.

(** X20.  A poll does not retry a failed write: when a tick resolves the
    preimage but the witness store refuses it, the loop returns all the
    same; the error of [AddPreimage] is dropped, no subscriber is notified,
    and the events still to come are not looked at. *)
Theorem X20_poll_stops_after_a_failed_write {C D W : Type}
        `{!extpreimage.Client.t C} `{!htlcswitch.InvoiceDatabase.t D}
        `{!witnessCache.t W}
        (p p1 : witness_beacon_poll.preimageBeacon C D W)
        (sel : list witness_beacon_poll.selected)
        (i i' : channeldb.ContractTerm.t) (preimage : bytes)
        (err : error) (w' : W) :
  witness_beacon_poll.call_GetPaymentPreimage i (uint32 0) (uint32 0) p
  = (preimage, None, None, i', p1) →
  witnessCache.AddWitness channeldb.Sha256HashWitness preimage
    (witness_beacon_poll.wCache p1) = (Some err, w') →
  witness_beacon_poll.pollLoop (witness_beacon_poll.ticker_C :: sel) i p
  = (true,
     witness_beacon_poll.mkBeacon
       (witness_beacon_poll.extpreimageClient p1)
       (witness_beacon_poll.invoices p1) w'
       (witness_beacon_poll.clientCounter p1)
       (witness_beacon_poll.subscribers p1)
       (witness_beacon_poll.pollCounter p1)
       (witness_beacon_poll.polls p1)
       (witness_beacon_poll.goroutines p)
       (witness_beacon_poll.calls p1
        ++ [CallAddWitness channeldb.Sha256HashWitness preimage])).
Proof.
  intros Hres Hadd.
  pose proof (call_GetPaymentPreimage_goroutines i (uint32 0) (uint32 0) p) as Hg.
  rewrite Hres in Hg. simpl in Hg.
  rewrite (pollLoop_tick sel _ _ _ _ _ _ _ Hres),
    (AddPreimage_failure _ _ _ _ Hadd). simpl. by rewrite Hg.
Qed.

Lemma X20_poll_stops_after_a_failed_write_witness :
  (witness_beacon_poll.pollLoop
     [witness_beacon_poll.ticker_C; witness_beacon_poll.ticker_C]
     example.external_term
     (example.beacon_of [stub.Respond example.good]
                        (Some (Errorf "witness cache closed")))).1 = true.
Proof.
  pose (p := example.beacon_of [stub.Respond example.good]
                               (Some (Errorf "witness cache closed"))).
  pose (r := witness_beacon_poll.call_GetPaymentPreimage
               example.external_term (uint32 0) (uint32 0) p).
  assert (witness_beacon_poll.call_GetPaymentPreimage
            example.external_term (uint32 0) (uint32 0) p
          = (r.1.1.1.1, None, None, r.1.2, r.2)) as Hres.
  { vm_compute. reflexivity. }
  assert (witnessCache.AddWitness channeldb.Sha256HashWitness r.1.1.1.1
            (witness_beacon_poll.wCache r.2)
          = (Some (Errorf "witness cache closed"),
             stub.mkWitnesses [] (Some (Errorf "witness cache closed"))))
    as Hadd.
  { vm_compute. reflexivity. }
  exact (f_equal fst
           (X20_poll_stops_after_a_failed_write
              p r.2 [witness_beacon_poll.ticker_C]
              example.external_term r.1.2 r.1.1.1.1
              (Errorf "witness cache closed")
              (stub.mkWitnesses [] (Some (Errorf "witness cache closed")))
              Hres Hadd)).
Defined.

(** ** Shutting the polls down *)

Section Stop_facts.
Context {C D W : Type} `{!extpreimage.Client.t C}
        `{!htlcswitch.InvoiceDatabase.t D} `{!witnessCache.t W}.
Import witness_beacon_poll.
Implicit Types (p : preimageBeacon C D W) (i : channeldb.ContractTerm.t).

Lemma Stop_signalled p (id : Z) :
  id ∈ (Stop p).1 ↔ is_Some (default ∅ (polls p) !! id).
Proof.
  unfold Stop, set_polls. run. simpl.
  rewrite list_elem_of_fmap. split.
  - intros ([k q] & -> & Hin). apply elem_of_map_to_list in Hin. by exists q.
  - intros [q Hq]. exists (id, q). split; [done|]. by apply elem_of_map_to_list.
Qed.

Lemma pollExtpreimage_running sel i pollInterval p :
  (pollExtpreimage sel i pollInterval p).1 = false →
  default ∅ (polls (pollExtpreimage sel i pollInterval p).2) !! pollCounter p
  = Some false.
Proof.
  intros Hrun.
  destruct (pollExtpreimage_registry sel i pollInterval p) as (reg & Hreg & Hid).
  rewrite Hrun in Hid. by rewrite Hreg.
Qed.

End Stop_facts.

(** X21.  [Stop] signals every registered poll exactly once and no other,
    and leaves an empty registry behind: a second [Stop] signals nobody.
    The poll counter, the subscribers, the goroutines and the recorded
    calls are as they were. *)
Theorem X21_Stop_signals_each_registered_poll_once {C D W : Type}
        `{!extpreimage.Client.t C} `{!htlcswitch.InvoiceDatabase.t D}
        `{!witnessCache.t W}
        (p : witness_beacon_poll.preimageBeacon C D W) :
  let outcome := witness_beacon_poll.Stop p in
  NoDup outcome.1
  ∧ (∀ id : Z,
       id ∈ outcome.1
       ↔ is_Some (default ∅ (witness_beacon_poll.polls p) !! id))
  ∧ witness_beacon_poll.polls outcome.2 = Some ∅
  ∧ (witness_beacon_poll.Stop outcome.2).1 = []
  ∧ witness_beacon_poll.pollCounter outcome.2 = witness_beacon_poll.pollCounter p
  ∧ witness_beacon_poll.subscribers outcome.2 = witness_beacon_poll.subscribers p
  ∧ witness_beacon_poll.clientCounter outcome.2
    = witness_beacon_poll.clientCounter p
  ∧ witness_beacon_poll.goroutines outcome.2 = witness_beacon_poll.goroutines p
  ∧ witness_beacon_poll.calls outcome.2 = witness_beacon_poll.calls p.
Proof.
  simpl. split; [|split; [apply Stop_signalled|]].
  - unfold witness_beacon_poll.Stop, witness_beacon_poll.set_polls. run. simpl.
    apply NoDup_fst_map_to_list.
  - unfold witness_beacon_poll.Stop, witness_beacon_poll.set_polls. run. simpl.
    rewrite map_to_list_empty. by repeat split.
Qed.

(** X22.  A poll that has not returned stays registered while other polls
    come and go: the next poll is registered under another id, it leaves the
    entry of the first alone whether it returns or not, and a [Stop] after
    both signals the first. *)
Theorem X22_running_poll_stays_registered {C D W : Type}
        `{!extpreimage.Client.t C} `{!htlcswitch.InvoiceDatabase.t D}
        `{!witnessCache.t W}
        (p : witness_beacon_poll.preimageBeacon C D W)
        (sel1 sel2 : list witness_beacon_poll.selected)
        (i1 i2 : channeldb.ContractTerm.t) (interval1 interval2 : Z) :
  (witness_beacon_poll.pollExtpreimage sel1 i1 interval1 p).1 = false →
  let p1 := (witness_beacon_poll.pollExtpreimage sel1 i1 interval1 p).2 in
  let p2 := (witness_beacon_poll.pollExtpreimage sel2 i2 interval2 p1).2 in
  witness_beacon_poll.pollCounter p1 ≠ witness_beacon_poll.pollCounter p
  ∧ default ∅ (witness_beacon_poll.polls p2) !! witness_beacon_poll.pollCounter p
    = Some false
  ∧ witness_beacon_poll.pollCounter p ∈ (witness_beacon_poll.Stop p2).1.
Proof.
  intros Hrun p1 p2.
  assert (witness_beacon_poll.pollCounter p1 ≠ witness_beacon_poll.pollCounter p)
    as Hne.
  { subst p1. rewrite pollExtpreimage_counter. apply uint64_succ_ne. }
  assert (default ∅ (witness_beacon_poll.polls p2)
            !! witness_beacon_poll.pollCounter p = Some false) as Hreg.
  { subst p2. rewrite pollExtpreimage_other_polls by congruence.
    subst p1. by apply pollExtpreimage_running. }
  split; [exact Hne|]. split; [exact Hreg|].
  apply Stop_signalled. rewrite Hreg. by eexists.
Qed.

Lemma X22_running_poll_stays_registered_witness :
  default ∅
    (witness_beacon_poll.polls
       (witness_beacon_poll.pollExtpreimage
          [witness_beacon_poll.ticker_C] example.external_term Second
          (witness_beacon_poll.pollExtpreimage
             [witness_beacon_poll.ticker_C] example.external_term Second
             (example.beacon_of [stub.Fail EOF; stub.Respond example.good]
                                None)).2).2)
    !! 0
  = Some false.
Proof.
  exact (proj1 (proj2
    (X22_running_poll_stays_registered
       (example.beacon_of [stub.Fail EOF; stub.Respond example.good] None)
       [witness_beacon_poll.ticker_C] [witness_beacon_poll.ticker_C]
       example.external_term example.external_term Second Second
       eq_refl))).
Defined.

(** ** Polling through [PollForPreimage] *)

(** X23.  [PollForPreimage] tells its caller to stop in exactly three
    cases: the invoice store does not know the hash, the resolution of the
    invoice fails permanently, or the preimage is resolved and the witness
    store accepts it.  Another store error, a temporary error and a refused
    write all ask to keep polling; and when the lookup fails no witness is
    written and no goroutine started. *)
Theorem X23_PollForPreimage_stops_in_three_cases {C D W : Type}
        `{!extpreimage.Client.t C} `{!htlcswitch.InvoiceDatabase.t D}
        `{!witnessCache.t W}
        (p : witness_beacon.preimageBeacon C D W) (payHash : bytes)
        (invoice : channeldb.Invoice.t) (height : Z) (err : option error)
        (d : D) :
  htlcswitch.InvoiceDatabase.LookupInvoice (invoiceKey payHash)
    (witness_beacon.invoices p) = (invoice, height, err, d) →
  let res : Resolution :=
    (channeldb.GetPaymentPreimage (uint32 0) (uint32 0)
       (extpreimage.mkWorld (castInvoiceTerm invoice)
          (witness_beacon.extpreimageClient p) d [])).1 in
  let outcome := witness_beacon.PollForPreimage payHash p in
  (outcome.1 = false
   ↔ err = Some ErrInvoiceNotFound
     ∨ (err = None ∧ permErr_of res ≠ None)
     ∨ (err = None ∧ permErr_of res = None ∧ tempErr_of res = None
        ∧ (witnessCache.AddWitness channeldb.Sha256HashWitness
             (preimage_of res) (witness_beacon.wCache p)).1 = None))
  ∧ (err ≠ None →
     witnesses_added (witness_beacon.calls outcome.2)
     = witnesses_added (witness_beacon.calls p)
     ∧ witness_beacon.goroutines outcome.2 = witness_beacon.goroutines p).
Proof.
  intros Hlook res outcome. subst outcome.
  unfold witness_beacon.PollForPreimage, witness_beacon.call_LookupInvoice.
  run. rewrite Hlook. simpl.
  destruct err as [e|].
  { split.
    - destruct e; simpl; split; try done; try (intros [?|[[? _]|[? _]]]; done).
      by left.
    - intros _. destruct e; simpl; by rewrite witnesses_added_app, app_nil_r. }
  split; [|done].
  match goal with
  | |- context [witness_beacon.call_GetPaymentPreimage ?i ?t ?h ?q] =>
      pose proof (old_call_GetPaymentPreimage_result i t h q) as Hres;
      pose proof (old_call_GetPaymentPreimage_frame i t h q) as (_ & _ & Hw & _);
      destruct (witness_beacon.call_GetPaymentPreimage i t h q)
        as [[[[preimage tempErr] permErr] i'] p1]
  end.
  simpl in Hres, Hw. fold res in Hres.
  assert (res = (preimage, tempErr, permErr)) as Hr by congruence.
  rewrite Hr. unfold permErr_of, tempErr_of, preimage_of. simpl.
  destruct permErr as [pe|].
  { simpl. split; [|done]. intros _. right. left. done. }
  destruct tempErr as [te|].
  { simpl. split; [done|]. intros [?|[[_ ?]|(_ & _ & ? & _)]]; done. }
  simpl. rewrite <- Hw.
  destruct (witnessCache.AddWitness channeldb.Sha256HashWitness preimage
              (witness_beacon.wCache p1)) as [[e|] w'] eqn:Hadd.
  - rewrite (old_AddPreimage_failure _ _ _ _ Hadd). simpl.
    split; [done|]. intros [?|[[_ ?]|(_ & _ & _ & ?)]]; done.
  - destruct (old_AddPreimage_success _ _ _ Hadd) as (Hnone & _).
    destruct (witness_beacon.AddPreimage preimage p1) as [r p2].
    simpl in Hnone. subst r. simpl. split; [|done].
    intros _. right. right. done.
Qed.

Lemma X23_PollForPreimage_stops_in_three_cases_witness :
  (witness_beacon.PollForPreimage example.hash1
     (example.old_beacon_of [stub.Respond example.good]
                            (Some (Errorf "witness cache closed")))).1 = true
  ∧ (witness_beacon.PollForPreimage example.hash1
       (example.old_beacon_of [stub.Respond example.good] None)).1 = false.
Proof.
  assert (∀ add_error,
            htlcswitch.InvoiceDatabase.LookupInvoice (invoiceKey example.hash1)
              (witness_beacon.invoices
                 (example.old_beacon_of [stub.Respond example.good] add_error))
            = (channeldb.Invoice.mk [] example.external_term, 0, None,
               example.store)) as Hlook.
  { intros add_error. vm_compute. reflexivity. }
  split.
  - destruct (witness_beacon.PollForPreimage example.hash1
                (example.old_beacon_of [stub.Respond example.good]
                   (Some (Errorf "witness cache closed")))).1 eqn:Hret;
      [reflexivity|].
    apply (X23_PollForPreimage_stops_in_three_cases
             (example.old_beacon_of [stub.Respond example.good]
                (Some (Errorf "witness cache closed")))
             example.hash1
             (channeldb.Invoice.mk [] example.external_term) 0 None
             example.store (Hlook _)) in Hret.
    destruct Hret as [Hret|[[_ Hret]|(_ & _ & _ & Hret)]];
      vm_compute in Hret; congruence.
  - apply (X23_PollForPreimage_stops_in_three_cases
             (example.old_beacon_of [stub.Respond example.good] None)
             example.hash1
             (channeldb.Invoice.mk [] example.external_term) 0 None
             example.store (Hlook _)).
    right. right. vm_compute. repeat split.
Defined.
